(** * Cable short-circuit calculator: the client-side calculation engine

    A shallow embedding of [static/script_enhanced.js]: the constant
    tables, [validateVoltageTime], the two conductor formulas, the sheath
    geometry resolver, the sheath formula chain ([calculateM],
    [calculateEpsilon], [calculateSheathAdiabaticArea]), the two form
    submit handlers, the two download handlers and the PDF preview
    wiring, followed by the properties of the specification and by
    further properties of the script.

    Numbers.  A JavaScript number is modelled by [num]: NaN, the two
    infinities, or a finite value carried as a real number.  Arithmetic on
    finite values is exact (no rounding, no overflow, a single unsigned
    zero); NaN and the infinities propagate as in IEEE 754, so that
    [x / 0], [Math.log] of a non-positive number and comparisons with NaN
    behave as they do in the browser.  The browser computes with binary64
    numbers: a property that rounding, overflow or underflow could break
    is stated for magnitudes well inside their range and with a margin
    that their rounding cannot use up, and where a claim fails on them the
    function is given once more on binary64 numbers ([Binary64]).

    Page.  The script reads its inputs from the document and writes its
    results to the document and to four global variables.  [Page] holds
    all of that, and the script's functions are computations in the state
    monad [Js] over [Page].  A notification is recorded as the call of
    [showNotification] that raised it; the result markup is recorded as
    its text and its printed numbers, without tags and styling.  Console
    output, scrolling and timers are left out.  Greek letters and the
    superscript of the unit are spelled in ASCII in messages and markup.

    Tables.  A table is the list of the own keys of its object literal;
    the material names reach the script from the options of a select.
    The names that [Object.prototype] answers are listed in
    [Object_prototype]. *)

From Stdlib Require Floats.
From Stdlib Require Import Reals Lra Psatz.
From Stdlib Require Import ZArith List Bool String Ascii.
Import ListNotations.

Open Scope R_scope.
Open Scope string_scope.
Set Warnings "-inexact-float".

(* ================================================================== *)
(** ** JavaScript numbers *)

Inductive num : Type :=
| NaN
| PInf
| NInf
| Fin (r : R).

Definition Rleb (x y : R) : bool := if Rle_dec x y then true else false.
Definition Rltb (x y : R) : bool := if Rlt_dec x y then true else false.
Definition Reqb (x y : R) : bool := if Req_dec_T x y then true else false.

Definition isNaN (a : num) : bool :=
  match a with NaN => true | _ => false end.

(** [a <= b]; false as soon as one side is NaN. *)
Definition num_le (a b : num) : bool :=
  match a, b with
  | NaN, _ => false
  | _, NaN => false
  | NInf, _ => true
  | _, PInf => true
  | Fin x, Fin y => Rleb x y
  | PInf, _ => false
  | Fin _, NInf => false
  end.

(** [a < b]. *)
Definition num_lt (a b : num) : bool :=
  match a, b with
  | NaN, _ => false
  | _, NaN => false
  | NInf, NInf => false
  | NInf, _ => true
  | PInf, _ => false
  | Fin _, PInf => true
  | Fin x, Fin y => Rltb x y
  | Fin _, NInf => false
  end.

Definition num_gt (a b : num) : bool := num_lt b a.
Definition num_ge (a b : num) : bool := num_le b a.

(** [a === b] on numbers. *)
Definition num_eq (a b : num) : bool :=
  match a, b with
  | PInf, PInf => true
  | NInf, NInf => true
  | Fin x, Fin y => Reqb x y
  | _, _ => false
  end.

Definition num_neg (a : num) : num :=
  match a with
  | NaN => NaN
  | PInf => NInf
  | NInf => PInf
  | Fin r => Fin (- r)
  end.

Definition num_add (a b : num) : num :=
  match a, b with
  | NaN, _ => NaN
  | _, NaN => NaN
  | PInf, NInf => NaN
  | NInf, PInf => NaN
  | PInf, _ => PInf
  | _, PInf => PInf
  | NInf, _ => NInf
  | _, NInf => NInf
  | Fin x, Fin y => Fin (x + y)
  end.

Definition num_sub (a b : num) : num := num_add a (num_neg b).

(** An infinity [i] times the finite value [r]: its sign follows the sign
    of [r], and zero times infinity is NaN. *)
Definition inf_times (i : num) (r : R) : num :=
  if Rlt_dec 0 r then i
  else if Rlt_dec r 0 then num_neg i
  else NaN.

Definition num_mul (a b : num) : num :=
  match a, b with
  | NaN, _ => NaN
  | _, NaN => NaN
  | Fin x, Fin y => Fin (x * y)
  | Fin x, i => inf_times i x
  | i, Fin y => inf_times i y
  | PInf, PInf => PInf
  | NInf, NInf => PInf
  | PInf, NInf => NInf
  | NInf, PInf => NInf
  end.

(** Division.  A finite value divided by zero is an infinity of the sign
    of the numerator (the zero of the model is the positive zero), and
    [0 / 0] is NaN. *)
Definition num_div (a b : num) : num :=
  match a, b with
  | NaN, _ => NaN
  | _, NaN => NaN
  | Fin x, Fin y =>
      if Req_dec_T y 0 then
        (if Rlt_dec 0 x then PInf else if Rlt_dec x 0 then NInf else NaN)
      else Fin (x / y)
  | Fin _, _ => Fin 0
  | PInf, Fin y => if Rle_dec 0 y then PInf else NInf
  | NInf, Fin y => if Rle_dec 0 y then NInf else PInf
  | _, _ => NaN
  end.

(** [x ** n] and [Math.pow(x, n)] for a literal natural exponent. *)
Fixpoint num_pow (a : num) (n : nat) : num :=
  match n with
  | O => Fin 1
  | S m => num_mul a (num_pow a m)
  end.

(** [Math.log]. *)
Definition Math_log (a : num) : num :=
  match a with
  | NaN => NaN
  | PInf => PInf
  | NInf => NaN
  | Fin r =>
      if Rlt_dec r 0 then NaN
      else if Req_dec_T r 0 then NInf
      else Fin (ln r)
  end.

(** [Math.sqrt]. *)
Definition Math_sqrt (a : num) : num :=
  match a with
  | NaN => NaN
  | PInf => PInf
  | NInf => NaN
  | Fin r => if Rlt_dec r 0 then NaN else Fin (sqrt r)
  end.

Definition Math_PI : num := Fin PI.

(** [a || b] on numbers: [a] unless it is falsy (zero or NaN). *)
Definition num_or (a b : num) : num :=
  match a with
  | NaN => b
  | Fin r => if Req_dec_T r 0 then b else a
  | _ => a
  end.

Declare Scope js_scope.
Delimit Scope js_scope with js.
Bind Scope js_scope with num.
Infix "+" := num_add : js_scope.
Infix "-" := num_sub : js_scope.
Infix "*" := num_mul : js_scope.
Infix "/" := num_div : js_scope.
Infix "**" := num_pow (at level 30, right associativity) : js_scope.
Infix "<=?" := num_le (at level 70, no associativity) : js_scope.
Infix "<?" := num_lt (at level 70, no associativity) : js_scope.
Infix ">?" := num_gt (at level 70, no associativity) : js_scope.
Infix ">=?" := num_ge (at level 70, no associativity) : js_scope.
Infix "===" := num_eq (at level 70, no associativity) : js_scope.

(* ================================================================== *)
(** ** Strings of the document *)

(** The content of a numeric input.  The script only ever tests such a
    string for emptiness, parses it with [parseFloat], or writes the
    result of [toFixed] into it, so the model keeps exactly that. *)
Inductive text : Type :=
| Empty                          (* the empty string *)
| Typed (x : num)                (* a non-empty entry that parseFloat reads as x *)
| Fixed (x : num) (digits : nat) (* the string x.toFixed(digits) *).

Definition text_is_empty (s : text) : bool :=
  match s with Empty => true | _ => false end.

(** The integer nearest to [r], ties away from zero, as [toFixed] picks
    it. *)
Definition round_half_away (r : R) : Z :=
  if Rle_dec 0 r then Zfloor (r + / 2) else (- Zfloor (- r + / 2))%Z.

(** What [parseFloat] reads back from [x.toFixed(digits)]. *)
Definition fixed_value (x : num) (digits : nat) : num :=
  match x with
  | Fin r =>
      if Rle_dec 1e21 (Rabs r) then Fin r
      else Fin (IZR (round_half_away (r * 10 ^ digits)) / 10 ^ digits)
  | other => other
  end.

Definition parseFloat (s : text) : num :=
  match s with
  | Empty => NaN
  | Typed x => x
  | Fixed x d => fixed_value x d
  end.

Definition lower_ascii (c : ascii) : ascii :=
  let n := nat_of_ascii c in
  if andb (Nat.leb 65 n) (Nat.leb n 90) then ascii_of_nat (n + 32) else c.

Definition upper_ascii (c : ascii) : ascii :=
  let n := nat_of_ascii c in
  if andb (Nat.leb 97 n) (Nat.leb n 122) then ascii_of_nat (n - 32) else c.

Fixpoint toLowerCase (s : string) : string :=
  match s with
  | EmptyString => EmptyString
  | String c r => String (lower_ascii c) (toLowerCase r)
  end.

(** [s.charAt(0).toUpperCase() + s.slice(1)]. *)
Definition capitalize (s : string) : string :=
  match s with
  | EmptyString => EmptyString
  | String c r => String (upper_ascii c) r
  end.

(** Truthiness of a string: every string but the empty one. *)
Definition truthy (s : string) : bool := negb (s =? "")%string.

(* ================================================================== *)
(** ** Constant tables *)

Coercion Fin : R >-> num.

(** An object literal used as a table: its own keys, in source order. *)
Definition table (A : Type) : Type := list (string * A).

(** [obj[key]]; [None] stands for [undefined]. *)
Fixpoint lookup {A : Type} (key : string) (obj : table A) : option A :=
  match obj with
  | [] => None
  | (k, v) :: rest => if (k =? key)%string then Some v else lookup key rest
  end.

Record MaterialConstant : Type := {
  K : R;
  beta : R;
  sigmaC : R;
  rho20 : R
}.

(** Sheaths, screens, armour (Table I). *)
Definition TABLE_I_SHEATHS : table MaterialConstant := [
  ("lead", {| K := 41; beta := 230; sigmaC := 1.45e6; rho20 := 21.4e-8 |});
  ("steel", {| K := 78; beta := 202; sigmaC := 3.8e6; rho20 := 13.8e-8 |});
  ("bronze", {| K := 180; beta := 313; sigmaC := 3.4e6; rho20 := 3.5e-8 |});
  ("aluminium", {| K := 148; beta := 228; sigmaC := 2.5e6; rho20 := 2.84e-8 |})
].

Record ThermalConstant : Type := {
  rho : R;
  sigma : R
}.

(** An entry of [THERMAL_CONSTANTS] either carries [rho] and [sigma]
    itself or is split into voltage tiers. *)
Inductive thermal_entry : Type :=
| Flat (c : ThermalConstant)
| Tiered (tiers : table ThermalConstant).

(** Thermal constants (rho, sigma). *)
Definition THERMAL_CONSTANTS : table (table thermal_entry) := [
  ("insulating", [
    ("impregnated-paper-solid", Flat {| rho := 6.0; sigma := 2.0e6 |});
    ("impregnated-paper-oil-filled", Flat {| rho := 5.0; sigma := 2.0e6 |});
    ("oil", Flat {| rho := 7.0; sigma := 1.7e6 |});
    ("PE", Flat {| rho := 3.5; sigma := 2.4e6 |});
    ("XLPE", Flat {| rho := 3.5; sigma := 2.4e6 |});
    ("PVC", Tiered [
      ("<=3kV", {| rho := 5.0; sigma := 1.7e6 |});
      (">3kV", {| rho := 6.0; sigma := 1.7e6 |})
    ]);
    ("EPR", Tiered [
      ("<=3kV", {| rho := 3.5; sigma := 2.0e6 |});
      (">3kV", {| rho := 5.0; sigma := 2.0e6 |})
    ]);
    ("butyl-rubber", Flat {| rho := 5.0; sigma := 2.0e6 |});
    ("natural-rubber", Flat {| rho := 5.0; sigma := 2.0e6 |})
  ]);
  ("protective", [
    ("compounded-jute", Flat {| rho := 6.0; sigma := 2.0e6 |});
    ("rubber-sandwich", Flat {| rho := 6.0; sigma := 2.0e6 |});
    ("polychloroprene", Flat {| rho := 5.5; sigma := 2.0e6 |});
    ("PVC", Tiered [
      ("<=35kV", {| rho := 5.0; sigma := 1.7e6 |});
      (">35kV", {| rho := 6.0; sigma := 1.7e6 |})
    ]);
    ("PVC-bitumen", Flat {| rho := 6.0; sigma := 1.7e6 |});
    ("PE", Flat {| rho := 3.5; sigma := 2.4e6 |})
  ])
].

(** Thermal contact factor F. *)
Record ContactFactor : Type := {
  default : R;
  oil_filled : R
}.

Definition THERMAL_CONTACT_FACTOR : ContactFactor :=
  {| default := 0.7; oil_filled := 1.0 |}.

(* ================================================================== *)
(** ** The page: document, globals and what the script shows *)

Module ConductorData.
Record t : Type := {
  voltage : num;
  area : num;
  material : string;
  insulation : string;
  outer_sheath : string;
  scc_required : num;
  time : num;
  theta_i : num;
  theta_f : num;
  beta : num;
  k_value : num;
  i_ad : text
}.
End ConductorData.

Module SheathData.
Record t : Type := {
  voltage : num;
  conductor_area : num;
  material : string;
  sheath_material : string;
  insulation : string;
  outer_sheath : string;
  thickness : text;
  inner_d : text;
  outer_d : text;
  sheath_area : text;
  scc_required : num;
  time : num;
  theta_i : num;
  theta_f : num;
  beta : num;
  k_value : num;
  i_ad : text;
  sigma1 : num;
  sigma2 : num;
  sigma3 : num;
  rho2 : num;
  rho3 : num;
  f_factor : num;
  m_factor : text;
  epsilon : text;
  i_non_ad : text
}.
End SheathData.

(** A call of [showNotification(message, type)]. *)
Record Notification : Type := {
  message : string;
  type : string
}.

(** The result markup: literal pieces and numbers printed by [toFixed]. *)
Inductive fragment : Type :=
| Markup (s : string)
| Number (x : num) (digits : nat).

Definition html : Type := list fragment.

Record Page : Type := {
  (* document *)
  input : string -> text;           (* value of the numeric input with this id *)
  select : string -> string;        (* value of the select with this id *)
  borderColor : string -> string;   (* style.borderColor of the element *)
  display : string -> string;       (* style.display of the element *)
  resultText : html;                (* resultText.innerHTML *)
  resultClass : string;             (* resultText.className *)
  (* globals *)
  conductorData : option ConductorData.t;
  sheathData : option SheathData.t;
  conductorCalculated : bool;
  sheathCalculated : bool;
  (* notifications shown so far, oldest first *)
  notifications : list Notification
}.

Definition upd {A : Type} (id : string) (v : A) (f : string -> A) : string -> A :=
  fun k => if (k =? id)%string then v else f k.

Definition set_input (id : string) (v : text) (p : Page) : Page :=
  {| input := upd id v (input p); select := select p;
     borderColor := borderColor p; display := display p;
     resultText := resultText p; resultClass := resultClass p;
     conductorData := conductorData p; sheathData := sheathData p;
     conductorCalculated := conductorCalculated p;
     sheathCalculated := sheathCalculated p;
     notifications := notifications p |}.

Definition set_borderColor (id : string) (v : string) (p : Page) : Page :=
  {| input := input p; select := select p;
     borderColor := upd id v (borderColor p); display := display p;
     resultText := resultText p; resultClass := resultClass p;
     conductorData := conductorData p; sheathData := sheathData p;
     conductorCalculated := conductorCalculated p;
     sheathCalculated := sheathCalculated p;
     notifications := notifications p |}.

Definition set_display (id : string) (v : string) (p : Page) : Page :=
  {| input := input p; select := select p;
     borderColor := borderColor p; display := upd id v (display p);
     resultText := resultText p; resultClass := resultClass p;
     conductorData := conductorData p; sheathData := sheathData p;
     conductorCalculated := conductorCalculated p;
     sheathCalculated := sheathCalculated p;
     notifications := notifications p |}.

Definition set_result (h : html) (cls : string) (p : Page) : Page :=
  {| input := input p; select := select p;
     borderColor := borderColor p; display := display p;
     resultText := h; resultClass := cls;
     conductorData := conductorData p; sheathData := sheathData p;
     conductorCalculated := conductorCalculated p;
     sheathCalculated := sheathCalculated p;
     notifications := notifications p |}.

Definition set_conductor (d : ConductorData.t) (p : Page) : Page :=
  {| input := input p; select := select p;
     borderColor := borderColor p; display := display p;
     resultText := resultText p; resultClass := resultClass p;
     conductorData := Some d; sheathData := sheathData p;
     conductorCalculated := conductorCalculated p;
     sheathCalculated := sheathCalculated p;
     notifications := notifications p |}.

Definition set_sheath (d : SheathData.t) (p : Page) : Page :=
  {| input := input p; select := select p;
     borderColor := borderColor p; display := display p;
     resultText := resultText p; resultClass := resultClass p;
     conductorData := conductorData p; sheathData := Some d;
     conductorCalculated := conductorCalculated p;
     sheathCalculated := sheathCalculated p;
     notifications := notifications p |}.

Definition set_conductorCalculated (b : bool) (p : Page) : Page :=
  {| input := input p; select := select p;
     borderColor := borderColor p; display := display p;
     resultText := resultText p; resultClass := resultClass p;
     conductorData := conductorData p; sheathData := sheathData p;
     conductorCalculated := b;
     sheathCalculated := sheathCalculated p;
     notifications := notifications p |}.

Definition set_sheathCalculated (b : bool) (p : Page) : Page :=
  {| input := input p; select := select p;
     borderColor := borderColor p; display := display p;
     resultText := resultText p; resultClass := resultClass p;
     conductorData := conductorData p; sheathData := sheathData p;
     conductorCalculated := conductorCalculated p;
     sheathCalculated := b;
     notifications := notifications p |}.

Definition notify (n : Notification) (p : Page) : Page :=
  {| input := input p; select := select p;
     borderColor := borderColor p; display := display p;
     resultText := resultText p; resultClass := resultClass p;
     conductorData := conductorData p; sheathData := sheathData p;
     conductorCalculated := conductorCalculated p;
     sheathCalculated := sheathCalculated p;
     notifications := notifications p ++ [n] |}.

(** *** The state monad of the script *)

Definition Js (A : Type) : Type := Page -> A * Page.

Definition ret {A : Type} (a : A) : Js A := fun p => (a, p).

Definition bind {A B : Type} (m : Js A) (k : A -> Js B) : Js B :=
  fun p => let (a, p') := m p in k a p'.

Definition gets {A : Type} (f : Page -> A) : Js A := fun p => (f p, p).

Definition modify (f : Page -> Page) : Js unit := fun p => (tt, f p).

Declare Scope monad_scope.
Delimit Scope monad_scope with monad.
Notation "x <- m ;; k" := (bind m (fun x => k))
  (at level 61, m at next level, right associativity) : monad_scope.
Notation "m ;; k" := (bind m (fun _ => k))
  (at level 61, right associativity) : monad_scope.
Open Scope monad_scope.

(** [document.getElementById(id).value] of a numeric input, of a select,
    and [parseFloat] of the former. *)
Definition value (id : string) : Js text := gets (fun p => input p id).
Definition selected (id : string) : Js string := gets (fun p => select p id).
Definition number (id : string) : Js num := gets (fun p => parseFloat (input p id)).

(** How a submit handler ends: through one of its [return] statements, or
    by running to its last line. *)
Inductive completion : Type := Returned | Completed.

(* ================================================================== *)
(** ** Utils *)

Definition showNotification (message type : string) : Js unit :=
  modify (notify {| message := message; type := type |}).

Definition showResult (h : html) (isError : bool) : Js unit :=
  modify (set_result h (if isError then "results-box error" else "results-box")) ;;
  modify (set_display "resultBox" "block").

Open Scope js_scope.

Definition validateVoltageTime (voltageKv t : num) : Js bool :=
  if (voltageKv <=? 0) || (t <=? 0) then
    showNotification "Voltage and time must be positive." "error" ;;
    ret false
  else if voltageKv >? 400 then
    showNotification "Voltage must not be greater than 400 kV." "error" ;;
    ret false
  else if t >? 10 then
    showNotification "Time must not be greater than 10 seconds." "error" ;;
    ret false
  else ret true.

(* ================================================================== *)
(** ** Step 2: conductor calculation *)

Definition calculateConductorAreaFromCurrent : Js (option num) :=
  voltageKv <- number "voltageKv" ;;
  I_AD_kA <- number "sccKa" ;;
  t <- number "timeSec" ;;
  K <- number "kValue" ;;
  beta <- number "beta" ;;
  let theta_i : num := 90 in
  let theta_f : num := 250 in
  if existsb isNaN [voltageKv; I_AD_kA; t; K; beta] then
    showNotification "Please fill all conductor inputs." "warning" ;;
    ret None
  else
  ok <- validateVoltageTime voltageKv t ;;
  if negb ok then ret None
  else
  if (I_AD_kA <=? 0) || (K <=? 0) then
    showNotification "Current and K must be positive." "error" ;;
    ret None
  else
  let lnTerm := Math_log ((theta_f + beta) / (theta_i + beta)) in
  if lnTerm <=? 0 then
    showNotification "Invalid temperature / beta combination." "error" ;;
    ret None
  else
  let I_AD_A := I_AD_kA * 1000 in
  let S_sq := (I_AD_A ** 2 * t) / (K ** 2 * lnTerm) in
  if S_sq <=? 0 then
    showNotification "Calculated conductor area is not valid." "error" ;;
    ret None
  else
  ret (Some (Math_sqrt S_sq)).

Definition calculateConductorCurrentFromArea : Js (option num) :=
  t <- number "timeSec" ;;
  K <- number "kValue" ;;
  beta <- number "beta" ;;
  let theta_i : num := 90 in
  let theta_f : num := 250 in
  S_given <- number "givenConductorArea" ;;
  if existsb isNaN [t; K; beta; S_given] then
    showNotification "Please fill time, K, beta and given area." "warning" ;;
    ret None
  else
  if t <=? 0 then
    showNotification "Time must be positive." "error" ;;
    ret None
  else
  if (S_given <=? 0) || (K <=? 0) then
    showNotification "Area and K must be positive." "error" ;;
    ret None
  else
  let lnTerm := Math_log ((theta_f + beta) / (theta_i + beta)) in
  if lnTerm <=? 0 then
    showNotification "Invalid temperature / beta combination." "error" ;;
    ret None
  else
  let I_AD_A := K * S_given * Math_sqrt (lnTerm / t) in
  ret (Some (I_AD_A / 1000)).

(** The last three statements of the conductor handler. *)
Definition conductor_done (h : html) : Js completion :=
  modify (set_conductorCalculated true) ;;
  modify (set_display "btnDownloadConductor" "inline-block") ;;
  showResult h false ;;
  ret Completed.

(** [conductorForm.addEventListener("submit", ...)].  The markup of the
    result is kept as its text and its printed numbers. *)
Definition conductorForm_submit : Js completion :=
  mode <- selected "conductorMode" ;;
  S_given_str <- value "givenConductorArea" ;;
  let h : html := [Markup "Conductor Calculation Results"] in
  voltageKv <- number "voltageKv" ;;
  I_AD_kA <- number "sccKa" ;;
  t <- number "timeSec" ;;
  K <- number "kValue" ;;
  beta <- number "beta" ;;
  material <- selected "material" ;;
  insulation <- selected "insulationMaterial" ;;
  outerSheath <- selected "outerSheathMaterial" ;;
  let theta_i : num := 90 in
  let theta_f : num := 250 in
  if (mode =? "area-from-current")%string then
    S_required <- calculateConductorAreaFromCurrent ;;
    match S_required with
    | None => ret Returned
    | Some S_required =>
        let h := (h ++ [Markup "Required cross-sectional area S:";
                        Number S_required 2; Markup "mm2"])%list in
        let S_given :=
          if negb (text_is_empty S_given_str) then parseFloat S_given_str
          else S_required in
        (* the block guarded by S_given_str !== ""; None is its return *)
        checked <-
          (if negb (text_is_empty S_given_str) then
             if isNaN S_given || (S_given <=? 0) then
               showNotification "Given conductor area must be positive." "error" ;;
               ret None
             else if S_given >=? S_required then
               showNotification "Conductor calculation passed!" "success" ;;
               ret (Some (h ++ [Markup "Cable size is sufficient for the required area."])%list)
             else
               showNotification "Cable undersized - check results!" "warning" ;;
               ret (Some (h ++ [Markup "Cable undersized. Please choose the next available size."])%list)
           else ret (Some h)) ;;
        match checked with
        | None => ret Returned
        | Some h =>
            let lnTerm := Math_log ((theta_f + beta) / (theta_i + beta)) in
            let I_AD_A := K * S_given * Math_sqrt (lnTerm / t) in
            let I_AD_calculated := I_AD_A / 1000 in
            modify (set_conductor {|
              ConductorData.voltage := voltageKv;
              ConductorData.area := S_given;
              ConductorData.material := material;
              ConductorData.insulation := insulation;
              ConductorData.outer_sheath := outerSheath;
              ConductorData.scc_required := I_AD_kA;
              ConductorData.time := t;
              ConductorData.theta_i := theta_i;
              ConductorData.theta_f := theta_f;
              ConductorData.beta := beta;
              ConductorData.k_value := K;
              ConductorData.i_ad := Fixed I_AD_calculated 3 |}) ;;
            conductor_done h
        end
    end
  else
    I_AD_kA_calc <- calculateConductorCurrentFromArea ;;
    match I_AD_kA_calc with
    | None => ret Returned
    | Some I_AD_kA_calc =>
        let h := (h ++ [Markup "Adiabatic short-circuit current I_AD for given area:";
                        Number I_AD_kA_calc 2; Markup "kA"])%list in
        showNotification "Conductor calculation complete!" "success" ;;
        let S_given := parseFloat S_given_str in
        modify (set_conductor {|
          ConductorData.voltage := voltageKv;
          ConductorData.area := S_given;
          ConductorData.material := material;
          ConductorData.insulation := insulation;
          ConductorData.outer_sheath := outerSheath;
          ConductorData.scc_required := I_AD_kA;
          ConductorData.time := t;
          ConductorData.theta_i := theta_i;
          ConductorData.theta_f := theta_f;
          ConductorData.beta := beta;
          ConductorData.k_value := K;
          ConductorData.i_ad := Fixed I_AD_kA_calc 3 |}) ;;
        conductor_done h
    end.

(* ================================================================== *)
(** ** Step 3: sheath geometry *)

Definition updateSheathGeometry : Js unit :=
  Do <- number "sheathOuterD" ;;
  Di <- number "sheathInnerD" ;;
  modify (set_borderColor "sheathOuterD" "") ;;
  modify (set_borderColor "sheathInnerD" "") ;;
  if negb (isNaN Do) && negb (isNaN Di) && (Do >? 0) && (Di >? 0) then
    if Do >? Di then
      let delta := (Do - Di) / 2 in
      let area := (Math_PI / 4) * (Do * Do - Di * Di) in
      modify (set_input "sheathThickness" (Fixed delta 3)) ;;
      modify (set_input "sheathAreaGiven" (Fixed area 2))
    else
      modify (set_input "sheathThickness" Empty) ;;
      modify (set_input "sheathAreaGiven" Empty) ;;
      modify (set_borderColor "sheathOuterD" "red") ;;
      modify (set_borderColor "sheathInnerD" "red")
  else
    modify (set_input "sheathThickness" Empty) ;;
    modify (set_input "sheathAreaGiven" Empty).

(* ================================================================== *)
(** ** Sheath thermal helpers *)

Definition getThermalConstants (materialType materialName : string)
    (voltageKv : num) : option ThermalConstant :=
  match lookup materialType THERMAL_CONSTANTS with
  | None => None
  | Some group =>
      match lookup materialName group with
      | None => None
      | Some (Flat entry) => Some entry
      | Some (Tiered entry) =>
          if (materialType =? "insulating")%string then
            if (materialName =? "PVC")%string || (materialName =? "EPR")%string then
              if voltageKv <=? 3 then lookup "<=3kV" entry else lookup ">3kV" entry
            else None
          else if (materialType =? "protective")%string then
            if (materialName =? "PVC")%string then
              if voltageKv <=? 35 then lookup "<=35kV" entry else lookup ">35kV" entry
            else None
          else None
      end
  end.

Definition calculateM (insulationMaterial outerSheathMaterial : string)
    (sheathThickness : num) (sheathMaterial : string) (voltageKv : num)
    (isOilFilled : string) : option num :=
  match getThermalConstants "insulating" insulationMaterial voltageKv,
        getThermalConstants "protective" outerSheathMaterial voltageKv with
  | Some insulation, Some outerSheath =>
      let sigma2 : num := insulation.(sigma) in
      let rho2 : num := insulation.(rho) in
      let sigma3 : num := outerSheath.(sigma) in
      let rho3 : num := outerSheath.(rho) in
      match lookup sheathMaterial TABLE_I_SHEATHS with
      | None => None
      | Some sheath =>
          let sigma1 : num := sheath.(sigmaC) in
          let delta := sheathThickness in
          let F : num :=
            if (isOilFilled =? "yes")%string
            then THERMAL_CONTACT_FACTOR.(oil_filled)
            else THERMAL_CONTACT_FACTOR.(default) in
          let sqrtTerm1 := Math_sqrt (sigma2 / rho2) in
          let sqrtTerm2 := Math_sqrt (sigma3 / rho3) in
          let numerator := sqrtTerm1 + sqrtTerm2 in
          let denominator := 2 * sigma1 * delta * 1e-3 in
          if denominator === 0 then None
          else Some ((numerator / denominator) * F)
      end
  | _, _ => None
  end.

Definition Math_pow (x : num) (n : nat) : num := x ** n.

(** [M] may be [null], hence the option. *)
Definition calculateEpsilon (M : option num) (t : num) : option num :=
  match M with
  | None => None
  | Some M =>
      if isNaN t || (t <=? 0) then None
      else
        let MsqrtT := M * Math_sqrt t in
        Some (1 + 0.61 * MsqrtT - 0.069 * Math_pow MsqrtT 2
                + 0.0043 * Math_pow MsqrtT 3)
  end.

Definition calculateSheathAdiabaticArea (I_AD_kA t : num)
    (sheathMaterial : string) (theta_i theta_f : num) : option num :=
  match lookup sheathMaterial TABLE_I_SHEATHS with
  | None => None
  | Some mat =>
      let K : num := mat.(K) in
      let beta : num := mat.(beta) in
      let lnTerm := Math_log ((theta_f + beta) / (theta_i + beta)) in
      if lnTerm <=? 0 then None
      else
        let I_AD_A := I_AD_kA * 1000 in
        let s_sq := (I_AD_A ** 2 * t) / (K ** 2 * lnTerm) in
        if s_sq <=? 0 then None
        else Some (Math_sqrt s_sq)
  end.

(* ================================================================== *)
(** ** Sheath form submit *)

(** [sheathForm.addEventListener("submit", ...)]. *)
Definition sheathForm_submit : Js completion :=
  sheathMaterial <- (s <- selected "sheathMaterial" ;; ret (toLowerCase s)) ;;
  voltageKv <- number "sheathVoltageKv" ;;
  I_AD_kA <- number "sheathSccKa" ;;
  t <- number "sheathTimeSec" ;;
  insulationMaterial <- selected "insulationMaterial" ;;
  outerSheathMaterial <- selected "outerSheathMaterial" ;;
  theta_i <- number "sheathThetaInitial" ;;
  theta_f <- number "sheathThetaFinal" ;;
  Do <- number "sheathOuterD" ;;
  Di <- number "sheathInnerD" ;;
  sheathThickness <- number "sheathThickness" ;;
  s_given <- number "sheathAreaGiven" ;;
  conductorArea <- (a <- number "givenConductorArea" ;; ret (num_or a 0)) ;;
  conductorMaterial <- selected "material" ;;
  let isOilFilled := "no" in
  if negb (truthy sheathMaterial)
     || existsb isNaN [voltageKv; I_AD_kA; t; theta_i; theta_f; Do; Di;
                       sheathThickness; s_given]
     || negb (truthy insulationMaterial)
     || negb (truthy outerSheathMaterial)
  then
    showNotification "Please fill all sheath inputs." "warning" ;;
    ret Returned
  else
  ok <- validateVoltageTime voltageKv t ;;
  if negb ok then ret Returned
  else
  if I_AD_kA <=? 0 then
    showNotification "Short-circuit current must be positive." "error" ;;
    ret Returned
  else
  if negb ((Do >? Di) && (Do >? 0) && (Di >? 0)) then
    showNotification "Outer diameter must be greater than inner diameter." "error" ;;
    ret Returned
  else
  match calculateSheathAdiabaticArea I_AD_kA t sheathMaterial theta_i theta_f with
  | None =>
      showNotification "Could not calculate adiabatic sheath area." "error" ;;
      ret Returned
  | Some s_adiab =>
  match calculateM insulationMaterial outerSheathMaterial sheathThickness
                   sheathMaterial voltageKv isOilFilled with
  | None =>
      showNotification "Could not calculate M factor." "error" ;;
      ret Returned
  | Some M =>
  match calculateEpsilon (Some M) t with
  | None =>
      showNotification "Could not calculate epsilon factor." "error" ;;
      ret Returned
  | Some epsilon =>
      let s_required := s_adiab * epsilon in
      let i_non_ad := epsilon * s_adiab in
      let h : html :=
        [Markup "Sheath Calculation Results";
         Markup "Adiabatic area s_adiab:"; Number s_adiab 2; Markup "mm2";
         Markup "Non-adiabatic factor epsilon:"; Number epsilon 3;
         Markup "Required sheath area (non-adiabatic):";
         Number s_required 2; Markup "mm2";
         Markup "Actual sheath area from D_outer, D_inner:";
         Number s_given 2; Markup "mm2"] in
      h <-
        (if s_given >=? s_required then
           showNotification "Sheath calculation passed!" "success" ;;
           ret (h ++ [Markup "Sheath size is sufficient for the required area."])%list
         else
           showNotification "Sheath undersized - check results!" "warning" ;;
           ret (h ++ [Markup "Sheath undersized. Please choose the next available size."])%list) ;;
      let insulation := getThermalConstants "insulating" insulationMaterial voltageKv in
      let outerSheath := getThermalConstants "protective" outerSheathMaterial voltageKv in
      let sheath := lookup sheathMaterial TABLE_I_SHEATHS in
      modify (set_sheath {|
        SheathData.voltage := voltageKv;
        SheathData.conductor_area := conductorArea;
        SheathData.material := conductorMaterial;
        SheathData.sheath_material := capitalize sheathMaterial;
        SheathData.insulation := insulationMaterial;
        SheathData.outer_sheath := outerSheathMaterial;
        SheathData.thickness := Fixed sheathThickness 3;
        SheathData.inner_d := Fixed Di 2;
        SheathData.outer_d := Fixed Do 2;
        SheathData.sheath_area := Fixed s_given 2;
        SheathData.scc_required := I_AD_kA;
        SheathData.time := t;
        SheathData.theta_i := theta_i;
        SheathData.theta_f := theta_f;
        SheathData.beta := match sheath with Some m => Fin m.(beta) | None => 228 end;
        SheathData.k_value := match sheath with Some m => Fin m.(K) | None => 148 end;
        SheathData.i_ad := Fixed s_adiab 3;
        SheathData.sigma1 := match sheath with Some m => Fin m.(sigmaC) | None => 2500000 end;
        SheathData.sigma2 := match insulation with Some c => Fin c.(sigma) | None => 2400000 end;
        SheathData.sigma3 := match outerSheath with Some c => Fin c.(sigma) | None => 2400000 end;
        SheathData.rho2 := match insulation with Some c => Fin c.(rho) | None => 3.5 end;
        SheathData.rho3 := match outerSheath with Some c => Fin c.(rho) | None => 3.5 end;
        SheathData.f_factor := 0.7;
        SheathData.m_factor := Fixed M 3;
        SheathData.epsilon := Fixed epsilon 3;
        SheathData.i_non_ad := Fixed i_non_ad 3 |}) ;;
      modify (set_sheathCalculated true) ;;
      modify (set_display "btnDownloadSheath" "inline-block") ;;
      showResult h false ;;
      ret Completed
  end end end.

Close Scope js_scope.

(* ================================================================== *)
(** ** The non-adiabatic factor on binary64 numbers *)

(** [calculateEpsilon] once more, on the binary64 numbers of the
    processor instead of real numbers: sums, products and the square root
    round to the nearest representable number, as the script's engine has
    them.  [Math.pow] with the exponents 2 and 3 is taken as the rounded
    product. *)
Module Binary64.
Import PrimFloat.
Local Open Scope float_scope.

Definition Math_pow (x : float) (n : nat) : float :=
  match n with
  | O => 1
  | S k => Nat.iter k (fun y => y * x) x
  end.

Definition calculateEpsilon (M : option float) (t : float) : option float :=
  match M with
  | None => None
  | Some M =>
      if (is_nan t || (t <=? 0))%bool then None
      else
        let MsqrtT := M * sqrt t in
        Some (1 + 0.61 * MsqrtT - 0.069 * Math_pow MsqrtT 2
                + 0.0043 * Math_pow MsqrtT 3)
  end.

End Binary64.

(* ================================================================== *)
(** ** PDF download handlers *)

(** The body of a request: [JSON.stringify] of a stored bundle. *)
Inductive body : Type :=
| ConductorBody (d : ConductorData.t)
| SheathBody (d : SheathData.t).

(** What a handler does outside the page: a [fetch] with method POST, or
    the click on an anchor that saves a file under a name. *)
Inductive effect : Type :=
| Post (url : string) (b : body)
| Save (filename : string).

(** How the awaited request ends: [fetch] rejects, or it resolves with
    [response.ok] and [response.blob()] resolves or rejects. *)
Inductive reply : Type :=
| NoReply
| Reply (ok blob : bool).

(** [btnDownloadConductor.addEventListener("click", ...)] up to its first
    [await]. *)
Definition btnDownloadConductor_click : Js (list effect) :=
  d <- gets conductorData ;;
  match d with
  | None =>
      showNotification "Please calculate conductor first." "warning" ;;
      ret []
  | Some d => ret [Post "/api/generate_conductor_pdf" (ConductorBody d)]
  end.

(** The rest of the handler, once the request has ended.  The object URL
    of the blob is created and revoked between the same two lines and is
    left out, as are the anchor's insertion and removal. *)
Definition btnDownloadConductor_settled (r : reply) : Js (list effect) :=
  match r with
  | Reply true true =>
      showNotification "Conductor report downloaded!" "success" ;;
      ret [Save "Conductor_Calculation_Report.pdf"]
  | _ =>
      showNotification "Failed to generate conductor PDF" "error" ;;
      ret []
  end.

(** [btnDownloadSheath.addEventListener("click", ...)] up to its first
    [await]. *)
Definition btnDownloadSheath_click : Js (list effect) :=
  d <- gets sheathData ;;
  match d with
  | None =>
      showNotification "Please calculate sheath first." "warning" ;;
      ret []
  | Some d => ret [Post "/api/generate_sheath_pdf" (SheathBody d)]
  end.

(** The rest of that handler. *)
Definition btnDownloadSheath_settled (r : reply) : Js (list effect) :=
  match r with
  | Reply true true =>
      showNotification "Sheath report downloaded!" "success" ;;
      ret [Save "Sheath_Calculation_Report.pdf"]
  | _ =>
      showNotification "Failed to generate sheath PDF" "error" ;;
      ret []
  end.

(* ================================================================== *)
(** ** PDF preview wiring *)

(** The page together with the object URLs of the preview.  URLs are
    numbered in the order in which the change handler has
    [URL.createObjectURL] hand them out. *)
Record Preview : Type := {
  page : Page;
  uploadedPdfUrl : option nat;   (* the global of this name *)
  objectURLs : nat;              (* how many URLs were created so far *)
  revokedURLs : list nat         (* those given to URL.revokeObjectURL *)
}.

(** [pdfInput.addEventListener("change", ...)]; [file] tells whether
    [pdfInput.files[0]] is there. *)
Definition pdfInput_change (file : bool) (s : Preview) : Preview :=
  if negb file then
    {| page := set_display "btnViewPdf" "none" (page s);
       uploadedPdfUrl := None;
       objectURLs := objectURLs s;
       revokedURLs := revokedURLs s |}
  else
    {| page :=
         notify {| message := "PDF loaded successfully!"; type := "success" |}
           (set_display "btnViewPdf" "inline-block" (page s));
       uploadedPdfUrl := Some (objectURLs s);
       objectURLs := S (objectURLs s);
       revokedURLs :=
         match uploadedPdfUrl s with
         | Some u => u :: revokedURLs s
         | None => revokedURLs s
         end |}.

(** [btnViewPdf.addEventListener("click", ...)]: the URL it opens in a
    new tab, if any. *)
Definition btnViewPdf_click (s : Preview) : option nat :=
  match uploadedPdfUrl s with
  | Some u => Some u
  | None => None
  end.

(* ================================================================== *)
(** ** Notions used to state the properties *)

(** A finite number inside [(0, hi]]. *)
Definition within (hi : R) (x : num) : Prop :=
  match x with
  | Fin r => 0 < r <= hi
  | _ => False
  end.

(** One of the two infinities. *)
Definition infinite (x : num) : Prop := x = PInf \/ x = NInf.

(** The page a browser shows before anything was typed or computed. *)
Definition blank : Page :=
  {| input := fun _ => Empty; select := fun _ => "";
     borderColor := fun _ => ""; display := fun _ => "";
     resultText := []; resultClass := "";
     conductorData := None; sheathData := None;
     conductorCalculated := false; sheathCalculated := false;
     notifications := [] |}.

(** The blank page with the five conductor inputs typed in. *)
Definition conductor_page (voltageKv I_AD_kA t K beta : num) : Page :=
  set_input "voltageKv" (Typed voltageKv)
    (set_input "sccKa" (Typed I_AD_kA)
       (set_input "timeSec" (Typed t)
          (set_input "kValue" (Typed K)
             (set_input "beta" (Typed beta) blank)))).

(** The polynomial of [calculateEpsilon]. *)
Definition epsilon_poly (x : R) : R :=
  1 + 0.61 * x - 0.069 * x ^ 2 + 0.0043 * x ^ 3.

(** A function of the script that fails reports once and changes nothing
    else; one that succeeds changes nothing at all. *)
Definition reports_or_returns {A : Type} (failed : A -> bool) (m : Js A) : Prop :=
  forall p : Page,
    (failed (fst (m p)) = true /\ exists n, snd (m p) = notify n p) \/
    (failed (fst (m p)) = false /\ snd (m p) = p).

(** [o == null]. *)
Definition is_none {A : Type} (o : option A) : bool :=
  match o with None => true | Some _ => false end.

(** The four verdict lines of the result markup. *)
Definition sheath_sufficient : fragment :=
  Markup "Sheath size is sufficient for the required area.".
Definition sheath_undersized : fragment :=
  Markup "Sheath undersized. Please choose the next available size.".
Definition cable_sufficient : fragment :=
  Markup "Cable size is sufficient for the required area.".
Definition cable_undersized : fragment :=
  Markup "Cable undersized. Please choose the next available size.".

(** The result markup of the sheath handler above its verdict line. *)
Definition sheath_report (s_adiab epsilon s_required s_given : num) : html :=
  [Markup "Sheath Calculation Results";
   Markup "Adiabatic area s_adiab:"; Number s_adiab 2; Markup "mm2";
   Markup "Non-adiabatic factor epsilon:"; Number epsilon 3;
   Markup "Required sheath area (non-adiabatic):";
   Number s_required 2; Markup "mm2";
   Markup "Actual sheath area from D_outer, D_inner:";
   Number s_given 2; Markup "mm2"].

(** The result markup of the conductor handler above its verdict line. *)
Definition conductor_report (S_required : num) : html :=
  [Markup "Conductor Calculation Results";
   Markup "Required cross-sectional area S:"; Number S_required 2; Markup "mm2"].

(** A guard or a sub-computation of the conductor submission fails. *)
Definition conductor_failure (p : Page) : Prop :=
  let S_given := parseFloat (input p "givenConductorArea") in
  (select p "conductorMode" = "area-from-current" /\
   (fst (calculateConductorAreaFromCurrent p) = None \/
    (input p "givenConductorArea" <> Empty /\
     (isNaN S_given = true \/ num_le S_given 0 = true)))) \/
  (select p "conductorMode" <> "area-from-current" /\
   fst (calculateConductorCurrentFromArea p) = None).

(** A guard or a sub-computation of the sheath submission fails. *)
Definition sheath_failure (p : Page) : Prop :=
  let sheathMaterial := toLowerCase (select p "sheathMaterial") in
  let voltageKv := parseFloat (input p "sheathVoltageKv") in
  let I_AD_kA := parseFloat (input p "sheathSccKa") in
  let t := parseFloat (input p "sheathTimeSec") in
  let insulationMaterial := select p "insulationMaterial" in
  let outerSheathMaterial := select p "outerSheathMaterial" in
  let theta_i := parseFloat (input p "sheathThetaInitial") in
  let theta_f := parseFloat (input p "sheathThetaFinal") in
  let Do := parseFloat (input p "sheathOuterD") in
  let Di := parseFloat (input p "sheathInnerD") in
  let sheathThickness := parseFloat (input p "sheathThickness") in
  let s_given := parseFloat (input p "sheathAreaGiven") in
  sheathMaterial = "" \/
  existsb isNaN [voltageKv; I_AD_kA; t; theta_i; theta_f; Do; Di;
                 sheathThickness; s_given] = true \/
  insulationMaterial = "" \/
  outerSheathMaterial = "" \/
  fst (validateVoltageTime voltageKv t p) = false \/
  num_le I_AD_kA 0 = true \/
  num_gt Do Di && num_gt Do 0 && num_gt Di 0 = false \/
  calculateSheathAdiabaticArea I_AD_kA t sheathMaterial theta_i theta_f = None \/
  calculateM insulationMaterial outerSheathMaterial sheathThickness
             sheathMaterial voltageKv "no" = None \/
  (exists M, calculateM insulationMaterial outerSheathMaterial sheathThickness
                        sheathMaterial voltageKv "no" = Some M /\
             calculateEpsilon (Some M) t = None).

(** The four globals of [q] are those of [p]. *)
Definition untouched (p q : Page) : Prop :=
  conductorData q = conductorData p /\
  sheathData q = sheathData p /\
  conductorCalculated q = conductorCalculated p /\
  sheathCalculated q = sheathCalculated p.

(** A page filled from a list of numeric entries and a list of choices. *)
Definition filled (numbers : table num) (choices : table string) : Page :=
  {| input := fun id => match lookup id numbers with
                        | Some x => Typed x
                        | None => Empty
                        end;
     select := fun id => match lookup id choices with
                         | Some s => s
                         | None => ""
                         end;
     borderColor := fun _ => ""; display := fun _ => "";
     resultText := []; resultClass := "";
     conductorData := None; sheathData := None;
     conductorCalculated := false; sheathCalculated := false;
     notifications := [] |}.

(** The lead sheath of the specification: 11 kV, 25 kA, 1 s, 90 to 250
    degrees, XLPE insulation, PE covering, a wall of 2 mm between the
    diameters 30 and 34 mm. *)
Definition lead_sheath_page : Page :=
  filled [("sheathVoltageKv", Fin 11); ("sheathSccKa", Fin 25);
          ("sheathTimeSec", Fin 1); ("sheathThetaInitial", Fin 90);
          ("sheathThetaFinal", Fin 250); ("sheathOuterD", Fin 34);
          ("sheathInnerD", Fin 30); ("sheathThickness", Fin 2);
          ("sheathAreaGiven", Fin 201.06)]
         [("sheathMaterial", "Lead"); ("insulationMaterial", "XLPE");
          ("outerSheathMaterial", "PE"); ("material", "copper")].

(** The copper conductor with a candidate area of 240 square millimetres. *)
Definition copper_candidate_page : Page :=
  filled [("voltageKv", Fin 11); ("sccKa", Fin 25); ("timeSec", Fin 1);
          ("kValue", Fin 226); ("beta", Fin 234.5);
          ("givenConductorArea", Fin 240)]
         [("conductorMode", "area-from-current"); ("material", "copper");
          ("insulationMaterial", "XLPE"); ("outerSheathMaterial", "PE")].

(** The bundle a conductor submission stores when it runs to its end, as
    a function of the page it starts from. *)
Definition conductor_bundle (p : Page) : ConductorData.t :=
  let S_given_str := input p "givenConductorArea" in
  let t := parseFloat (input p "timeSec") in
  let K := parseFloat (input p "kValue") in
  let beta := parseFloat (input p "beta") in
  let afc := (select p "conductorMode" =? "area-from-current")%string in
  let S_given :=
    if afc && text_is_empty S_given_str then
      match fst (calculateConductorAreaFromCurrent p) with
      | Some S_required => S_required
      | None => NaN
      end
    else parseFloat S_given_str in
  let i :=
    if afc then
      num_div (num_mul (num_mul K S_given)
                 (Math_sqrt (num_div (Math_log (num_div (num_add 250 beta)
                                                  (num_add 90 beta))) t)))
              1000
    else
      match fst (calculateConductorCurrentFromArea p) with
      | Some i => i
      | None => NaN
      end in
  {| ConductorData.voltage := parseFloat (input p "voltageKv");
     ConductorData.area := S_given;
     ConductorData.material := select p "material";
     ConductorData.insulation := select p "insulationMaterial";
     ConductorData.outer_sheath := select p "outerSheathMaterial";
     ConductorData.scc_required := parseFloat (input p "sccKa");
     ConductorData.time := t;
     ConductorData.theta_i := 90;
     ConductorData.theta_f := 250;
     ConductorData.beta := beta;
     ConductorData.k_value := K;
     ConductorData.i_ad := Fixed i 3 |}.

(** Two pages that agree on every field, element by element. *)
Definition same_page (p q : Page) : Prop :=
  (forall id, input p id = input q id) /\
  (forall id, select p id = select q id) /\
  (forall id, borderColor p id = borderColor q id) /\
  (forall id, display p id = display q id) /\
  resultText p = resultText q /\ resultClass p = resultClass q /\
  untouched p q /\ notifications p = notifications q.

(** The message of the diameter check of the sheath handler. *)
Definition diameter_message : string :=
  "Outer diameter must be greater than inner diameter.".

(** The user picks an option of a select. *)
Definition set_select (id : string) (v : string) (p : Page) : Page :=
  {| input := input p; select := upd id v (select p);
     borderColor := borderColor p; display := display p;
     resultText := resultText p; resultClass := resultClass p;
     conductorData := conductorData p; sheathData := sheathData p;
     conductorCalculated := conductorCalculated p;
     sheathCalculated := sheathCalculated p;
     notifications := notifications p |}.

(** What can happen to the page: the user types into a numeric input or
    picks an option, an input event of a diameter field runs the geometry
    update, a form is submitted, a download button is clicked, a pending
    download request ends. *)
Inductive event : Type :=
| Edit (id : string) (v : text)
| Choose (id : string) (v : string)
| InputDiameter
| SubmitConductor
| SubmitSheath
| ClickDownloadConductor
| SettleDownloadConductor (r : reply)
| ClickDownloadSheath
| SettleDownloadSheath (r : reply).

(** The listener of an event. *)
Definition fire (e : event) : Js (list effect) :=
  match e with
  | Edit id v => modify (set_input id v) ;; ret []
  | Choose id v => modify (set_select id v) ;; ret []
  | InputDiameter => updateSheathGeometry ;; ret []
  | SubmitConductor => conductorForm_submit ;; ret []
  | SubmitSheath => sheathForm_submit ;; ret []
  | ClickDownloadConductor => btnDownloadConductor_click
  | SettleDownloadConductor r => btnDownloadConductor_settled r
  | ClickDownloadSheath => btnDownloadSheath_click
  | SettleDownloadSheath r => btnDownloadSheath_settled r
  end.

(** A sequence of events, first to last, and what it sends and saves. *)
Fixpoint run (events : list event) : Js (list effect) :=
  match events with
  | [] => ret []
  | e :: rest =>
      sent <- fire e ;;
      more <- run rest ;;
      ret (sent ++ more)%list
  end.

(** No conductor submission among the events runs to its end. *)
Fixpoint no_conductor_completion (events : list event) (p : Page) : Prop :=
  match events with
  | [] => True
  | e :: rest =>
      (e = SubmitConductor -> fst (conductorForm_submit p) = Returned) /\
      no_conductor_completion rest (snd (fire e p))
  end.

(** The globals and the download buttons of a page agree: a bundle is
    stored exactly when its flag is set and its button is shown. *)
Definition consistent (p : Page) : Prop :=
  (conductorData p <> None <-> conductorCalculated p = true) /\
  (conductorData p <> None
   <-> display p "btnDownloadConductor" = "inline-block") /\
  (sheathData p <> None <-> sheathCalculated p = true) /\
  (sheathData p <> None <-> display p "btnDownloadSheath" = "inline-block").

(** The script as it is loaded: no file chosen, no URL created. *)
Definition loaded : Preview :=
  {| page := blank; uploadedPdfUrl := None; objectURLs := 0; revokedURLs := [] |}.

(** A sequence of change events of the file input, first to last. *)
Definition selections (files : list bool) (s : Preview) : Preview :=
  fold_left (fun s file => pdfInput_change file s) files s.

(** An object URL that was created and not revoked. *)
Definition live (u : nat) (s : Preview) : Prop :=
  (u < objectURLs s)%nat /\ ~ In u (revokedURLs s).

(** Revoked URLs were created, and the URL of the global is live. *)
Definition preview_invariant (s : Preview) : Prop :=
  (forall u, In u (revokedURLs s) -> (u < objectURLs s)%nat) /\
  (forall u, uploadedPdfUrl s = Some u -> live u s) /\
  (uploadedPdfUrl s <> None -> display (page s) "btnViewPdf" = "inline-block").

(** The lead sheath with another actual area. *)
Definition lead_sheath_with (area : num) : Page :=
  filled [("sheathVoltageKv", Fin 11); ("sheathSccKa", Fin 25);
          ("sheathTimeSec", Fin 1); ("sheathThetaInitial", Fin 90);
          ("sheathThetaFinal", Fin 250); ("sheathOuterD", Fin 34);
          ("sheathInnerD", Fin 30); ("sheathThickness", Fin 2);
          ("sheathAreaGiven", area)]
         [("sheathMaterial", "Lead"); ("insulationMaterial", "XLPE");
          ("outerSheathMaterial", "PE"); ("material", "copper")].

(** The copper conductor with another candidate area. *)
Definition copper_with (area : num) : Page :=
  filled [("voltageKv", Fin 11); ("sccKa", Fin 25); ("timeSec", Fin 1);
          ("kValue", Fin 226); ("beta", Fin 234.5);
          ("givenConductorArea", area)]
         [("conductorMode", "area-from-current"); ("material", "copper");
          ("insulationMaterial", "XLPE"); ("outerSheathMaterial", "PE")].

(** The names that every object literal of the script answers through
    [Object.prototype] although they are no keys of its own.  A table
    lookup under such a name finds a member of the prototype, not
    [undefined]; the tables of this file hold own keys only, so their
    account of a lookup is the script's for every other name. *)
Definition Object_prototype : list string :=
  ["constructor"; "hasOwnProperty"; "isPrototypeOf"; "propertyIsEnumerable";
   "toLocaleString"; "toString"; "valueOf"; "__proto__";
   "__defineGetter__"; "__defineSetter__"; "__lookupGetter__";
   "__lookupSetter__"].

Definition inherited (key : string) : bool :=
  existsb (String.eqb key) Object_prototype.

(* ================================================================== *)
(** * Properties *)

(** ** Comparisons of finite numbers are the comparisons of the reals *)

Lemma Rleb_true (x y : R) : Rleb x y = true <-> x <= y.
Proof. unfold Rleb; destruct (Rle_dec x y); split; intros; try easy; lra. Qed.

Lemma Rleb_false (x y : R) : Rleb x y = false <-> y < x.
Proof. unfold Rleb; destruct (Rle_dec x y); split; intros; try easy; lra. Qed.

Lemma Rltb_true (x y : R) : Rltb x y = true <-> x < y.
Proof. unfold Rltb; destruct (Rlt_dec x y); split; intros; try easy; lra. Qed.

Lemma Rltb_false (x y : R) : Rltb x y = false <-> y <= x.
Proof. unfold Rltb; destruct (Rlt_dec x y); split; intros; try easy; lra. Qed.

Lemma Reqb_true (x y : R) : Reqb x y = true <-> x = y.
Proof. unfold Reqb; destruct (Req_dec_T x y); split; intros; easy. Qed.

Lemma Reqb_false (x y : R) : Reqb x y = false <-> x <> y.
Proof. unfold Reqb; destruct (Req_dec_T x y); split; intros; easy. Qed.

(** Decides every comparison of reals in sight, then leaves linear
    arithmetic to [lra]. *)
Ltac decide_reals :=
  unfold Rleb, Rltb, Reqb in *;
  repeat match goal with
    | |- context [Rle_dec ?a ?b] => destruct (Rle_dec a b)
    | |- context [Rlt_dec ?a ?b] => destruct (Rlt_dec a b)
    | |- context [Req_dec_T ?a ?b] => destruct (Req_dec_T a b)
    | H : context [Rle_dec ?a ?b] |- _ => destruct (Rle_dec a b)
    | H : context [Rlt_dec ?a ?b] |- _ => destruct (Rlt_dec a b)
    | H : context [Req_dec_T ?a ?b] |- _ => destruct (Req_dec_T a b)
    end;
  try reflexivity; try discriminate; try lra.

(** ** validateVoltageTime *)

(** The boolean [validateVoltageTime] returns, without its reporting. *)
Lemma validateVoltageTime_value (v t : num) (p : Page) :
  fst (validateVoltageTime v t p)
  = negb (num_le v 0 || num_le t 0) && negb (num_gt v 400) && negb (num_gt t 10).
Proof.
  unfold validateVoltageTime.
  destruct (num_le v 0 || num_le t 0); [reflexivity|].
  destruct (num_gt v 400); [reflexivity|].
  destruct (num_gt t 10); reflexivity.
Qed.

Lemma validateVoltageTime_finite (v t : R) (p : Page) :
  fst (validateVoltageTime v t p) = true <-> (0 < v <= 400 /\ 0 < t <= 10).
Proof.
  rewrite validateVoltageTime_value. unfold num_gt; simpl.
  split.
  - intros H. decide_reals; simpl in H; try discriminate; lra.
  - intros H. decide_reals.
Qed.

(** C7.  For finite numbers [validateVoltageTime] returns true exactly on
    [0 < voltageKv <= 400] and [0 < t <= 10]; an infinite argument is
    rejected; 400 kV and 10 s pass, 400.01 kV and 10.01 s fail, and so
    does every non-positive voltage or time. *)
Theorem validateVoltageTime_range :
  forall p : Page,
    (forall v t : R,
        fst (validateVoltageTime v t p) = true
        <-> (0 < v <= 400 /\ 0 < t <= 10)) /\
    (forall v t : num,
        infinite v \/ infinite t -> fst (validateVoltageTime v t p) = false) /\
    fst (validateVoltageTime 400 10 p) = true /\
    fst (validateVoltageTime 400.01 10 p) = false /\
    fst (validateVoltageTime 400 10.01 p) = false /\
    (forall v t : R,
        v <= 0 \/ t <= 0 -> fst (validateVoltageTime v t p) = false).
Proof.
  intros p.
  split; [intros v t; apply validateVoltageTime_finite|].
  split.
  { intros v t H. rewrite validateVoltageTime_value. unfold num_gt, infinite in *.
    destruct v, t; simpl; try reflexivity;
      destruct H as [[H | H] | [H | H]]; try discriminate H; decide_reals. }
  split; [apply validateVoltageTime_finite; lra|].
  split; [rewrite validateVoltageTime_value; unfold num_gt; simpl; decide_reals|].
  split; [rewrite validateVoltageTime_value; unfold num_gt; simpl; decide_reals|].
  intros v t H. rewrite validateVoltageTime_value; unfold num_gt; simpl.
  destruct H; decide_reals.
Qed.

(** ** Arithmetic of finite numbers *)

Lemma num_div_finite (a b : R) : b <> 0 -> num_div a b = Fin (a / b).
Proof. intros H; simpl; decide_reals. Qed.

Lemma Math_log_finite (r : R) : 0 < r -> Math_log r = Fin (ln r).
Proof. intros H; simpl; decide_reals. Qed.

Lemma Math_sqrt_finite (r : R) : 0 <= r -> Math_sqrt r = Fin (sqrt r).
Proof. intros H; simpl; decide_reals. Qed.

Lemma num_le_finite (a b : R) : num_le a b = Rleb a b.
Proof. reflexivity. Qed.

Lemma num_pow_2 (a : R) : num_pow a 2 = Fin (a ^ 2).
Proof. reflexivity. Qed.

Lemma num_pow_3 (a : R) : num_pow a 3 = Fin (a ^ 3).
Proof. reflexivity. Qed.

(** No element of a list without NaN is NaN. *)
Lemma existsb_isNaN_false (x : num) (l : list num) :
  existsb isNaN l = false -> In x l -> isNaN x = false.
Proof.
  intros H Hin. destruct (isNaN x) eqn:E; [|reflexivity].
  rewrite <- H. symmetry. apply existsb_exists. exists x; split; assumption.
Qed.

(** [ln] is positive exactly above 1 (below 0 it is 0 by convention). *)
Lemma ln_pos_iff (x : R) : 0 < ln x <-> 1 < x.
Proof.
  split; intros H.
  - destruct (Rlt_dec 1 x) as [|N]; [assumption|exfalso].
    destruct (Rlt_dec 0 x) as [P|NP].
    + destruct (Req_dec_T x 1) as [->|D]; [rewrite ln_1 in H; lra|].
      assert (ln x < ln 1) by (apply ln_increasing; lra).
      rewrite ln_1 in *; lra.
    + unfold ln in H. destruct (Rlt_dec 0 x); [contradiction|lra].
  - rewrite <- ln_1. apply ln_increasing; lra.
Qed.

(** The ratio under the logarithm of the conductor formulas. *)
Lemma ratio_above_1 (thf thi b : R) :
  thi < thf -> 0 < thi + b -> 1 < (thf + b) / (thi + b).
Proof.
  intros H1 H2.
  apply Rmult_lt_reg_r with (thi + b); [assumption|].
  unfold Rdiv. rewrite Rmult_assoc, Rinv_l by lra. lra.
Qed.

Lemma ratio_above_1_inv (thf thi b : R) :
  thi < thf -> 1 < (thf + b) / (thi + b) -> 0 < thi + b.
Proof.
  intros H1 H2.
  destruct (Rlt_dec 0 (thi + b)) as [|N]; [assumption|exfalso].
  destruct (Req_dec_T (thi + b) 0) as [E|D].
  - rewrite E in H2. unfold Rdiv in H2. rewrite Rinv_0 in H2. lra.
  - assert (Hneg : thi + b < 0) by lra.
    assert (Hinv : / (thi + b) < 0) by (apply Rinv_lt_0_compat; assumption).
    assert (Hone : (thi + b) * / (thi + b) = 1) by (apply Rinv_r; assumption).
    unfold Rdiv in H2. nra.
Qed.

(** ** Conductor formulas *)

(** The value [calculateConductorAreaFromCurrent] returns, as a decision
    tree over the five parsed inputs. *)
Lemma calculateConductorAreaFromCurrent_value (p : Page) :
  let voltageKv := parseFloat (input p "voltageKv") in
  let I_AD_kA := parseFloat (input p "sccKa") in
  let t := parseFloat (input p "timeSec") in
  let K := parseFloat (input p "kValue") in
  let beta := parseFloat (input p "beta") in
  let lnTerm := Math_log ((250 + beta) / (90 + beta))%js in
  let S_sq := (((I_AD_kA * 1000) ** 2 * t) / (K ** 2 * lnTerm))%js in
  fst (calculateConductorAreaFromCurrent p)
  = if existsb isNaN [voltageKv; I_AD_kA; t; K; beta] then None
    else if negb (fst (validateVoltageTime voltageKv t p)) then None
    else if num_le I_AD_kA 0 || num_le K 0 then None
    else if num_le lnTerm 0 then None
    else if num_le S_sq 0 then None
    else Some (Math_sqrt S_sq).
Proof.
  intros voltageKv I_AD_kA t K beta lnTerm S_sq.
  unfold calculateConductorAreaFromCurrent, bind, number, gets.
  cbv beta iota zeta.
  fold voltageKv I_AD_kA t K beta. fold lnTerm. fold S_sq.
  destruct (existsb isNaN _); [reflexivity|].
  destruct (validateVoltageTime voltageKv t p) as [ok p'].
  cbn [fst]. destruct ok; cbn [negb]; [|reflexivity].
  destruct (num_le I_AD_kA 0 || num_le K 0); [reflexivity|].
  destruct (num_le lnTerm 0); [reflexivity|].
  destruct (num_le S_sq 0); reflexivity.
Qed.

(** On finite inputs inside the guards and with [beta > -90] the area
    is the real-number formula. *)
Lemma conductor_area_real (p : Page) (v I t K b : R) :
  parseFloat (input p "voltageKv") = Fin v ->
  parseFloat (input p "sccKa") = Fin I ->
  parseFloat (input p "timeSec") = Fin t ->
  parseFloat (input p "kValue") = Fin K ->
  parseFloat (input p "beta") = Fin b ->
  0 < v <= 400 -> 0 < t <= 10 -> 0 < I -> 0 < K -> 0 < 90 + b ->
  0 < (I * 1000) ^ 2 * t / (K ^ 2 * ln ((250 + b) / (90 + b))) /\
  fst (calculateConductorAreaFromCurrent p)
  = Some (Fin (sqrt ((I * 1000) ^ 2 * t / (K ^ 2 * ln ((250 + b) / (90 + b)))))).
Proof.
  intros Hv HI Ht HK Hb Rv Rt RI RK Rb.
  assert (Hratio : 1 < (250 + b) / (90 + b)) by (apply ratio_above_1; lra).
  assert (HL : 0 < ln ((250 + b) / (90 + b))) by (apply ln_pos_iff; assumption).
  assert (HS : 0 < (I * 1000) ^ 2 * t / (K ^ 2 * ln ((250 + b) / (90 + b)))).
  { apply Rdiv_lt_0_compat.
    - apply Rmult_lt_0_compat; [apply pow_lt; lra|lra].
    - apply Rmult_lt_0_compat; [apply pow_lt; lra|assumption]. }
  split; [assumption|].
  pose proof (calculateConductorAreaFromCurrent_value p) as V. cbv zeta in V.
  rewrite Hv, HI, Ht, HK, Hb in V.
  rewrite (proj2 (validateVoltageTime_finite v t p)) in V by (split; assumption).
  cbn [existsb isNaN orb negb num_add num_mul] in V.
  rewrite num_div_finite, Math_log_finite, !num_pow_2 in V by lra.
  cbn [num_mul] in V.
  rewrite num_div_finite in V
    by (apply Rgt_not_eq, Rmult_lt_0_compat; [apply pow_lt; lra|assumption]).
  rewrite !num_le_finite in V.
  rewrite (proj2 (Rleb_false I 0)), (proj2 (Rleb_false K 0)) in V by assumption.
  rewrite (proj2 (Rleb_false _ 0)) in V by assumption.
  rewrite (proj2 (Rleb_false _ 0)) in V by assumption.
  cbn [orb] in V. rewrite Math_sqrt_finite in V by lra. exact V.
Qed.

(** With [beta] strictly between -250 and -90 the ratio is negative, its
    logarithm is NaN, no guard fires and the function returns NaN. *)
Lemma conductor_area_NaN (p : Page) (v I t K b : R) :
  parseFloat (input p "voltageKv") = Fin v ->
  parseFloat (input p "sccKa") = Fin I ->
  parseFloat (input p "timeSec") = Fin t ->
  parseFloat (input p "kValue") = Fin K ->
  parseFloat (input p "beta") = Fin b ->
  0 < v <= 400 -> 0 < t <= 10 -> 0 < I -> 0 < K -> -250 < b < -90 ->
  fst (calculateConductorAreaFromCurrent p) = Some NaN.
Proof.
  intros Hv HI Ht HK Hb Rv Rt RI RK Rb.
  assert (Hneg : (250 + b) / (90 + b) < 0).
  { assert (Hinv : / (90 + b) < 0) by (apply Rinv_lt_0_compat; lra).
    unfold Rdiv. nra. }
  pose proof (calculateConductorAreaFromCurrent_value p) as V. cbv zeta in V.
  rewrite Hv, HI, Ht, HK, Hb in V.
  rewrite (proj2 (validateVoltageTime_finite v t p)) in V by (split; assumption).
  cbn [existsb isNaN orb negb num_add num_mul] in V.
  rewrite num_div_finite in V by lra.
  rewrite !num_le_finite in V.
  rewrite (proj2 (Rleb_false I 0)), (proj2 (Rleb_false K 0)) in V by assumption.
  cbn [orb] in V.
  replace (Math_log (Fin ((250 + b) / (90 + b)))) with NaN in V
    by (cbn; decide_reals).
  rewrite !num_pow_2 in V. exact V.
Qed.


(** C1.  Once the five inputs pass the NaN, range and positivity guards,
    [calculateConductorAreaFromCurrent] returns null exactly when the
    logarithm term or the squared area is [<= 0], and otherwise the
    square root of [(I_AD_kA*1000)^2 * t / (K^2 * lnTerm)] with
    [theta_i = 90] and [theta_f = 250], all in the arithmetic of the
    script. *)
Theorem calculateConductorAreaFromCurrent_formula :
  forall p : Page,
    let voltageKv := parseFloat (input p "voltageKv") in
    let I_AD_kA := parseFloat (input p "sccKa") in
    let t := parseFloat (input p "timeSec") in
    let K := parseFloat (input p "kValue") in
    let beta := parseFloat (input p "beta") in
    existsb isNaN [voltageKv; I_AD_kA; t; K; beta] = false ->
    fst (validateVoltageTime voltageKv t p) = true ->
    num_le I_AD_kA 0 = false ->
    num_le K 0 = false ->
    let lnTerm := Math_log ((250 + beta) / (90 + beta))%js in
    let S_sq := (((I_AD_kA * 1000) ** 2 * t) / (K ** 2 * lnTerm))%js in
    (fst (calculateConductorAreaFromCurrent p) = None
     <-> (num_le lnTerm 0 = true \/ num_le S_sq 0 = true)) /\
    (num_le lnTerm 0 = false -> num_le S_sq 0 = false ->
     fst (calculateConductorAreaFromCurrent p) = Some (Math_sqrt S_sq)).
Proof.
  intros p voltageKv I_AD_kA t K beta Hnan Hval HI HK lnTerm S_sq.
  pose proof (calculateConductorAreaFromCurrent_value p) as V.
  cbv zeta in V.
  fold voltageKv I_AD_kA t K beta in V. fold lnTerm in V. fold S_sq in V.
  rewrite Hnan, Hval, HI, HK in V. cbn [negb orb] in V.
  split.
  - rewrite V. destruct (num_le lnTerm 0); [split; auto|].
    destruct (num_le S_sq 0); [split; auto|].
    split; [discriminate|intros [H|H]; discriminate].
  - intros H1 H2. rewrite V, H1, H2. reflexivity.
Qed.

(** The value [calculateConductorCurrentFromArea] returns. *)
Lemma calculateConductorCurrentFromArea_value (p : Page) :
  let t := parseFloat (input p "timeSec") in
  let K := parseFloat (input p "kValue") in
  let beta := parseFloat (input p "beta") in
  let S_given := parseFloat (input p "givenConductorArea") in
  let lnTerm := Math_log ((250 + beta) / (90 + beta))%js in
  fst (calculateConductorCurrentFromArea p)
  = if existsb isNaN [t; K; beta; S_given] then None
    else if num_le t 0 then None
    else if num_le S_given 0 || num_le K 0 then None
    else if num_le lnTerm 0 then None
    else Some (K * S_given * Math_sqrt (lnTerm / t) / 1000)%js.
Proof.
  intros t K beta S_given lnTerm.
  unfold calculateConductorCurrentFromArea, bind, number, gets.
  cbv beta iota zeta.
  fold t K beta S_given. fold lnTerm.
  destruct (existsb isNaN _); [reflexivity|].
  destruct (num_le t 0); [reflexivity|].
  destruct (num_le S_given 0 || num_le K 0); [reflexivity|].
  destruct (num_le lnTerm 0); reflexivity.
Qed.



(** ** Bounds on a logarithm by repeated squaring

    [exp y >= 1 + y], and a lower bound of [exp y] squares to a lower
    bound of [exp (2 y)]; twelve squarings bring [y = x / 4096] to [x]. *)

Lemma exp_double (y c c' : R) :
  0 <= c -> c <= exp y -> c' <= c * c -> c' <= exp (2 * y).
Proof.
  intros H0 H1 H2.
  replace (2 * y) with (y + y) by lra. rewrite exp_plus.
  apply Rle_trans with (c * c); [assumption|].
  apply Rmult_le_compat; assumption.
Qed.

Lemma ln_copper_upper : ln (969 / 649) < 0.4009.
Proof.
  apply exp_lt_inv. rewrite exp_ln by lra.
  apply Rlt_le_trans with 1.493138647614; [lra|].
  replace 0.4009
    with (2*(2*(2*(2*(2*(2*(2*(2*(2*(2*(2*(2*(0.4009/4096)))))))))))))
    by lra.
  apply exp_double with 1.221940525400; [lra| |lra].
  apply exp_double with 1.105414187262; [lra| |lra].
  apply exp_double with 1.051386792414; [lra| |lra].
  apply exp_double with 1.025371538719; [lra| |lra].
  apply exp_double with 1.012606309836; [lra| |lra].
  apply exp_double with 1.006283414271; [lra| |lra].
  apply exp_double with 1.003136787418; [lra| |lra].
  apply exp_double with 1.001567165705; [lra| |lra].
  apply exp_double with 1.000783276092; [lra| |lra].
  apply exp_double with 1.000391561386; [lra| |lra].
  apply exp_double with 1.000195761532; [lra| |lra].
  apply exp_double with (1 + 0.4009 / 4096); [lra| |lra].
  apply exp_ineq1_le.
Qed.

Lemma ln_copper_lower : 0.4007 < ln (969 / 649).
Proof.
  apply exp_lt_inv. rewrite exp_ln by lra.
  assert (H : 0.669837855308 <= exp (- 0.4007)).
  { replace (- 0.4007)
      with (2*(2*(2*(2*(2*(2*(2*(2*(2*(2*(2*(2*(- 0.4007/4096)))))))))))))
      by lra.
    apply exp_double with 0.818436225560; [lra| |lra].
    apply exp_double with 0.904674651773; [lra| |lra].
    apply exp_double with 0.951143864919; [lra| |lra].
    apply exp_double with 0.975266048276; [lra| |lra].
    apply exp_double with 0.987555592499; [lra| |lra].
    apply exp_double with 0.993758316946; [lra| |lra].
    apply exp_double with 0.996874273390; [lra| |lra].
    apply exp_double with 0.998435913512; [lra| |lra].
    apply exp_double with 0.999217650721; [lra| |lra].
    apply exp_double with 0.999608748822; [lra| |lra].
    apply exp_double with 0.999804355273; [lra| |lra].
    apply exp_double with (1 + - 0.4007 / 4096); [lra| |lra].
    apply exp_ineq1_le. }
  assert (E : exp (- 0.4007) * exp 0.4007 = 1).
  { rewrite <- exp_plus. replace (- 0.4007 + 0.4007) with 0 by lra. apply exp_0. }
  pose proof (exp_pos 0.4007). nra.
Qed.

(** ** The conductor examples *)




(** The copper example: between 174.7 and 174.76 square millimetres. *)
Lemma copper_area_bounds (v : R) :
  0 < v <= 400 ->
  exists S : R,
    fst (calculateConductorAreaFromCurrent (conductor_page v 25 1 226 234.5))
    = Some (Fin S) /\ 174.7 < S < 174.76.
Proof.
  intros Rv.
  destruct (conductor_area_real (conductor_page v 25 1 226 234.5)
              v 25 1 226 234.5) as [HS HA]; try reflexivity; try lra.
  eexists; split; [exact HA|].
  replace ((250 + 234.5) / (90 + 234.5)) with (969 / 649) in * by lra.
  pose proof ln_copper_upper as U. pose proof ln_copper_lower as L.
  set (X := (25 * 1000) ^ 2 * 1 / (226 ^ 2 * ln (969 / 649))) in *.
  assert (E : X * (226 ^ 2 * ln (969 / 649)) = (25 * 1000) ^ 2 * 1).
  { unfold X. field. lra. }
  assert (Hs : sqrt X * sqrt X = X) by (apply sqrt_sqrt; lra).
  pose proof (sqrt_pos X) as Hp.
  assert (B : 30522 < X < 30539) by (split; nra).
  split; nra.
Qed.

(** C1, at the copper example: the guards pass, neither test fires and
    the area is the square root the script takes. *)
Lemma calculateConductorAreaFromCurrent_formula_witness :
  fst (calculateConductorAreaFromCurrent (conductor_page 11 25 1 226 234.5))
  = Some (Math_sqrt
            (((25 * 1000) ** 2 * 1)
             / (226 ** 2 * Math_log ((250 + 234.5) / (90 + 234.5))))%js).
Proof.
  assert (L : 0 < ln ((250 + 234.5) / (90 + 234.5)))
    by (apply ln_pos_iff, ratio_above_1; lra).
  assert (E : Math_log (num_div (num_add 250 234.5) (num_add 90 234.5))
              = Fin (ln ((250 + 234.5) / (90 + 234.5)))).
  { cbn [num_add]. rewrite num_div_finite by lra. apply Math_log_finite.
    apply Rdiv_lt_0_compat; lra. }
  destruct (calculateConductorAreaFromCurrent_formula
              (conductor_page 11 25 1 226 234.5)) as [_ H].
  - reflexivity.
  - apply validateVoltageTime_finite; lra.
  - apply Rleb_false; lra.
  - apply Rleb_false; lra.
  - apply H.
    + change (num_le (Math_log (num_div (num_add 250 234.5) (num_add 90 234.5))) 0
              = false).
      rewrite E. apply Rleb_false. exact L.
    + change (num_le (num_div (num_mul (num_pow (num_mul 25 1000) 2) 1)
                        (num_mul (num_pow 226 2)
                           (Math_log (num_div (num_add 250 234.5)
                                        (num_add 90 234.5))))) 0 = false).
      rewrite E. cbn [num_mul]. rewrite !num_pow_2. cbn [num_mul].
      assert (D : 0 < 226 ^ 2 * ln ((250 + 234.5) / (90 + 234.5)))
        by (apply Rmult_lt_0_compat; [lra|exact L]).
      rewrite num_div_finite by lra. apply Rleb_false.
      apply Rdiv_lt_0_compat; [lra|exact D].
Defined.

(** C3, as the code has it.  With K = 226, beta = 234.5, 25 kA and 1 s
    (and any admissible voltage) the required area lies between 174.7 and
    174.76 square millimetres. *)
Theorem copper_example_area :
  forall v : R,
    0 < v <= 400 ->
    exists S : R,
      fst (calculateConductorAreaFromCurrent (conductor_page v 25 1 226 234.5))
      = Some (Fin S) /\ 174.7 < S < 174.76.
Proof.
  intros v Rv. destruct (copper_area_bounds v Rv) as [S [E B]].
  exists S; split; assumption.
Qed.

(** C3, at 11 kV. *)
Lemma copper_example_area_witness :
  exists S : R,
    fst (calculateConductorAreaFromCurrent (conductor_page 11 25 1 226 234.5))
    = Some (Fin S) /\ 174.7 < S < 174.76.
Proof.
  apply (copper_example_area 11). lra.
Defined.

(** C3, as the specification has it, fails: the area of the copper
    example is more than 43 square millimetres below 218.4. *)
Lemma copper_example_not_218 :
  exists S : R,
    fst (calculateConductorAreaFromCurrent (conductor_page 11 25 1 226 234.5))
    = Some (Fin S) /\ 43 < 218.4 - S.
Proof.
  destruct (copper_area_bounds 11) as [S [E B]]; [lra|].
  exists S; split; [assumption|lra].
Qed.

(** ** The non-adiabatic factor *)

Lemma calculateEpsilon_finite (M t : R) :
  0 < t ->
  calculateEpsilon (Some (Fin M)) t = Some (Fin (epsilon_poly (M * sqrt t))).
Proof.
  intros Rt. unfold calculateEpsilon, Math_pow.
  rewrite Math_sqrt_finite by lra.
  cbn [isNaN orb num_mul]. rewrite num_le_finite.
  rewrite (proj2 (Rleb_false t 0)) by assumption.
  rewrite num_pow_2, num_pow_3. reflexivity.
Qed.

(** The polynomial is strictly increasing on the whole real line: its
    derivative [0.61 - 0.138 x + 0.0129 x^2] has no real root. *)
Lemma epsilon_poly_increasing (x y : R) :
  x < y -> epsilon_poly x < epsilon_poly y.
Proof.
  intros H. unfold epsilon_poly.
  assert (Q : 0 < 0.61 - 0.069 * (x + y) + 0.0043 * (x * x + x * y + y * y)).
  { pose proof (pow2_ge_0 (x + y - 460 / 43)).
    pose proof (pow2_ge_0 (x - y)). nra. }
  assert (E : (1 + 0.61 * y - 0.069 * y ^ 2 + 0.0043 * y ^ 3)
              - (1 + 0.61 * x - 0.069 * x ^ 2 + 0.0043 * x ^ 3)
              = (y - x) * (0.61 - 0.069 * (x + y)
                           + 0.0043 * (x * x + x * y + y * y))) by ring.
  assert (0 < (y - x) * (0.61 - 0.069 * (x + y)
                         + 0.0043 * (x * x + x * y + y * y))).
  { apply Rmult_lt_0_compat; lra. }
  lra.
Qed.



Module Numbers64.
Import PrimFloat.


End Numbers64.

(** ** The M factor *)

Ltac split_ifs :=
  repeat match goal with
    | |- context [if ?b then _ else _] => destruct b
    end.

(** Every thermal constant of the tables is positive. *)
Lemma getThermalConstants_positive (ty name : string) (v : num) (c : ThermalConstant) :
  getThermalConstants ty name v = Some c -> 0 < rho c /\ 0 < sigma c.
Proof.
  unfold getThermalConstants. cbn [lookup THERMAL_CONSTANTS].
  destruct ("insulating" =? ty)%string.
  - cbn [lookup]. split_ifs; intros H; inversion H; subst; cbn; lra.
  - destruct ("protective" =? ty)%string; [|discriminate].
    cbn [lookup]. split_ifs; intros H; inversion H; subst; cbn; lra.
Qed.

(** So is every constant of Table I. *)
Lemma TABLE_I_SHEATHS_positive (name : string) (m : MaterialConstant) :
  lookup name TABLE_I_SHEATHS = Some m -> 0 < K m /\ 0 < sigmaC m /\ 0 < beta m.
Proof.
  cbn [lookup TABLE_I_SHEATHS]. split_ifs; intros H; inversion H; subst; cbn; lra.
Qed.

(** When [calculateM] returns null. *)
Lemma calculateM_null (insulationMaterial outerSheathMaterial sheathMaterial : string)
    (voltageKv delta : num) (isOilFilled : string) :
  calculateM insulationMaterial outerSheathMaterial delta sheathMaterial
             voltageKv isOilFilled = None
  <-> (getThermalConstants "insulating" insulationMaterial voltageKv = None \/
       getThermalConstants "protective" outerSheathMaterial voltageKv = None \/
       lookup sheathMaterial TABLE_I_SHEATHS = None \/
       exists m, lookup sheathMaterial TABLE_I_SHEATHS = Some m /\
                 num_eq (2 * sigmaC m * delta * 1e-3)%js 0 = true).
Proof.
  unfold calculateM.
  destruct (getThermalConstants "insulating" _ _) as [c2|]; [|tauto].
  destruct (getThermalConstants "protective" _ _) as [c3|]; [|tauto].
  destruct (lookup sheathMaterial TABLE_I_SHEATHS) as [m|]; [|tauto].
  cbv zeta.
  destruct (num_eq (2 * sigmaC m * delta * 1e-3)%js 0) eqn:E.
  - split; [intros _|reflexivity]. right; right; right. exists m; split; auto.
  - split; [discriminate|].
    intros [H|[H|[H|[m' [H1 H2]]]]]; try discriminate.
    inversion H1; subst m'. congruence.
Qed.

(** The value of [calculateM] for a finite thickness, oil-filled off. *)
Lemma calculateM_real (insulationMaterial outerSheathMaterial sheathMaterial : string)
    (voltageKv : num) (c2 c3 : ThermalConstant) (m : MaterialConstant) (d : R) :
  getThermalConstants "insulating" insulationMaterial voltageKv = Some c2 ->
  getThermalConstants "protective" outerSheathMaterial voltageKv = Some c3 ->
  lookup sheathMaterial TABLE_I_SHEATHS = Some m ->
  2 * sigmaC m * d * 1e-3 <> 0 ->
  calculateM insulationMaterial outerSheathMaterial d sheathMaterial
             voltageKv "no"
  = Some (Fin (0.7 * (sqrt (sigma c2 / rho c2) + sqrt (sigma c3 / rho c3))
               / (2 * sigmaC m * d * 1e-3))).
Proof.
  intros H2 H3 H1 Hden.
  destruct (getThermalConstants_positive _ _ _ _ H2) as [P2 Q2].
  destruct (getThermalConstants_positive _ _ _ _ H3) as [P3 Q3].
  unfold calculateM. rewrite H2, H3, H1. cbv zeta.
  rewrite !num_div_finite by lra.
  rewrite !Math_sqrt_finite by (apply Rlt_le, Rdiv_lt_0_compat; assumption).
  cbn [num_add num_mul num_eq String.eqb Ascii.eqb Bool.eqb
       THERMAL_CONTACT_FACTOR default].
  rewrite (proj2 (Reqb_false _ 0)) by assumption.
  rewrite num_div_finite by assumption. cbn [num_mul].
  f_equal. f_equal. field.
  split; intros E; apply Hden; rewrite E; lra.
Qed.

(** The value of [calculateM] in the arithmetic and in the order of
    operations of the script, oil-filled off. *)
Lemma calculateM_script (insulationMaterial outerSheathMaterial sheathMaterial : string)
    (voltageKv delta : num) (c2 c3 : ThermalConstant) (m : MaterialConstant) :
  getThermalConstants "insulating" insulationMaterial voltageKv = Some c2 ->
  getThermalConstants "protective" outerSheathMaterial voltageKv = Some c3 ->
  lookup sheathMaterial TABLE_I_SHEATHS = Some m ->
  num_eq (2 * sigmaC m * delta * 1e-3)%js 0 = false ->
  calculateM insulationMaterial outerSheathMaterial delta sheathMaterial
             voltageKv "no"
  = Some (((Math_sqrt (Fin (sigma c2) / Fin (rho c2))
            + Math_sqrt (Fin (sigma c3) / Fin (rho c3)))
           / (2 * sigmaC m * delta * 1e-3)) * 0.7)%js.
Proof.
  intros H2 H3 H1 Hden.
  unfold calculateM. rewrite H2, H3, H1. cbv zeta. rewrite Hden.
  reflexivity.
Qed.

(** C5.  With the oil-filled switch off, as the sheath handler passes it,
    and a sheath name that is no member of [Object.prototype],
    [calculateM] returns null exactly when one of the three lookups
    misses or the denominator [2 * sigma1 * delta * 1e-3] is zero;
    otherwise it returns
    [(sqrt (sigma2/rho2) + sqrt (sigma3/rho3)) / (2 * sigma1 * delta * 1e-3) * 0.7],
    in the arithmetic of the script. *)
Theorem calculateM_formula :
  forall (insulationMaterial outerSheathMaterial sheathMaterial : string)
         (voltageKv delta : num),
    inherited sheathMaterial = false ->
    (calculateM insulationMaterial outerSheathMaterial delta sheathMaterial
                voltageKv "no" = None
     <-> (getThermalConstants "insulating" insulationMaterial voltageKv = None \/
          getThermalConstants "protective" outerSheathMaterial voltageKv = None \/
          lookup sheathMaterial TABLE_I_SHEATHS = None \/
          exists m, lookup sheathMaterial TABLE_I_SHEATHS = Some m /\
                    num_eq (2 * sigmaC m * delta * 1e-3)%js 0 = true)) /\
    (forall (c2 c3 : ThermalConstant) (m : MaterialConstant),
        getThermalConstants "insulating" insulationMaterial voltageKv = Some c2 ->
        getThermalConstants "protective" outerSheathMaterial voltageKv = Some c3 ->
        lookup sheathMaterial TABLE_I_SHEATHS = Some m ->
        num_eq (2 * sigmaC m * delta * 1e-3)%js 0 = false ->
        calculateM insulationMaterial outerSheathMaterial delta sheathMaterial
                   voltageKv "no"
        = Some (((Math_sqrt (Fin (sigma c2) / Fin (rho c2))
                  + Math_sqrt (Fin (sigma c3) / Fin (rho c3)))
                 / (2 * sigmaC m * delta * 1e-3)) * 0.7)%js).
Proof.
  intros ins out sh v delta _. split.
  - apply calculateM_null.
  - intros c2 c3 m H2 H3 H1 Hden. apply calculateM_script; assumption.
Qed.

(** C5, for XLPE insulation under a PE covering at 11 kV: a lead sheath
    of 2 mm gets its M factor; a wall of thickness 0 and a metal that
    Table I does not list get none. *)
Lemma calculateM_formula_witness :
  calculateM "XLPE" "PE" 2 "lead" 11 "no"
  = Some (((Math_sqrt (2.4e6 / 3.5) + Math_sqrt (2.4e6 / 3.5))
           / (2 * 1.45e6 * 2 * 1e-3)) * 0.7)%js /\
  calculateM "XLPE" "PE" 0 "lead" 11 "no" = None /\
  calculateM "XLPE" "PE" 2 "gold" 11 "no" = None.
Proof.
  split; [|split].
  - apply (proj2 (calculateM_formula "XLPE" "PE" "lead" 11 2 eq_refl)
             {| rho := 3.5; sigma := 2.4e6 |} {| rho := 3.5; sigma := 2.4e6 |}
             {| K := 41; beta := 230; sigmaC := 1.45e6; rho20 := 21.4e-8 |});
      try reflexivity.
    cbn. apply Reqb_false. lra.
  - apply (proj1 (calculateM_formula "XLPE" "PE" "lead" 11 0 eq_refl)).
    right; right; right.
    exists {| K := 41; beta := 230; sigmaC := 1.45e6; rho20 := 21.4e-8 |}.
    split; [reflexivity|]. cbn. apply Reqb_true. lra.
  - apply (proj1 (calculateM_formula "XLPE" "PE" "gold" 11 2 eq_refl)).
    right; right; left. reflexivity.
Defined.

(** ** The geometry resolver *)

Lemma geometry_guard (Do Di : num) :
  negb (isNaN Do) && negb (isNaN Di) && num_gt Do 0 && num_gt Di 0
  = num_gt Do 0 && num_gt Di 0.
Proof.
  destruct Do, Di; unfold num_gt; cbn; try reflexivity;
    repeat (destruct (Rltb _ _); try reflexivity).
Qed.

(** The page [updateSheathGeometry] leaves, by cases on its two tests. *)
Lemma updateSheathGeometry_page (p : Page) :
  let Do := parseFloat (input p "sheathOuterD") in
  let Di := parseFloat (input p "sheathInnerD") in
  let q := set_borderColor "sheathInnerD" "" (set_borderColor "sheathOuterD" "" p) in
  snd (updateSheathGeometry p)
  = if num_gt Do 0 && num_gt Di 0 then
      if num_gt Do Di then
        set_input "sheathAreaGiven"
          (Fixed (num_mul (num_div Math_PI 4)
                    (num_sub (num_mul Do Do) (num_mul Di Di))) 2)
          (set_input "sheathThickness" (Fixed (num_div (num_sub Do Di) 2) 3) q)
      else
        set_borderColor "sheathInnerD" "red"
          (set_borderColor "sheathOuterD" "red"
             (set_input "sheathAreaGiven" Empty
                (set_input "sheathThickness" Empty q)))
    else
      set_input "sheathAreaGiven" Empty (set_input "sheathThickness" Empty q).
Proof.
  intros Do Di q.
  unfold updateSheathGeometry, bind, number, gets, modify.
  cbv beta iota zeta. fold Do Di. rewrite geometry_guard.
  destruct (num_gt Do 0 && num_gt Di 0); [|reflexivity].
  destruct (num_gt Do Di); reflexivity.
Qed.

(** C6, as the code has it.  For finite [Do > Di > 0] the thickness field
    receives [(Do - Di)/2] printed with three decimals and the area field
    [(PI/4)(Do^2 - Di^2)] printed with two, and no diameter is flagged.
    For every other pair both derived fields are emptied.  The two
    diameter inputs are flagged red exactly when both diameters are
    positive and [Do > Di] fails; with a non-positive or non-numeric
    diameter the flags are cleared. *)
Theorem updateSheathGeometry_fields :
  forall p : Page,
    let Do := parseFloat (input p "sheathOuterD") in
    let Di := parseFloat (input p "sheathInnerD") in
    let p' := snd (updateSheathGeometry p) in
    (forall o i : R,
        Do = Fin o -> Di = Fin i -> 0 < i < o ->
        input p' "sheathThickness" = Fixed (Fin ((o - i) / 2)) 3 /\
        input p' "sheathAreaGiven" = Fixed (Fin (PI / 4 * (o * o - i * i))) 2 /\
        borderColor p' "sheathOuterD" = "" /\
        borderColor p' "sheathInnerD" = "") /\
    (num_gt Do Di && num_gt Di 0 = false ->
     input p' "sheathThickness" = Empty /\ input p' "sheathAreaGiven" = Empty) /\
    ((borderColor p' "sheathOuterD" = "red" /\
      borderColor p' "sheathInnerD" = "red")
     <-> num_gt Do 0 && num_gt Di 0 && negb (num_gt Do Di) = true) /\
    (num_gt Do 0 && num_gt Di 0 = false ->
     borderColor p' "sheathOuterD" = "" /\ borderColor p' "sheathInnerD" = "").
Proof.
  intros p Do Di p'.
  pose proof (updateSheathGeometry_page p) as V. cbv zeta in V.
  fold Do Di p' in V.
  split; [|split; [|split]].
  - intros o i Ho Hi R. rewrite V, Ho, Hi. unfold num_gt, Math_PI. cbn [num_lt].
    rewrite (proj2 (Rltb_true 0 o)), (proj2 (Rltb_true 0 i)),
      (proj2 (Rltb_true i o)) by lra.
    cbn [andb num_sub num_neg num_add num_mul].
    rewrite !num_div_finite by lra. cbn [num_mul].
    repeat split; reflexivity.
  - intros H. rewrite V.
    destruct (num_gt Do 0 && num_gt Di 0) eqn:E1; [|split; reflexivity].
    destruct (num_gt Do Di) eqn:E2; [|split; reflexivity].
    apply andb_prop in E1. destruct E1 as [_ E1]. rewrite E1 in H. discriminate.
  - rewrite V.
    destruct (num_gt Do 0 && num_gt Di 0); [|split; [intros [H _]|]; discriminate].
    destruct (num_gt Do Di); [split; [intros [H _]|]; discriminate|].
    split; [reflexivity|split; reflexivity].
  - intros H. rewrite V, H. split; reflexivity.
Qed.

(** C6, as the specification has it, fails: with a negative inner
    diameter the derived fields are emptied but no input is flagged. *)
Lemma updateSheathGeometry_unflagged :
  let p' := snd (updateSheathGeometry
                   (set_input "sheathOuterD" (Typed 5)
                      (set_input "sheathInnerD" (Typed (-1)) blank))) in
  input p' "sheathThickness" = Empty /\
  input p' "sheathAreaGiven" = Empty /\
  borderColor p' "sheathOuterD" = "" /\
  borderColor p' "sheathInnerD" = "".
Proof.
  cbv zeta. rewrite updateSheathGeometry_page. cbv zeta.
  replace (parseFloat (input (set_input "sheathOuterD" (Typed 5)
            (set_input "sheathInnerD" (Typed (-1)) blank)) "sheathInnerD"))
    with (Fin (-1)) by reflexivity.
  replace (parseFloat (input (set_input "sheathOuterD" (Typed 5)
            (set_input "sheathInnerD" (Typed (-1)) blank)) "sheathOuterD"))
    with (Fin 5) by reflexivity.
  unfold num_gt. cbn [num_lt].
  rewrite (proj2 (Rltb_false 0 (-1))) by lra.
  rewrite andb_false_r. repeat split.
Qed.

(** ** Effects of the script's functions *)

Lemma validateVoltageTime_effect (v t : num) :
  reports_or_returns negb (validateVoltageTime v t).
Proof.
  intros p. unfold validateVoltageTime.
  destruct (num_le v 0 || num_le t 0); [left; split; [reflexivity|eexists; reflexivity]|].
  destruct (num_gt v 400); [left; split; [reflexivity|eexists; reflexivity]|].
  destruct (num_gt t 10); [left; split; [reflexivity|eexists; reflexivity]|].
  right; split; reflexivity.
Qed.

Ltac reported := left; split; [reflexivity|eexists; reflexivity].

Lemma calculateConductorAreaFromCurrent_effect :
  reports_or_returns is_none calculateConductorAreaFromCurrent.
Proof.
  intros p. unfold calculateConductorAreaFromCurrent, bind, number, gets.
  cbv beta iota zeta.
  destruct (existsb isNaN _); [reported|].
  destruct (validateVoltageTime_effect (parseFloat (input p "voltageKv"))
              (parseFloat (input p "timeSec")) p) as [[F [n E]]|[F E]];
    destruct (validateVoltageTime _ _ p) as [ok q]; cbn [fst snd] in F, E; subst q.
  - apply negb_true_iff in F; subst ok. cbn [negb].
    left; split; [reflexivity|exists n; reflexivity].
  - apply negb_false_iff in F; subst ok. cbn [negb].
    destruct (_ || _); [reported|].
    destruct (num_le (Math_log _) 0); [reported|].
    destruct (num_le _ 0); [reported|].
    right; split; reflexivity.
Qed.

Lemma calculateConductorCurrentFromArea_effect :
  reports_or_returns is_none calculateConductorCurrentFromArea.
Proof.
  intros p. unfold calculateConductorCurrentFromArea, bind, number, gets.
  cbv beta iota zeta.
  destruct (existsb isNaN _); [reported|].
  destruct (num_le _ 0); [reported|].
  destruct (_ || _); [reported|].
  destruct (num_le (Math_log _) 0); [reported|].
  right; split; reflexivity.
Qed.

(** Leaving the conductor handler through a [return] changes the page by
    one notification and nothing else. *)
Lemma conductorForm_submit_returned (p : Page) :
  fst (conductorForm_submit p) = Returned ->
  exists n, snd (conductorForm_submit p) = notify n p.
Proof.
  unfold conductorForm_submit, bind, selected, value, number, gets.
  cbv beta iota zeta.
  destruct (select p "conductorMode" =? "area-from-current")%string.
  - destruct (calculateConductorAreaFromCurrent_effect p) as [[F [n E]]|[F E]];
      destruct (calculateConductorAreaFromCurrent p) as [r q];
      cbn [fst snd] in F, E; subst q; destruct r as [S|]; try discriminate F.
    + intros _. exists n; reflexivity.
    + destruct (negb (text_is_empty (input p "givenConductorArea"))).
      * destruct (isNaN _ || num_le _ 0).
        -- intros _. eexists; reflexivity.
        -- destruct (num_ge _ S); intros H; discriminate H.
      * intros H; discriminate H.
  - destruct (calculateConductorCurrentFromArea_effect p) as [[F [n E]]|[F E]];
      destruct (calculateConductorCurrentFromArea p) as [r q];
      cbn [fst snd] in F, E; subst q; destruct r as [S|]; try discriminate F.
    + intros _. exists n; reflexivity.
    + intros H; discriminate H.
Qed.

(** ** The submit handlers *)

(** Leaving the sheath handler through a [return] changes the page by one
    notification and nothing else. *)
Lemma sheathForm_submit_returned (p : Page) :
  fst (sheathForm_submit p) = Returned ->
  exists n, snd (sheathForm_submit p) = notify n p.
Proof.
  unfold sheathForm_submit, bind, selected, value, number, gets, ret.
  cbv beta iota zeta.
  destruct (_ || _); [intros _; eexists; reflexivity|].
  destruct (validateVoltageTime_effect (parseFloat (input p "sheathVoltageKv"))
              (parseFloat (input p "sheathTimeSec")) p) as [[F [n E]]|[F E]];
    destruct (validateVoltageTime _ _ p) as [ok q]; cbn [fst snd] in F, E; subst q.
  { apply negb_true_iff in F; subst ok. intros _. exists n; reflexivity. }
  apply negb_false_iff in F; subst ok. cbn [negb].
  destruct (num_le _ 0); [intros _; eexists; reflexivity|].
  destruct (negb _); [intros _; eexists; reflexivity|].
  destruct (calculateSheathAdiabaticArea _ _ _ _ _) as [s_adiab|];
    [|intros _; eexists; reflexivity].
  destruct (calculateM _ _ _ _ _ _) as [M|]; [|intros _; eexists; reflexivity].
  destruct (calculateEpsilon _ _) as [epsilon|]; [|intros _; eexists; reflexivity].
  destruct (num_ge _ _); intros H; discriminate H.
Qed.

(** What a sheath submission that runs to its end has computed, shown
    and stored. *)
Lemma sheathForm_submit_completed (p : Page) :
  fst (sheathForm_submit p) = Completed ->
  let sheathMaterial := toLowerCase (select p "sheathMaterial") in
  let voltageKv := parseFloat (input p "sheathVoltageKv") in
  let I_AD_kA := parseFloat (input p "sheathSccKa") in
  let t := parseFloat (input p "sheathTimeSec") in
  let s_given := parseFloat (input p "sheathAreaGiven") in
  exists s_adiab M epsilon : num,
    calculateSheathAdiabaticArea I_AD_kA t sheathMaterial
      (parseFloat (input p "sheathThetaInitial"))
      (parseFloat (input p "sheathThetaFinal")) = Some s_adiab /\
    calculateM (select p "insulationMaterial") (select p "outerSheathMaterial")
      (parseFloat (input p "sheathThickness")) sheathMaterial voltageKv "no"
    = Some M /\
    calculateEpsilon (Some M) t = Some epsilon /\
    isNaN s_given = false /\
    resultText (snd (sheathForm_submit p))
    = (sheath_report s_adiab epsilon (num_mul s_adiab epsilon) s_given
       ++ [if num_ge s_given (num_mul s_adiab epsilon)
           then sheath_sufficient else sheath_undersized])%list /\
    (exists d : SheathData.t,
        sheathData (snd (sheathForm_submit p)) = Some d /\
        SheathData.i_ad d = Fixed s_adiab 3 /\
        SheathData.m_factor d = Fixed M 3 /\
        SheathData.epsilon d = Fixed epsilon 3 /\
        SheathData.i_non_ad d = Fixed (num_mul epsilon s_adiab) 3) /\
    conductorData (snd (sheathForm_submit p)) = conductorData p.
Proof.
  unfold sheathForm_submit, bind, selected, value, number, gets, ret.
  cbv beta iota zeta.
  destruct (_ || _) eqn:G; [intros H; discriminate H|].
  apply orb_false_iff in G. destruct G as [G _].
  apply orb_false_iff in G. destruct G as [G _].
  apply orb_false_iff in G. destruct G as [_ G].
  assert (Hgiven : isNaN (parseFloat (input p "sheathAreaGiven")) = false).
  { apply (existsb_isNaN_false _ _ G). cbn. tauto. }
  destruct (validateVoltageTime_effect (parseFloat (input p "sheathVoltageKv"))
              (parseFloat (input p "sheathTimeSec")) p) as [[F [n E]]|[F E]];
    destruct (validateVoltageTime _ _ p) as [ok q]; cbn [fst snd] in F, E; subst q.
  { apply negb_true_iff in F; subst ok. intros H; discriminate H. }
  apply negb_false_iff in F; subst ok. cbn [negb].
  destruct (num_le _ 0); [intros H; discriminate H|].
  destruct (negb _); [intros H; discriminate H|].
  destruct (calculateSheathAdiabaticArea _ _ _ _ _) as [s_adiab|] eqn:E1;
    [|intros H; discriminate H].
  destruct (calculateM _ _ _ _ _ _) as [M|] eqn:E2; [|intros H; discriminate H].
  destruct (calculateEpsilon _ _) as [epsilon|] eqn:E3; [|intros H; discriminate H].
  intros _. exists s_adiab, M, epsilon.
  split; [reflexivity|]. split; [reflexivity|]. split; [exact E3|].
  split; [assumption|].
  destruct (num_ge _ _).
  - split; [reflexivity|]. split; [|reflexivity].
    eexists; split; [reflexivity|]. repeat split.
  - split; [reflexivity|]. split; [|reflexivity].
    eexists; split; [reflexivity|]. repeat split.
Qed.

(** The same for a conductor submission in area-from-current mode with a
    candidate area. *)
Lemma conductorForm_submit_completed (p : Page) :
  fst (conductorForm_submit p) = Completed ->
  select p "conductorMode" = "area-from-current" ->
  input p "givenConductorArea" <> Empty ->
  let S_given := parseFloat (input p "givenConductorArea") in
  exists S_required : num,
    fst (calculateConductorAreaFromCurrent p) = Some S_required /\
    isNaN S_given = false /\
    resultText (snd (conductorForm_submit p))
    = (conductor_report S_required
       ++ [if num_ge S_given S_required
           then cable_sufficient else cable_undersized])%list /\
    (exists d : ConductorData.t,
        conductorData (snd (conductorForm_submit p)) = Some d /\
        ConductorData.area d = S_given) /\
    sheathData (snd (conductorForm_submit p)) = sheathData p.
Proof.
  intros H Hmode Hstr.
  revert H.
  unfold conductorForm_submit, bind, selected, value, number, gets.
  cbv beta iota zeta. rewrite Hmode. cbn [String.eqb Ascii.eqb Bool.eqb].
  destruct (calculateConductorAreaFromCurrent_effect p) as [[F [n E]]|[F E]];
    destruct (calculateConductorAreaFromCurrent p) as [r q];
    cbn [fst snd] in F, E; subst q; destruct r as [S|]; try discriminate F.
  { intros H; discriminate H. }
  destruct (input p "givenConductorArea") as [|x|x d] eqn:Ein;
    [contradiction Hstr; reflexivity| |]; cbn [text_is_empty negb].
  - destruct (isNaN _) eqn:N; [intros H; discriminate H|]. cbn [orb].
    destruct (num_le _ 0); [intros H; discriminate H|].
    intros _. exists S. split; [reflexivity|]. split; [assumption|].
    destruct (num_ge _ S); (split; [reflexivity|]); (split; [|reflexivity]);
      eexists; split; reflexivity.
  - destruct (isNaN _) eqn:N; [intros H; discriminate H|]. cbn [orb].
    destruct (num_le _ 0); [intros H; discriminate H|].
    intros _. exists S. split; [reflexivity|]. split; [assumption|].
    destruct (num_ge _ S); (split; [reflexivity|]); (split; [|reflexivity]);
      eexists; split; reflexivity.
Qed.

(** How the conductor handler ends, as a decision tree. *)
Lemma conductorForm_submit_outcome (p : Page) :
  let S_given_str := input p "givenConductorArea" in
  let S_given := parseFloat S_given_str in
  fst (conductorForm_submit p)
  = if (select p "conductorMode" =? "area-from-current")%string then
      match fst (calculateConductorAreaFromCurrent p) with
      | None => Returned
      | Some _ =>
          if negb (text_is_empty S_given_str)
             && (isNaN S_given || num_le S_given 0)
          then Returned else Completed
      end
    else
      match fst (calculateConductorCurrentFromArea p) with
      | None => Returned
      | Some _ => Completed
      end.
Proof.
  unfold conductorForm_submit, bind, selected, value, number, gets.
  cbv beta iota zeta.
  destruct (select p "conductorMode" =? "area-from-current")%string.
  - destruct (calculateConductorAreaFromCurrent p) as [[S|] q]; cbn [fst];
      [|reflexivity].
    destruct (negb (text_is_empty (input p "givenConductorArea"))); cbn [andb];
      [|reflexivity].
    destruct (isNaN _ || num_le _ 0); [reflexivity|].
    destruct (num_ge _ S); reflexivity.
  - destruct (calculateConductorCurrentFromArea p) as [[S|] q]; reflexivity.
Qed.

(** How the sheath handler ends, as a decision tree. *)
Lemma sheathForm_submit_outcome (p : Page) :
  let sheathMaterial := toLowerCase (select p "sheathMaterial") in
  let voltageKv := parseFloat (input p "sheathVoltageKv") in
  let I_AD_kA := parseFloat (input p "sheathSccKa") in
  let t := parseFloat (input p "sheathTimeSec") in
  let insulationMaterial := select p "insulationMaterial" in
  let outerSheathMaterial := select p "outerSheathMaterial" in
  let theta_i := parseFloat (input p "sheathThetaInitial") in
  let theta_f := parseFloat (input p "sheathThetaFinal") in
  let Do := parseFloat (input p "sheathOuterD") in
  let Di := parseFloat (input p "sheathInnerD") in
  let sheathThickness := parseFloat (input p "sheathThickness") in
  let s_given := parseFloat (input p "sheathAreaGiven") in
  fst (sheathForm_submit p)
  = if negb (truthy sheathMaterial)
       || existsb isNaN [voltageKv; I_AD_kA; t; theta_i; theta_f; Do; Di;
                         sheathThickness; s_given]
       || negb (truthy insulationMaterial)
       || negb (truthy outerSheathMaterial)
    then Returned
    else if negb (fst (validateVoltageTime voltageKv t p)) then Returned
    else if num_le I_AD_kA 0 then Returned
    else if negb (num_gt Do Di && num_gt Do 0 && num_gt Di 0) then Returned
    else
      match calculateSheathAdiabaticArea I_AD_kA t sheathMaterial theta_i theta_f with
      | None => Returned
      | Some _ =>
          match calculateM insulationMaterial outerSheathMaterial
                  sheathThickness sheathMaterial voltageKv "no" with
          | None => Returned
          | Some M =>
              match calculateEpsilon (Some M) t with
              | None => Returned
              | Some _ => Completed
              end
          end
      end.
Proof.
  unfold sheathForm_submit, bind, selected, value, number, gets, ret.
  cbv beta iota zeta.
  destruct (_ || _); [reflexivity|].
  destruct (validateVoltageTime _ _ p) as [ok q]; cbn [fst].
  destruct ok; cbn [negb]; [|reflexivity].
  destruct (num_le _ 0); [reflexivity|].
  destruct (negb _); [reflexivity|].
  destruct (calculateSheathAdiabaticArea _ _ _ _ _) as [s_adiab|]; [|reflexivity].
  destruct (calculateM _ _ _ _ _ _) as [M|]; [|reflexivity].
  destruct (calculateEpsilon _ _) as [epsilon|]; [|reflexivity].
  destruct (num_ge _ _); reflexivity.
Qed.

Lemma truthy_false (s : string) : negb (truthy s) = true <-> s = "".
Proof.
  unfold truthy. rewrite negb_involutive. apply String.eqb_eq.
Qed.

Lemma conductor_failure_returned (p : Page) :
  conductor_failure p <-> fst (conductorForm_submit p) = Returned.
Proof.
  rewrite conductorForm_submit_outcome. unfold conductor_failure. cbv zeta.
  destruct (select p "conductorMode" =? "area-from-current")%string eqn:Em.
  - apply String.eqb_eq in Em.
    destruct (fst (calculateConductorAreaFromCurrent p)) as [S|].
    + destruct (input p "givenConductorArea") as [|x|x d]; cbn [text_is_empty negb andb].
      * split; [|discriminate].
        intros [[_ [H|[H _]]]|[H _]]; try discriminate; contradiction.
      * destruct (isNaN _ || num_le _ 0) eqn:E.
        -- split; [reflexivity|]. intros _. left; split; [assumption|right].
           split; [discriminate|]. apply orb_true_iff; assumption.
        -- split; [|discriminate].
           intros [[_ [H|[_ H]]]|[H _]]; try discriminate; try contradiction.
           apply orb_true_iff in H. congruence.
      * destruct (isNaN _ || num_le _ 0) eqn:E.
        -- split; [reflexivity|]. intros _. left; split; [assumption|right].
           split; [discriminate|]. apply orb_true_iff; assumption.
        -- split; [|discriminate].
           intros [[_ [H|[_ H]]]|[H _]]; try discriminate; try contradiction.
           apply orb_true_iff in H. congruence.
    + split; [reflexivity|]. intros _. left; split; [assumption|left; reflexivity].
  - apply String.eqb_neq in Em.
    destruct (fst (calculateConductorCurrentFromArea p)) as [S|].
    + split; [|discriminate].
      intros [[H _]|[_ H]]; [contradiction|discriminate].
    + split; [reflexivity|]. intros _. right; split; [assumption|reflexivity].
Qed.

Lemma sheath_failure_returned (p : Page) :
  sheath_failure p <-> fst (sheathForm_submit p) = Returned.
Proof.
  rewrite sheathForm_submit_outcome. unfold sheath_failure. cbv zeta.
  rewrite <- !truthy_false.
  destruct (negb (truthy (toLowerCase (select p "sheathMaterial"))));
    [split; [reflexivity|intros _; left; reflexivity]|].
  destruct (existsb isNaN _);
    [split; [reflexivity|intros _; right; left; reflexivity]|].
  destruct (negb (truthy (select p "insulationMaterial")));
    [split; [reflexivity|intros _; do 2 right; left; reflexivity]|].
  destruct (negb (truthy (select p "outerSheathMaterial")));
    [split; [reflexivity|intros _; do 3 right; left; reflexivity]|].
  cbn [orb].
  destruct (fst (validateVoltageTime _ _ p)); cbn [negb];
    [|split; [reflexivity|intros _; do 4 right; left; reflexivity]].
  destruct (num_le _ 0);
    [split; [reflexivity|intros _; do 5 right; left; reflexivity]|].
  destruct (_ && _); cbn [negb];
    [|split; [reflexivity|intros _; do 6 right; left; reflexivity]].
  destruct (calculateSheathAdiabaticArea _ _ _ _ _) as [s|];
    [|split; [reflexivity|intros _; do 7 right; left; reflexivity]].
  destruct (calculateM _ _ _ _ _ _) as [M|];
    [|split; [reflexivity|intros _; do 8 right; left; reflexivity]].
  destruct (calculateEpsilon (Some M) _) as [e|] eqn:E.
  - split; [|discriminate].
    intros [H|[H|[H|[H|[H|[H|[H|[H|[H|[M' [H1 H2]]]]]]]]]]]; try discriminate.
    inversion H1; subst M'. congruence.
  - split; [reflexivity|]. intros _. do 9 right. exists M; split; [reflexivity|assumption].
Qed.

Lemma notify_untouched (n : Notification) (p : Page) :
  untouched p (notify n p) /\ notifications (notify n p) = (notifications p ++ [n])%list.
Proof. repeat split. Qed.

(** C9.  A submission fails exactly when its handler leaves through a
    [return]; it has then shown one notification and
    [conductorData], [sheathData] and the two flags are what they were
    before: nothing of the failed calculation is stored. *)
Theorem failed_submission_stores_nothing :
  forall p : Page,
    (conductor_failure p <-> fst (conductorForm_submit p) = Returned) /\
    (sheath_failure p <-> fst (sheathForm_submit p) = Returned) /\
    (fst (conductorForm_submit p) = Returned ->
     untouched p (snd (conductorForm_submit p)) /\
     exists n, notifications (snd (conductorForm_submit p))
               = (notifications p ++ [n])%list) /\
    (fst (sheathForm_submit p) = Returned ->
     untouched p (snd (sheathForm_submit p)) /\
     exists n, notifications (snd (sheathForm_submit p))
               = (notifications p ++ [n])%list).
Proof.
  intros p.
  split; [apply conductor_failure_returned|].
  split; [apply sheath_failure_returned|].
  split; intros H.
  - destruct (conductorForm_submit_returned p H) as [n ->].
    split; [apply notify_untouched|exists n; apply notify_untouched].
  - destruct (sheathForm_submit_returned p H) as [n ->].
    split; [apply notify_untouched|exists n; apply notify_untouched].
Qed.

Lemma num_ge_refl (x : num) : isNaN x = false -> num_ge x x = true.
Proof.
  unfold num_ge. destruct x; cbn; intros H; try discriminate; try reflexivity.
  apply Rleb_true; lra.
Qed.

Lemma num_ge_finite (a r : R) : num_ge a r = true <-> r <= a.
Proof. unfold num_ge. cbn. apply Rleb_true. Qed.

(** C4.  A sheath submission that passes every guard runs to its end and
    shows the required area [s_adiab * epsilon]; its verdict line is the
    pass line exactly when the actual area is [>=] the required area,
    equality included.  A conductor submission with a candidate area that
    passes every guard does the same with the candidate and the required
    conductor area. *)
Theorem verdicts_boundary_inclusive :
  forall p : Page,
    (~ sheath_failure p ->
     fst (sheathForm_submit p) = Completed /\
     exists (s_adiab M epsilon : num) (verdict : fragment),
       let sheathMaterial := toLowerCase (select p "sheathMaterial") in
       let t := parseFloat (input p "sheathTimeSec") in
       let s_given := parseFloat (input p "sheathAreaGiven") in
       let s_required := num_mul s_adiab epsilon in
       calculateSheathAdiabaticArea (parseFloat (input p "sheathSccKa")) t
         sheathMaterial (parseFloat (input p "sheathThetaInitial"))
         (parseFloat (input p "sheathThetaFinal")) = Some s_adiab /\
       calculateM (select p "insulationMaterial") (select p "outerSheathMaterial")
         (parseFloat (input p "sheathThickness")) sheathMaterial
         (parseFloat (input p "sheathVoltageKv")) "no" = Some M /\
       calculateEpsilon (Some M) t = Some epsilon /\
       resultText (snd (sheathForm_submit p))
       = (sheath_report s_adiab epsilon s_required s_given ++ [verdict])%list /\
       (verdict = sheath_sufficient <-> num_ge s_given s_required = true) /\
       (verdict = sheath_undersized <-> num_ge s_given s_required = false) /\
       (s_given = s_required -> verdict = sheath_sufficient) /\
       (forall a r : R, s_given = Fin a -> s_required = Fin r ->
                        (verdict = sheath_sufficient <-> r <= a))) /\
    (select p "conductorMode" = "area-from-current" ->
     input p "givenConductorArea" <> Empty ->
     ~ conductor_failure p ->
     fst (conductorForm_submit p) = Completed /\
     exists (S_required : num) (verdict : fragment),
       let S_given := parseFloat (input p "givenConductorArea") in
       fst (calculateConductorAreaFromCurrent p) = Some S_required /\
       resultText (snd (conductorForm_submit p))
       = (conductor_report S_required ++ [verdict])%list /\
       (verdict = cable_sufficient <-> num_ge S_given S_required = true) /\
       (verdict = cable_undersized <-> num_ge S_given S_required = false) /\
       (S_given = S_required -> verdict = cable_sufficient) /\
       (forall a r : R, S_given = Fin a -> S_required = Fin r ->
                        (verdict = cable_sufficient <-> r <= a))).
Proof.
  intros p. split.
  - intros NF.
    assert (H : fst (sheathForm_submit p) = Completed).
    { destruct (fst (sheathForm_submit p)) eqn:E; [|reflexivity].
      exfalso. apply NF, sheath_failure_returned. exact E. }
    split; [exact H|].
    destruct (sheathForm_submit_completed p H)
      as [s_adiab [M [epsilon [E1 [E2 [E3 [N [T _]]]]]]]].
    exists s_adiab, M, epsilon.
    exists (if num_ge (parseFloat (input p "sheathAreaGiven")) (num_mul s_adiab epsilon)
            then sheath_sufficient else sheath_undersized).
    cbv zeta. repeat (split; [assumption|]).
    assert (B : forall x, parseFloat (input p "sheathAreaGiven") = x ->
                          num_ge (parseFloat (input p "sheathAreaGiven")) x = true).
    { intros x <-. apply num_ge_refl; assumption. }
    destruct (num_ge _ _) eqn:G.
    + split; [tauto|]. split; [split; discriminate|]. split; [reflexivity|].
      intros a r Ha Hr. rewrite Ha, Hr in G. apply num_ge_finite in G. tauto.
    + split; [split; discriminate|]. split; [tauto|].
      split; [intros Heq; rewrite (B _ Heq) in G; discriminate|].
      intros a r Ha Hr. rewrite Ha, Hr in G.
      split; [discriminate|]. intros Hle. apply num_ge_finite in Hle. congruence.
  - intros Hmode Hstr NF.
    assert (H : fst (conductorForm_submit p) = Completed).
    { destruct (fst (conductorForm_submit p)) eqn:E; [|reflexivity].
      exfalso. apply NF, conductor_failure_returned. exact E. }
    split; [exact H|].
    destruct (conductorForm_submit_completed p H Hmode Hstr)
      as [S [E1 [N [T _]]]].
    exists S.
    exists (if num_ge (parseFloat (input p "givenConductorArea")) S
            then cable_sufficient else cable_undersized).
    cbv zeta. repeat (split; [assumption|]).
    assert (B : forall x, parseFloat (input p "givenConductorArea") = x ->
                          num_ge (parseFloat (input p "givenConductorArea")) x = true).
    { intros x <-. apply num_ge_refl; assumption. }
    destruct (num_ge _ _) eqn:G.
    + split; [tauto|]. split; [split; discriminate|]. split; [reflexivity|].
      intros a r Ha Hr. rewrite Ha, Hr in G. apply num_ge_finite in G. tauto.
    + split; [split; discriminate|]. split; [tauto|].
      split; [intros Heq; rewrite (B _ Heq) in G; discriminate|].
      intros a r Ha Hr. rewrite Ha, Hr in G.
      split; [discriminate|]. intros Hle. apply num_ge_finite in Hle. congruence.
Qed.

(** C10, as the code has it.  A NaN argument is never the reason for a
    rejection: with a NaN voltage the result is true exactly when the time
    is NaN or inside its range, and symmetrically; two NaN arguments pass.
    The callers reject NaN themselves, before [validateVoltageTime] runs,
    with their own notification. *)
Theorem validateVoltageTime_NaN :
  forall p : Page,
    (forall t : num,
        fst (validateVoltageTime NaN t p) = true
        <-> (isNaN t = true \/ within 10 t)) /\
    (forall v : num,
        fst (validateVoltageTime v NaN p) = true
        <-> (isNaN v = true \/ within 400 v)) /\
    fst (validateVoltageTime NaN NaN p) = true /\
    (existsb isNaN [parseFloat (input p "voltageKv");
                    parseFloat (input p "sccKa");
                    parseFloat (input p "timeSec");
                    parseFloat (input p "kValue");
                    parseFloat (input p "beta")] = true ->
     calculateConductorAreaFromCurrent p
     = (None, notify {| message := "Please fill all conductor inputs.";
                        type := "warning" |} p)) /\
    (existsb isNaN [parseFloat (input p "sheathVoltageKv");
                    parseFloat (input p "sheathSccKa");
                    parseFloat (input p "sheathTimeSec");
                    parseFloat (input p "sheathThetaInitial");
                    parseFloat (input p "sheathThetaFinal");
                    parseFloat (input p "sheathOuterD");
                    parseFloat (input p "sheathInnerD");
                    parseFloat (input p "sheathThickness");
                    parseFloat (input p "sheathAreaGiven")] = true ->
     sheathForm_submit p
     = (Returned, notify {| message := "Please fill all sheath inputs.";
                            type := "warning" |} p)).
Proof.
  intros p.
  split.
  { intros t. rewrite validateVoltageTime_value. unfold num_gt, within.
    destruct t; cbn; split; intros H; try reflexivity; try tauto;
      try discriminate; try (destruct H as [H|H]; [discriminate|]);
      try contradiction.
    - right. decide_reals; cbn in H; try discriminate; lra.
    - decide_reals. }
  split.
  { intros v. rewrite validateVoltageTime_value. unfold num_gt, within.
    destruct v; cbn; split; intros H; try reflexivity; try tauto;
      try discriminate; try (destruct H as [H|H]; [discriminate|]);
      try contradiction.
    - right. decide_reals; cbn in H; try discriminate; lra.
    - decide_reals. }
  split; [reflexivity|].
  split.
  - intros H. unfold calculateConductorAreaFromCurrent, bind, number, gets.
    cbv beta iota zeta. rewrite H. reflexivity.
  - intros H. unfold sheathForm_submit, bind, selected, value, number, gets, ret.
    cbv beta iota zeta. rewrite H.
    rewrite orb_true_r. reflexivity.
Qed.

(** C10, as stated, fails: a NaN voltage with a negative time is
    rejected. *)
Lemma validateVoltageTime_NaN_rejected :
  fst (validateVoltageTime NaN (Fin (-1)) blank) = false.
Proof.
  rewrite validateVoltageTime_value. unfold num_gt. cbn. decide_reals.
Qed.

(** ** Two worked submissions *)

(** The adiabatic sheath area on finite inputs. *)
Lemma calculateSheathAdiabaticArea_real (I t thi thf : R) (name : string)
    (m : MaterialConstant) :
  lookup name TABLE_I_SHEATHS = Some m ->
  0 < I -> 0 < t -> thi < thf -> 0 < thi + beta m ->
  calculateSheathAdiabaticArea I t name thi thf
  = Some (Fin (sqrt ((I * 1000) ^ 2 * t
                     / (K m ^ 2 * ln ((thf + beta m) / (thi + beta m)))))).
Proof.
  intros Hm RI Rt Rth Rb.
  destruct (TABLE_I_SHEATHS_positive _ _ Hm) as [PK _].
  assert (Hratio : 1 < (thf + beta m) / (thi + beta m))
    by (apply ratio_above_1; lra).
  assert (HL : 0 < ln ((thf + beta m) / (thi + beta m)))
    by (apply ln_pos_iff; assumption).
  assert (HS : 0 < (I * 1000) ^ 2 * t
                   / (K m ^ 2 * ln ((thf + beta m) / (thi + beta m)))).
  { apply Rdiv_lt_0_compat.
    - apply Rmult_lt_0_compat; [apply pow_lt; lra|lra].
    - apply Rmult_lt_0_compat; [apply pow_lt; lra|assumption]. }
  unfold calculateSheathAdiabaticArea. rewrite Hm. cbv zeta.
  cbn [num_add num_mul].
  rewrite num_div_finite, Math_log_finite, !num_pow_2 by lra.
  cbn [num_mul].
  rewrite num_div_finite
    by (apply Rgt_not_eq, Rmult_lt_0_compat; [apply pow_lt; lra|assumption]).
  rewrite !num_le_finite.
  rewrite (proj2 (Rleb_false _ 0)) by assumption.
  rewrite (proj2 (Rleb_false _ 0)) by assumption.
  rewrite Math_sqrt_finite by lra. reflexivity.
Qed.

(** Both handlers do run to their end on these pages. *)
Lemma lead_sheath_completes : fst (sheathForm_submit lead_sheath_page) = Completed.
Proof.
  rewrite sheathForm_submit_outcome. cbv zeta.
  change (toLowerCase (select lead_sheath_page "sheathMaterial")) with "lead".
  change (select lead_sheath_page "insulationMaterial") with "XLPE".
  change (select lead_sheath_page "outerSheathMaterial") with "PE".
  change (parseFloat (input lead_sheath_page "sheathVoltageKv")) with (Fin 11).
  change (parseFloat (input lead_sheath_page "sheathSccKa")) with (Fin 25).
  change (parseFloat (input lead_sheath_page "sheathTimeSec")) with (Fin 1).
  change (parseFloat (input lead_sheath_page "sheathThetaInitial")) with (Fin 90).
  change (parseFloat (input lead_sheath_page "sheathThetaFinal")) with (Fin 250).
  change (parseFloat (input lead_sheath_page "sheathOuterD")) with (Fin 34).
  change (parseFloat (input lead_sheath_page "sheathInnerD")) with (Fin 30).
  change (parseFloat (input lead_sheath_page "sheathThickness")) with (Fin 2).
  change (parseFloat (input lead_sheath_page "sheathAreaGiven")) with (Fin 201.06).
  cbn [truthy String.eqb Ascii.eqb Bool.eqb negb existsb isNaN orb].
  rewrite (proj2 (validateVoltageTime_finite 11 1 _)) by lra.
  unfold num_gt. cbn [negb num_le num_lt].
  rewrite (proj2 (Rleb_false 25 0)), (proj2 (Rltb_true 30 34)),
    (proj2 (Rltb_true 0 34)), (proj2 (Rltb_true 0 30)) by lra.
  cbn [andb negb].
  rewrite (calculateSheathAdiabaticArea_real 25 1 90 250 "lead"
             {| K := 41; beta := 230; sigmaC := 1.45e6; rho20 := 21.4e-8 |});
    try reflexivity; cbn [beta]; try lra.
  rewrite (calculateM_real "XLPE" "PE" "lead" 11
             {| rho := 3.5; sigma := 2.4e6 |} {| rho := 3.5; sigma := 2.4e6 |}
             {| K := 41; beta := 230; sigmaC := 1.45e6; rho20 := 21.4e-8 |} 2);
    try reflexivity; [|cbn [sigmaC]; lra].
  rewrite calculateEpsilon_finite by lra. reflexivity.
Qed.

Lemma copper_candidate_completes :
  fst (conductorForm_submit copper_candidate_page) = Completed.
Proof.
  rewrite conductorForm_submit_outcome. cbv zeta.
  change (select copper_candidate_page "conductorMode") with "area-from-current".
  change (input copper_candidate_page "givenConductorArea") with (Typed 240).
  cbn [String.eqb Ascii.eqb Bool.eqb text_is_empty negb parseFloat isNaN orb andb].
  destruct (conductor_area_real copper_candidate_page 11 25 1 226 234.5)
    as [_ ->]; try reflexivity; try lra.
  rewrite num_le_finite, (proj2 (Rleb_false 240 0)) by lra. reflexivity.
Qed.

(** The polynomial stays above 1 on positive arguments. *)
Lemma epsilon_poly_above_1 (x : R) : 0 < x -> 1 < epsilon_poly x.
Proof.
  intros H. replace 1 with (epsilon_poly 0) by (unfold epsilon_poly; lra).
  apply epsilon_poly_increasing; assumption.
Qed.


(** ** The two worked examples with other areas *)

Lemma lead_sheath_with_completes (a : num) :
  isNaN a = false -> fst (sheathForm_submit (lead_sheath_with a)) = Completed.
Proof.
  intros Na. rewrite sheathForm_submit_outcome. cbv zeta.
  change (toLowerCase (select (lead_sheath_with a) "sheathMaterial")) with "lead".
  change (select (lead_sheath_with a) "insulationMaterial") with "XLPE".
  change (select (lead_sheath_with a) "outerSheathMaterial") with "PE".
  change (parseFloat (input (lead_sheath_with a) "sheathVoltageKv")) with (Fin 11).
  change (parseFloat (input (lead_sheath_with a) "sheathSccKa")) with (Fin 25).
  change (parseFloat (input (lead_sheath_with a) "sheathTimeSec")) with (Fin 1).
  change (parseFloat (input (lead_sheath_with a) "sheathThetaInitial")) with (Fin 90).
  change (parseFloat (input (lead_sheath_with a) "sheathThetaFinal")) with (Fin 250).
  change (parseFloat (input (lead_sheath_with a) "sheathOuterD")) with (Fin 34).
  change (parseFloat (input (lead_sheath_with a) "sheathInnerD")) with (Fin 30).
  change (parseFloat (input (lead_sheath_with a) "sheathThickness")) with (Fin 2).
  change (parseFloat (input (lead_sheath_with a) "sheathAreaGiven")) with a.
  cbn [truthy String.eqb Ascii.eqb Bool.eqb negb existsb isNaN orb].
  rewrite Na. cbn [orb].
  rewrite (proj2 (validateVoltageTime_finite 11 1 _)) by lra.
  unfold num_gt. cbn [negb num_le num_lt].
  rewrite (proj2 (Rleb_false 25 0)), (proj2 (Rltb_true 30 34)),
    (proj2 (Rltb_true 0 34)), (proj2 (Rltb_true 0 30)) by lra.
  cbn [andb negb].
  rewrite (calculateSheathAdiabaticArea_real 25 1 90 250 "lead"
             {| K := 41; beta := 230; sigmaC := 1.45e6; rho20 := 21.4e-8 |});
    try reflexivity; cbn [beta]; try lra.
  rewrite (calculateM_real "XLPE" "PE" "lead" 11
             {| rho := 3.5; sigma := 2.4e6 |} {| rho := 3.5; sigma := 2.4e6 |}
             {| K := 41; beta := 230; sigmaC := 1.45e6; rho20 := 21.4e-8 |} 2);
    try reflexivity; [|cbn [sigmaC]; lra].
  rewrite calculateEpsilon_finite by lra. reflexivity.
Qed.

Lemma lead_sheath_with_passes_guards (a : num) :
  isNaN a = false -> ~ sheath_failure (lead_sheath_with a).
Proof.
  intros Na F. apply sheath_failure_returned in F.
  rewrite (lead_sheath_with_completes a Na) in F. discriminate F.
Qed.

(** The required area of the lead sheath lies between 862 and 2000
    square millimetres. *)
Lemma lead_sheath_required_bounds :
  exists S M E : R,
    calculateSheathAdiabaticArea 25 1 "lead" 90 250 = Some (Fin S) /\
    calculateM "XLPE" "PE" 2 "lead" 11 "no" = Some (Fin M) /\
    calculateEpsilon (Some (Fin M)) 1 = Some (Fin E) /\
    862 < S * E < 2000.
Proof.
  set (m := {| K := 41; beta := 230; sigmaC := 1.45e6; rho20 := 21.4e-8 |}).
  set (c := {| rho := 3.5; sigma := 2.4e6 |}).
  exists (sqrt ((25 * 1000) ^ 2 * 1 / (K m ^ 2 * ln ((250 + beta m) / (90 + beta m))))).
  exists (0.7 * (sqrt (sigma c / rho c) + sqrt (sigma c / rho c))
          / (2 * sigmaC m * 2 * 1e-3)).
  eexists.
  split; [apply calculateSheathAdiabaticArea_real; try reflexivity; cbn; lra|].
  split; [apply calculateM_real; try reflexivity; cbn; lra|].
  split; [apply calculateEpsilon_finite; lra|].
  set (M := 0.7 * (sqrt (sigma c / rho c) + sqrt (sigma c / rho c))
            / (2 * sigmaC m * 2 * 1e-3)).
  rewrite sqrt_1. replace (M * 1) with M by lra.
  assert (Hq : 0 < sqrt (sigma c / rho c) < 829).
  { split; [apply sqrt_lt_R0; cbn; lra|].
    replace 829 with (sqrt (829 * 829)) by (apply sqrt_square; lra).
    apply sqrt_lt_1_alt. cbn. lra. }
  assert (HM : 0 < M < 0.21).
  { unfold M. cbn [sigmaC m]. split.
    - apply Rdiv_lt_0_compat; lra.
    - apply Rmult_lt_reg_r with (2 * 1.45e6 * 2 * 1e-3); [lra|].
      unfold Rdiv. rewrite Rmult_assoc, Rinv_l by lra. lra. }
  pose proof (epsilon_poly_above_1 M (proj1 HM)) as HE.
  assert (HE2 : epsilon_poly M < 1.13).
  { unfold epsilon_poly. assert (0 < M * M < 0.05) by nra.
    assert (0 < M * M * M < 0.05) by nra. nra. }
  cbn [K beta m].
  replace ((250 + 230) / (90 + 230)) with (3 / 2) by lra.
  assert (HL : 0.12 < ln (3 / 2) < / 2).
  { split.
    - apply exp_lt_inv. rewrite exp_ln by lra.
      pose proof (exp_ineq1_le (- 0.12)) as B.
      assert (E : exp (- 0.12) * exp 0.12 = 1).
      { rewrite <- exp_plus. replace (- 0.12 + 0.12) with 0 by lra. apply exp_0. }
      pose proof (exp_pos 0.12). nra.
    - apply exp_lt_inv. rewrite exp_ln by lra.
      pose proof (exp_ineq1 (/ 2)). lra. }
  set (X := (25 * 1000) ^ 2 * 1 / (41 ^ 2 * ln (3 / 2))).
  assert (EX : X * (41 ^ 2 * ln (3 / 2)) = (25 * 1000) ^ 2 * 1).
  { unfold X. field. lra. }
  assert (HX : 743044 < X < 3100000) by (split; nra).
  assert (Hs : sqrt X * sqrt X = X) by (apply sqrt_sqrt; lra).
  pose proof (sqrt_pos X) as Hp.
  assert (Hb : 862 < sqrt X < 1761) by (split; nra).
  split; nra.
Qed.

Lemma copper_with_area (a : num) :
  exists S : R,
    fst (calculateConductorAreaFromCurrent (copper_with a)) = Some (Fin S) /\
    174.7 < S < 174.76.
Proof.
  destruct (copper_area_bounds 11) as [S [HS B]]; [lra|].
  exists S. split; [|exact B].
  destruct (conductor_area_real (conductor_page 11 25 1 226 234.5)
              11 25 1 226 234.5) as [_ H1]; try reflexivity; try lra.
  destruct (conductor_area_real (copper_with a) 11 25 1 226 234.5)
    as [_ H2]; try reflexivity; try lra.
  rewrite H2, <- H1. exact HS.
Qed.

Lemma copper_with_completes (a : R) :
  0 < a -> fst (conductorForm_submit (copper_with a)) = Completed.
Proof.
  intros Ra. rewrite conductorForm_submit_outcome. cbv zeta.
  change (select (copper_with a) "conductorMode") with "area-from-current".
  change (input (copper_with a) "givenConductorArea") with (Typed a).
  cbn [String.eqb Ascii.eqb Bool.eqb text_is_empty negb parseFloat isNaN orb andb].
  destruct (copper_with_area a) as [S [-> _]].
  rewrite num_le_finite, (proj2 (Rleb_false a 0)) by lra. reflexivity.
Qed.

Lemma copper_with_passes_guards (a : R) :
  0 < a -> ~ conductor_failure (copper_with a).
Proof.
  intros Ra F. apply conductor_failure_returned in F.
  rewrite (copper_with_completes a Ra) in F. discriminate F.
Qed.

(** C4, at the lead sheath and at the copper conductor: each stage shows
    the undersized line below the required area, the pass line above it,
    and the pass line when the area entered is the required area
    itself. *)
Lemma verdicts_boundary_inclusive_witness :
  (exists s_adiab epsilon : num,
      calculateSheathAdiabaticArea 25 1 "lead" 90 250 = Some s_adiab /\
      resultText (snd (sheathForm_submit (lead_sheath_with 201.06)))
      = (sheath_report s_adiab epsilon (num_mul s_adiab epsilon) 201.06
         ++ [sheath_undersized])%list /\
      resultText (snd (sheathForm_submit (lead_sheath_with 2000)))
      = (sheath_report s_adiab epsilon (num_mul s_adiab epsilon) 2000
         ++ [sheath_sufficient])%list /\
      resultText (snd (sheathForm_submit
                         (lead_sheath_with (num_mul s_adiab epsilon))))
      = (sheath_report s_adiab epsilon (num_mul s_adiab epsilon)
           (num_mul s_adiab epsilon)
         ++ [sheath_sufficient])%list) /\
  (exists S_required : num,
      fst (calculateConductorAreaFromCurrent (copper_with 100))
      = Some S_required /\
      resultText (snd (conductorForm_submit (copper_with 100)))
      = (conductor_report S_required ++ [cable_undersized])%list /\
      resultText (snd (conductorForm_submit (copper_with 240)))
      = (conductor_report S_required ++ [cable_sufficient])%list /\
      resultText (snd (conductorForm_submit (copper_with S_required)))
      = (conductor_report S_required ++ [cable_sufficient])%list).
Proof.
  split.
  - destruct lead_sheath_required_bounds as [S [M [E [R1 [R2 [R3 B]]]]]].
    assert (G : forall a : num,
               isNaN a = false ->
               exists v : fragment,
                 resultText (snd (sheathForm_submit (lead_sheath_with a)))
                 = (sheath_report S E (Fin (S * E)) a ++ [v])%list /\
                 (v = sheath_sufficient <-> num_ge a (Fin (S * E)) = true) /\
                 (v = sheath_undersized <-> num_ge a (Fin (S * E)) = false)).
    { intros a Na.
      destruct (proj1 (verdicts_boundary_inclusive (lead_sheath_with a))
                  (lead_sheath_with_passes_guards a Na))
        as [_ [s [M0 [e [v [H1 [H2 [H3 [HT [Hp [Hf _]]]]]]]]]]].
      cbv zeta in *.
      change (calculateSheathAdiabaticArea 25 1 "lead" 90 250 = Some s) in H1.
      change (calculateM "XLPE" "PE" 2 "lead" 11 "no" = Some M0) in H2.
      change (calculateEpsilon (Some M0) 1 = Some e) in H3.
      change (parseFloat (input (lead_sheath_with a) "sheathAreaGiven"))
        with a in *.
      rewrite R1 in H1. inversion H1; subst s.
      rewrite R2 in H2. inversion H2; subst M0.
      rewrite R3 in H3. inversion H3; subst e.
      exists v. split; [exact HT|]. split; assumption. }
    exists (Fin S), (Fin E). split; [exact R1|].
    destruct (G 201.06 eq_refl) as [v1 [T1 [_ F1]]].
    destruct (G 2000 eq_refl) as [v2 [T2 [P2 _]]].
    destruct (G (Fin (S * E)) eq_refl) as [v3 [T3 [P3 _]]].
    cbn [num_mul].
    rewrite T1, T2, T3.
    rewrite (proj2 F1) by (apply Rleb_false; lra).
    rewrite (proj2 P2) by (apply Rleb_true; lra).
    rewrite (proj2 P3) by (apply Rleb_true; lra).
    repeat split.
  - destruct (copper_with_area 100) as [S [A B]].
    assert (G : forall a : R,
               0 < a ->
               exists v : fragment,
                 resultText (snd (conductorForm_submit (copper_with a)))
                 = (conductor_report S ++ [v])%list /\
                 (v = cable_sufficient <-> num_ge a S = true) /\
                 (v = cable_undersized <-> num_ge a S = false)).
    { intros a Ra.
      destruct (proj2 (verdicts_boundary_inclusive (copper_with a)))
        as [_ [Sr [v [H1 [HT [Hp [Hf _]]]]]]].
      - reflexivity.
      - discriminate.
      - apply copper_with_passes_guards. exact Ra.
      - cbv zeta in *.
        change (parseFloat (input (copper_with a) "givenConductorArea"))
          with (Fin a) in *.
        destruct (copper_with_area a) as [S' [A' _]].
        destruct (conductor_area_real (copper_with a) 11 25 1 226 234.5)
          as [_ Q1]; try reflexivity; try lra.
        destruct (conductor_area_real (copper_with 100) 11 25 1 226 234.5)
          as [_ Q2]; try reflexivity; try lra.
        rewrite A in Q2. rewrite Q1 in H1. rewrite <- Q2 in H1.
        inversion H1; subst Sr.
        exists v. split; [exact HT|]. split; assumption. }
    exists (Fin S). split; [exact A|].
    destruct (G 100) as [v1 [T1 [_ F1]]]; [lra|].
    destruct (G 240) as [v2 [T2 [P2 _]]]; [lra|].
    destruct (G S) as [v3 [T3 [P3 _]]]; [lra|].
    rewrite T1, T2, T3.
    rewrite (proj2 F1) by (apply Rleb_false; lra).
    rewrite (proj2 P2) by (apply Rleb_true; lra).
    rewrite (proj2 P3) by (apply Rleb_true; lra).
    repeat split.
Defined.

(** C9, at the blank page: both submissions fail and store nothing. *)
Lemma failed_submission_stores_nothing_witness :
  untouched blank (snd (conductorForm_submit blank)) /\
  untouched blank (snd (sheathForm_submit blank)).
Proof.
  destruct (failed_submission_stores_nothing blank) as [_ [_ [Rc Rs]]].
  split; [apply Rc|apply Rs]; reflexivity.
Defined.

(* ================================================================== *)
(** * Further properties of the script *)

(** ** Thermal constants and the voltage *)

(** Case analysis on every comparison of the string [s] with a literal. *)
Ltac split_names s :=
  repeat match goal with
    | |- context [String.eqb ?a s] => destruct (String.eqb a s)
    | |- context [String.eqb s ?a] => destruct (String.eqb s a)
    end.

(** Over the voltage, [getThermalConstants] is constantly null, constant,
    or switches once between two entries of equal [sigma]. *)
Lemma getThermalConstants_shape (ty name : string) :
  (forall v, getThermalConstants ty name v = None) \/
  (exists c, forall v, getThermalConstants ty name v = Some c) \/
  (exists (lo hi : ThermalConstant) (b : R),
      sigma lo = sigma hi /\ rho lo <= rho hi /\
      forall v, getThermalConstants ty name v
                = if num_le v b then Some lo else Some hi).
Proof.
  unfold getThermalConstants. cbn [lookup THERMAL_CONSTANTS].
  split_names ty; cbn [lookup]; split_names name; cbn -[num_le];
    try (left; intros v; reflexivity);
    try (left; intros v; destruct (num_le v _); reflexivity);
    try (right; left; eexists; intros v; reflexivity);
    right; right;
    ((do 3 eexists; (split; [|split]); [ | |intros v; reflexivity]);
     [reflexivity|cbn; lra]).
Qed.

(** X1.  Whether a thermal lookup succeeds does not depend on the
    voltage, and neither does the [sigma] it returns: the voltage tier
    changes [rho] only. *)
Theorem getThermalConstants_voltage_independent :
  forall (ty name : string) (v1 v2 : num),
    (getThermalConstants ty name v1 = None
     <-> getThermalConstants ty name v2 = None) /\
    (forall c1 c2 : ThermalConstant,
        getThermalConstants ty name v1 = Some c1 ->
        getThermalConstants ty name v2 = Some c2 ->
        sigma c1 = sigma c2).
Proof.
  intros ty name v1 v2.
  destruct (getThermalConstants_shape ty name)
    as [N|[[c C]|[lo [hi [b [S [_ T]]]]]]].
  - rewrite !N. split; [tauto|discriminate].
  - rewrite !C. split; [split; discriminate|].
    intros c1 c2 H1 H2. congruence.
  - rewrite !T. split; [destruct (num_le v1 b), (num_le v2 b); split; discriminate|].
    intros c1 c2 H1 H2.
    destruct (num_le v1 b), (num_le v2 b); inversion H1; inversion H2;
      congruence.
Qed.

(** X2.  The thermal resistivity [rho] returned for a material never
    decreases when the voltage rises. *)
Theorem getThermalConstants_rho_monotone :
  forall (ty name : string) (r1 r2 : R) (c1 c2 : ThermalConstant),
    r1 <= r2 ->
    getThermalConstants ty name r1 = Some c1 ->
    getThermalConstants ty name r2 = Some c2 ->
    rho c1 <= rho c2.
Proof.
  intros ty name r1 r2 c1 c2 H H1 H2.
  destruct (getThermalConstants_shape ty name)
    as [N|[[c C]|[lo [hi [b [_ [R T]]]]]]].
  - rewrite N in H1. discriminate.
  - rewrite C in H1, H2. inversion H1; inversion H2; subst. lra.
  - rewrite T in H1, H2. rewrite !num_le_finite in *.
    destruct (Rleb r1 b) eqn:E1, (Rleb r2 b) eqn:E2;
      inversion H1; inversion H2; subst; try lra.
    apply Rleb_false in E1. apply Rleb_true in E2. lra.
Qed.

(** X2, for PVC insulation at 1 kV and 11 kV. *)
Lemma getThermalConstants_rho_monotone_witness :
  rho {| rho := 5.0; sigma := 1.7e6 |} <= rho {| rho := 6.0; sigma := 1.7e6 |}.
Proof.
  apply (getThermalConstants_rho_monotone "insulating" "PVC" 1 11).
  - lra.
  - cbn. decide_reals.
  - cbn. decide_reals.
Defined.

(** ** More on the M factor and the non-adiabatic factor *)

(** A value of [calculateM] at a finite thickness comes from three
    successful lookups and a non-zero denominator. *)
Lemma calculateM_some_inv (insulationMaterial outerSheathMaterial sheathMaterial : string)
    (voltageKv : num) (d : R) (isOilFilled : string) (x : num) :
  calculateM insulationMaterial outerSheathMaterial d sheathMaterial
             voltageKv isOilFilled = Some x ->
  exists (c2 c3 : ThermalConstant) (m : MaterialConstant),
    getThermalConstants "insulating" insulationMaterial voltageKv = Some c2 /\
    getThermalConstants "protective" outerSheathMaterial voltageKv = Some c3 /\
    lookup sheathMaterial TABLE_I_SHEATHS = Some m /\
    2 * sigmaC m * d * 1e-3 <> 0.
Proof.
  unfold calculateM.
  destruct (getThermalConstants "insulating" insulationMaterial voltageKv)
    as [c2|]; [|discriminate].
  destruct (getThermalConstants "protective" outerSheathMaterial voltageKv)
    as [c3|]; [|discriminate].
  destruct (lookup sheathMaterial TABLE_I_SHEATHS) as [m|]; [|discriminate].
  cbv zeta. cbn [num_mul num_eq].
  destruct (Reqb _ 0) eqn:E; [discriminate|]. intros _.
  exists c2, c3, m. repeat split. apply Reqb_false. assumption.
Qed.

(** The value of [calculateM] for a finite thickness and either position
    of the oil-filled switch. *)
Lemma calculateM_real_any (insulationMaterial outerSheathMaterial sheathMaterial : string)
    (voltageKv : num) (c2 c3 : ThermalConstant) (m : MaterialConstant) (d : R)
    (isOilFilled : string) :
  getThermalConstants "insulating" insulationMaterial voltageKv = Some c2 ->
  getThermalConstants "protective" outerSheathMaterial voltageKv = Some c3 ->
  lookup sheathMaterial TABLE_I_SHEATHS = Some m ->
  2 * sigmaC m * d * 1e-3 <> 0 ->
  calculateM insulationMaterial outerSheathMaterial d sheathMaterial
             voltageKv isOilFilled
  = Some (Fin ((sqrt (sigma c2 / rho c2) + sqrt (sigma c3 / rho c3))
               / (2 * sigmaC m * d * 1e-3)
               * (if (isOilFilled =? "yes")%string then 1.0 else 0.7))).
Proof.
  intros H2 H3 H1 Hden.
  destruct (getThermalConstants_positive _ _ _ _ H2) as [P2 Q2].
  destruct (getThermalConstants_positive _ _ _ _ H3) as [P3 Q3].
  unfold calculateM. rewrite H2, H3, H1. cbv zeta.
  rewrite !num_div_finite by lra.
  rewrite !Math_sqrt_finite by (apply Rlt_le, Rdiv_lt_0_compat; assumption).
  cbn [num_add num_mul num_eq].
  rewrite (proj2 (Reqb_false _ 0)) by assumption.
  rewrite num_div_finite by assumption.
  destruct (isOilFilled =? "yes")%string; reflexivity.
Qed.

(** X3.  Only the exact string "yes" switches the thermal contact factor
    to 1.0: every other value of the oil-filled argument gives the result
    of "no", and that result is 0.7 times the one of "yes". *)
Theorem calculateM_oil_switch :
  forall (insulationMaterial outerSheathMaterial sheathMaterial : string)
         (voltageKv delta : num),
    (forall isOilFilled : string,
        isOilFilled <> "yes" ->
        calculateM insulationMaterial outerSheathMaterial delta sheathMaterial
                   voltageKv isOilFilled
        = calculateM insulationMaterial outerSheathMaterial delta sheathMaterial
                     voltageKv "no") /\
    (forall (d My : R),
        delta = Fin d ->
        calculateM insulationMaterial outerSheathMaterial delta sheathMaterial
                   voltageKv "yes" = Some (Fin My) ->
        calculateM insulationMaterial outerSheathMaterial delta sheathMaterial
                   voltageKv "no" = Some (Fin (0.7 * My))).
Proof.
  intros ins out sh v delta. split.
  - intros s Hs. unfold calculateM.
    apply String.eqb_neq in Hs. rewrite Hs. reflexivity.
  - intros d My -> H.
    destruct (calculateM_some_inv _ _ _ _ _ _ _ H)
      as [c2 [c3 [m [H2 [H3 [H1 Hden]]]]]].
    rewrite (calculateM_real_any _ _ _ _ c2 c3 m d "yes") in H by assumption.
    rewrite (calculateM_real_any _ _ _ _ c2 c3 m d "no") by assumption.
    cbn [String.eqb Ascii.eqb Bool.eqb] in *.
    inversion H. f_equal. f_equal. lra.
Qed.





(** ** More on the adiabatic sheath area *)



(** X7.  A final temperature that does not exceed the initial one is
    rejected with null as long as it is not below [-beta]; below [-beta]
    the logarithm is NaN, no guard fires and the result is NaN. *)
Theorem calculateSheathAdiabaticArea_temperatures :
  forall (name : string) (m : MaterialConstant) (I t thi thf : R),
    lookup name TABLE_I_SHEATHS = Some m ->
    0 < thi + beta m ->
    (- beta m <= thf <= thi ->
     calculateSheathAdiabaticArea I t name thi thf = None) /\
    (thf < - beta m ->
     calculateSheathAdiabaticArea I t name thi thf = Some NaN).
Proof.
  intros name m I t thi thf Hm Rb.
  unfold calculateSheathAdiabaticArea. rewrite Hm. cbv zeta.
  cbn [num_add]. rewrite num_div_finite by lra.
  assert (Hinv : 0 < / (thi + beta m)) by (apply Rinv_0_lt_compat; assumption).
  assert (Hone : (thi + beta m) * / (thi + beta m) = 1) by (apply Rinv_r; lra).
  split; intros H.
  - destruct (Req_dec_T (thf + beta m) 0) as [Z|NZ].
    + rewrite Z. unfold Rdiv. rewrite Rmult_0_l. cbn. decide_reals.
    + assert (P : 0 < (thf + beta m) / (thi + beta m))
        by (apply Rdiv_lt_0_compat; lra).
      rewrite Math_log_finite by assumption.
      assert (L : ln ((thf + beta m) / (thi + beta m)) <= 0).
      { destruct (Rle_dec (ln ((thf + beta m) / (thi + beta m))) 0) as [|N];
          [assumption|exfalso].
        assert (1 < (thf + beta m) / (thi + beta m))
          by (apply ln_pos_iff; lra).
        unfold Rdiv in *. nra. }
      rewrite num_le_finite, (proj2 (Rleb_true _ 0)) by assumption.
      reflexivity.
  - assert (N : (thf + beta m) / (thi + beta m) < 0) by (unfold Rdiv; nra).
    replace (Math_log (Fin ((thf + beta m) / (thi + beta m)))) with NaN
      by (cbn; decide_reals).
    cbn [num_mul]. rewrite !num_pow_2. reflexivity.
Qed.

(** X7, for lead with a final temperature equal to the initial one. *)
Lemma calculateSheathAdiabaticArea_temperatures_witness :
  calculateSheathAdiabaticArea 25 1 "lead" 90 90 = None.
Proof.
  apply (calculateSheathAdiabaticArea_temperatures "lead"
           {| K := 41; beta := 230; sigmaC := 1.45e6; rho20 := 21.4e-8 |}
           25 1 90 90); try reflexivity; cbn; lra.
Defined.



(** X9.  With the constants of a sheath material typed in as K and beta,
    the conductor formula and the adiabatic sheath formula at 90 and 250
    degrees return the same area. *)
Theorem conductor_and_sheath_areas_agree :
  forall (p : Page) (name : string) (m : MaterialConstant) (v I t : R),
    lookup name TABLE_I_SHEATHS = Some m ->
    parseFloat (input p "voltageKv") = Fin v ->
    parseFloat (input p "sccKa") = Fin I ->
    parseFloat (input p "timeSec") = Fin t ->
    parseFloat (input p "kValue") = Fin (K m) ->
    parseFloat (input p "beta") = Fin (beta m) ->
    0 < v <= 400 -> 0 < t <= 10 -> 0 < I ->
    fst (calculateConductorAreaFromCurrent p)
    = calculateSheathAdiabaticArea I t name 90 250.
Proof.
  intros p name m v I t Hm Hv HI Ht HK Hb Rv Rt RI.
  destruct (TABLE_I_SHEATHS_positive _ _ Hm) as [PK [_ Pb]].
  destruct (conductor_area_real p v I t (K m) (beta m)) as [_ ->];
    try assumption; try lra.
  symmetry. apply calculateSheathAdiabaticArea_real; try assumption; lra.
Qed.

(** X9, for aluminium, whose constants are the same in both tables. *)
Lemma conductor_and_sheath_areas_agree_witness :
  fst (calculateConductorAreaFromCurrent (conductor_page 11 25 1 148 228))
  = calculateSheathAdiabaticArea 25 1 "aluminium" 90 250.
Proof.
  apply (conductor_and_sheath_areas_agree (conductor_page 11 25 1 148 228)
           "aluminium"
           {| K := 148; beta := 228; sigmaC := 2.5e6; rho20 := 2.84e-8 |}
           11 25 1); try reflexivity; lra.
Defined.

(** ** What the submit handlers leave alone *)

Lemma conductorForm_submit_frame (p : Page) :
  let q := snd (conductorForm_submit p) in
  input q = input p /\ select q = select p /\ borderColor q = borderColor p /\
  sheathData q = sheathData p /\ sheathCalculated q = sheathCalculated p.
Proof.
  unfold conductorForm_submit, bind, selected, value, number, gets.
  cbv beta iota zeta.
  destruct (select p "conductorMode" =? "area-from-current")%string.
  - destruct (calculateConductorAreaFromCurrent_effect p) as [[F [n E]]|[F E]];
      destruct (calculateConductorAreaFromCurrent p) as [r q];
      cbn [fst snd] in F, E; subst q; destruct r as [S|]; try discriminate F.
    + repeat split.
    + destruct (negb (text_is_empty (input p "givenConductorArea"))).
      * destruct (isNaN _ || num_le _ 0); [repeat split|].
        destruct (num_ge _ S); repeat split.
      * repeat split.
  - destruct (calculateConductorCurrentFromArea_effect p) as [[F [n E]]|[F E]];
      destruct (calculateConductorCurrentFromArea p) as [r q];
      cbn [fst snd] in F, E; subst q; destruct r as [S|]; try discriminate F;
      repeat split.
Qed.

Lemma sheathForm_submit_frame (p : Page) :
  let q := snd (sheathForm_submit p) in
  input q = input p /\ select q = select p /\ borderColor q = borderColor p /\
  conductorData q = conductorData p /\
  conductorCalculated q = conductorCalculated p.
Proof.
  unfold sheathForm_submit, bind, selected, value, number, gets, ret.
  cbv beta iota zeta.
  destruct (_ || _); [repeat split|].
  destruct (validateVoltageTime_effect (parseFloat (input p "sheathVoltageKv"))
              (parseFloat (input p "sheathTimeSec")) p) as [[F [n E]]|[F E]];
    destruct (validateVoltageTime _ _ p) as [ok q]; cbn [fst snd] in F, E; subst q.
  { apply negb_true_iff in F; subst ok. repeat split. }
  apply negb_false_iff in F; subst ok. cbn [negb].
  destruct (num_le _ 0); [repeat split|].
  destruct (negb _); [repeat split|].
  destruct (calculateSheathAdiabaticArea _ _ _ _ _); [|repeat split].
  destruct (calculateM _ _ _ _ _ _); [|repeat split].
  destruct (calculateEpsilon _ _); [|repeat split].
  destruct (num_ge _ _); repeat split.
Qed.

(** X10.  Neither submit handler changes a form field, a selection or a
    border; the conductor handler leaves the sheath bundle and its flag
    alone, and the sheath handler the conductor bundle and its flag. *)
Theorem submit_handlers_frame :
  forall p : Page,
    (let q := snd (conductorForm_submit p) in
     input q = input p /\ select q = select p /\
     borderColor q = borderColor p /\
     sheathData q = sheathData p /\
     sheathCalculated q = sheathCalculated p) /\
    (let q := snd (sheathForm_submit p) in
     input q = input p /\ select q = select p /\
     borderColor q = borderColor p /\
     conductorData q = conductorData p /\
     conductorCalculated q = conductorCalculated p).
Proof.
  intros p. split.
  - apply conductorForm_submit_frame.
  - apply sheathForm_submit_frame.
Qed.

(** ** What a completed conductor submission stores *)

Lemma conductorForm_submit_stored (p : Page) :
  fst (conductorForm_submit p) = Completed ->
  conductorData (snd (conductorForm_submit p)) = Some (conductor_bundle p) /\
  conductorCalculated (snd (conductorForm_submit p)) = true /\
  display (snd (conductorForm_submit p)) "btnDownloadConductor" = "inline-block".
Proof.
  unfold conductor_bundle.
  unfold conductorForm_submit, bind, selected, value, number, gets.
  cbv beta iota zeta.
  destruct (select p "conductorMode" =? "area-from-current")%string.
  - destruct (calculateConductorAreaFromCurrent_effect p) as [[F [n E]]|[F E]];
      destruct (calculateConductorAreaFromCurrent p) as [r q];
      cbn [fst snd] in F, E; subst q; destruct r as [S|]; try discriminate F.
    + intros H; discriminate H.
    + cbn [fst andb].
      destruct (input p "givenConductorArea") as [|x|x d];
        cbn [text_is_empty negb].
      * intros _. repeat split.
      * destruct (isNaN _ || num_le _ 0); [intros H; discriminate H|].
        destruct (num_ge _ S); intros _; repeat split.
      * destruct (isNaN _ || num_le _ 0); [intros H; discriminate H|].
        destruct (num_ge _ S); intros _; repeat split.
  - destruct (calculateConductorCurrentFromArea_effect p) as [[F [n E]]|[F E]];
      destruct (calculateConductorCurrentFromArea p) as [r q];
      cbn [fst snd] in F, E; subst q; destruct r as [S|]; try discriminate F.
    + intros H; discriminate H.
    + intros _. repeat split.
Qed.







(** ** The two stages side by side *)

Lemma calculateConductorAreaFromCurrent_ext (p q : Page) :
  input p = input q ->
  fst (calculateConductorAreaFromCurrent p)
  = fst (calculateConductorAreaFromCurrent q).
Proof.
  intros Hi. rewrite !calculateConductorAreaFromCurrent_value. cbv zeta.
  rewrite !validateVoltageTime_value, Hi. reflexivity.
Qed.

Lemma calculateConductorCurrentFromArea_ext (p q : Page) :
  input p = input q ->
  fst (calculateConductorCurrentFromArea p)
  = fst (calculateConductorCurrentFromArea q).
Proof.
  intros Hi. rewrite !calculateConductorCurrentFromArea_value. cbv zeta.
  rewrite Hi. reflexivity.
Qed.

(** The outcome of a conductor submission and the bundle it stores depend
    on the form fields and selections only. *)
Lemma conductorForm_submit_ext (p q : Page) :
  input p = input q -> select p = select q ->
  fst (conductorForm_submit p) = fst (conductorForm_submit q) /\
  (fst (conductorForm_submit p) = Completed ->
   conductorData (snd (conductorForm_submit p))
   = conductorData (snd (conductorForm_submit q))).
Proof.
  intros Hi Hs.
  assert (O : fst (conductorForm_submit p) = fst (conductorForm_submit q)).
  { rewrite !conductorForm_submit_outcome. cbv zeta.
    rewrite (calculateConductorAreaFromCurrent_ext p q Hi),
      (calculateConductorCurrentFromArea_ext p q Hi), Hi, Hs. reflexivity. }
  split; [assumption|]. intros C.
  destruct (conductorForm_submit_stored p C) as [-> _].
  rewrite O in C. destruct (conductorForm_submit_stored q C) as [-> _].
  unfold conductor_bundle.
  rewrite (calculateConductorAreaFromCurrent_ext p q Hi),
    (calculateConductorCurrentFromArea_ext p q Hi), Hi, Hs. reflexivity.
Qed.

(** The same for a sheath submission. *)
Lemma sheathForm_submit_ext (p q : Page) :
  input p = input q -> select p = select q ->
  fst (sheathForm_submit p) = fst (sheathForm_submit q) /\
  (fst (sheathForm_submit p) = Completed ->
   sheathData (snd (sheathForm_submit p))
   = sheathData (snd (sheathForm_submit q))).
Proof.
  intros Hi Hs.
  unfold sheathForm_submit, bind, selected, value, number, gets, ret.
  cbv beta iota zeta. rewrite Hi, Hs.
  destruct (_ || _); [split; [reflexivity|discriminate]|].
  assert (EQ : fst (validateVoltageTime (parseFloat (input q "sheathVoltageKv"))
                      (parseFloat (input q "sheathTimeSec")) p)
               = fst (validateVoltageTime (parseFloat (input q "sheathVoltageKv"))
                        (parseFloat (input q "sheathTimeSec")) q))
    by (rewrite !validateVoltageTime_value; reflexivity).
  destruct (validateVoltageTime_effect (parseFloat (input q "sheathVoltageKv"))
              (parseFloat (input q "sheathTimeSec")) p) as [[Fp [n Ep]]|[Fp Ep]];
    destruct (validateVoltageTime_effect (parseFloat (input q "sheathVoltageKv"))
                (parseFloat (input q "sheathTimeSec")) q) as [[Fq [k Eq]]|[Fq Eq]];
    destruct (validateVoltageTime _ _ p) as [okp p'];
    destruct (validateVoltageTime _ _ q) as [okq q'];
    cbn [fst snd] in *; subst p' q' okq;
    destruct okp; cbn [negb] in *; try discriminate Fp; try discriminate Fq;
    try (split; [reflexivity|discriminate]).
  destruct (num_le _ 0); [split; [reflexivity|discriminate]|].
  destruct (negb _); [split; [reflexivity|discriminate]|].
  destruct (calculateSheathAdiabaticArea _ _ _ _ _);
    [|split; [reflexivity|discriminate]].
  destruct (calculateM _ _ _ _ _ _); [|split; [reflexivity|discriminate]].
  destruct (calculateEpsilon _ _); [|split; [reflexivity|discriminate]].
  destruct (num_ge _ _); split; reflexivity.
Qed.

Lemma conductorForm_submit_cases (p : Page) :
  {fst (conductorForm_submit p) = Returned}
  + {fst (conductorForm_submit p) = Completed}.
Proof. destruct (fst (conductorForm_submit p)); [left|right]; reflexivity. Qed.

Lemma sheathForm_submit_cases (p : Page) :
  {fst (sheathForm_submit p) = Returned}
  + {fst (sheathForm_submit p) = Completed}.
Proof. destruct (fst (sheathForm_submit p)); [left|right]; reflexivity. Qed.

(** X14.  The two submissions commute: whichever stage is submitted
    first, each handler ends the same way and the same two bundles are
    stored. *)
Theorem stages_commute :
  forall p : Page,
    let pc := snd (conductorForm_submit p) in
    let ps := snd (sheathForm_submit p) in
    let pcs := snd (sheathForm_submit pc) in
    let psc := snd (conductorForm_submit ps) in
    fst (sheathForm_submit pc) = fst (sheathForm_submit p) /\
    fst (conductorForm_submit ps) = fst (conductorForm_submit p) /\
    conductorData pcs = conductorData psc /\
    sheathData pcs = sheathData psc.
Proof.
  intros p pc ps pcs psc.
  destruct (conductorForm_submit_frame p) as [Ci [Cs [_ [Cd _]]]].
  destruct (sheathForm_submit_frame p) as [Si [Ss [_ [Sd _]]]].
  fold pc in Ci, Cs, Cd. fold ps in Si, Ss, Sd.
  destruct (sheathForm_submit_ext pc p Ci Cs) as [Os Es].
  destruct (conductorForm_submit_ext ps p Si Ss) as [Oc Ec].
  destruct (sheathForm_submit_frame pc) as [_ [_ [_ [Sd' _]]]].
  destruct (conductorForm_submit_frame ps) as [_ [_ [_ [Cd' _]]]].
  fold pcs in Sd'. fold psc in Cd'.
  split; [assumption|]. split; [assumption|]. split.
  - rewrite Sd'. unfold psc.
    destruct (conductorForm_submit_cases ps) as [R|C].
    + destruct (conductorForm_submit_returned ps R) as [n ->].
      cbn [conductorData notify]. rewrite Sd.
      rewrite Oc in R.
      destruct (conductorForm_submit_returned p R) as [k E].
      unfold pc. rewrite E. reflexivity.
    + rewrite (Ec C). reflexivity.
  - rewrite Cd'. unfold pcs.
    destruct (sheathForm_submit_cases pc) as [R|C].
    + destruct (sheathForm_submit_returned pc R) as [n ->].
      cbn [sheathData notify]. rewrite Cd.
      rewrite Os in R.
      destruct (sheathForm_submit_returned p R) as [k E].
      unfold ps. rewrite E. reflexivity.
    + rewrite (Es C). reflexivity.
Qed.

(** ** What a completed sheath submission stores *)

Lemma calculateSheathAdiabaticArea_some_lookup (I t : num) (name : string)
    (thi thf x : num) :
  calculateSheathAdiabaticArea I t name thi thf = Some x ->
  exists m, lookup name TABLE_I_SHEATHS = Some m.
Proof.
  unfold calculateSheathAdiabaticArea.
  destruct (lookup name TABLE_I_SHEATHS) as [m|]; [|discriminate].
  intros _. exists m. reflexivity.
Qed.

Lemma calculateM_some_lookups (insulationMaterial outerSheathMaterial : string)
    (delta : num) (sheathMaterial : string) (voltageKv : num)
    (isOilFilled : string) (x : num) :
  calculateM insulationMaterial outerSheathMaterial delta sheathMaterial
             voltageKv isOilFilled = Some x ->
  exists c2 c3,
    getThermalConstants "insulating" insulationMaterial voltageKv = Some c2 /\
    getThermalConstants "protective" outerSheathMaterial voltageKv = Some c3.
Proof.
  unfold calculateM.
  destruct (getThermalConstants "insulating" _ _) as [c2|]; [|discriminate].
  destruct (getThermalConstants "protective" _ _) as [c3|]; [|discriminate].
  intros _. exists c2, c3. split; reflexivity.
Qed.


Lemma num_mul_comm (a b : num) : num_mul a b = num_mul b a.
Proof.
  destruct a, b; cbn; try reflexivity. f_equal. apply Rmult_comm.
Qed.

(** X15.  The bundle of a completed sheath submission carries the
    constants of the tables: K, beta and sigma1 of the sheath metal, rho
    and sigma of the insulation and of the covering.  The defaults
    written next to them in the handler are never used.  The sheath name
    is stored capitalised, an empty or zero conductor area as 0, and the
    non-adiabatic value stored is the required area shown. *)
Theorem sheath_bundle_from_tables :
  forall p : Page,
    fst (sheathForm_submit p) = Completed ->
    exists (d : SheathData.t) (m : MaterialConstant) (c2 c3 : ThermalConstant)
           (s_adiab epsilon verdict_shown : num),
      sheathData (snd (sheathForm_submit p)) = Some d /\
      lookup (toLowerCase (select p "sheathMaterial")) TABLE_I_SHEATHS = Some m /\
      getThermalConstants "insulating" (select p "insulationMaterial")
        (parseFloat (input p "sheathVoltageKv")) = Some c2 /\
      getThermalConstants "protective" (select p "outerSheathMaterial")
        (parseFloat (input p "sheathVoltageKv")) = Some c3 /\
      SheathData.k_value d = Fin (K m) /\
      SheathData.beta d = Fin (beta m) /\
      SheathData.sigma1 d = Fin (sigmaC m) /\
      SheathData.sigma2 d = Fin (sigma c2) /\
      SheathData.rho2 d = Fin (rho c2) /\
      SheathData.sigma3 d = Fin (sigma c3) /\
      SheathData.rho3 d = Fin (rho c3) /\
      SheathData.sheath_material d
      = capitalize (toLowerCase (select p "sheathMaterial")) /\
      SheathData.conductor_area d
      = num_or (parseFloat (input p "givenConductorArea")) 0 /\
      resultText (snd (sheathForm_submit p))
      = (sheath_report s_adiab epsilon verdict_shown
           (parseFloat (input p "sheathAreaGiven"))
         ++ [if num_ge (parseFloat (input p "sheathAreaGiven")) verdict_shown
             then sheath_sufficient else sheath_undersized])%list /\
      SheathData.i_non_ad d = Fixed verdict_shown 3.
Proof.
  intros p.
  unfold sheathForm_submit, bind, selected, value, number, gets, ret.
  cbv beta iota zeta.
  destruct (_ || _); [intros H; discriminate H|].
  destruct (validateVoltageTime_effect (parseFloat (input p "sheathVoltageKv"))
              (parseFloat (input p "sheathTimeSec")) p) as [[F [n E]]|[F E]];
    destruct (validateVoltageTime _ _ p) as [ok q]; cbn [fst snd] in F, E; subst q.
  { apply negb_true_iff in F; subst ok. intros H; discriminate H. }
  apply negb_false_iff in F; subst ok. cbn [negb].
  destruct (num_le _ 0); [intros H; discriminate H|].
  destruct (negb _); [intros H; discriminate H|].
  destruct (calculateSheathAdiabaticArea _ _ _ _ _) as [s_adiab|] eqn:E1;
    [|intros H; discriminate H].
  destruct (calculateM _ _ _ _ _ _) as [M|] eqn:E2; [|intros H; discriminate H].
  destruct (calculateEpsilon _ _) as [epsilon|] eqn:E3; [|intros H; discriminate H].
  destruct (calculateSheathAdiabaticArea_some_lookup _ _ _ _ _ _ E1) as [m Hm].
  destruct (calculateM_some_lookups _ _ _ _ _ _ _ E2) as [c2 [c3 [H2 H3]]].
  intros _. rewrite Hm, H2, H3.
  eexists. exists m, c2, c3, s_adiab, epsilon, (num_mul s_adiab epsilon).
  destruct (num_ge _ _);
    (split; [reflexivity|]); repeat (split; [assumption || reflexivity|]);
    cbn [SheathData.i_non_ad]; rewrite num_mul_comm; reflexivity.
Qed.

(** X15, at the lead sheath of the specification. *)
Lemma sheath_bundle_from_tables_witness :
  exists d : SheathData.t,
    sheathData (snd (sheathForm_submit lead_sheath_page)) = Some d /\
    SheathData.k_value d = Fin 41 /\
    SheathData.beta d = Fin 230 /\
    SheathData.sheath_material d = "Lead" /\
    SheathData.conductor_area d = Fin 0.
Proof.
  destruct (sheath_bundle_from_tables lead_sheath_page lead_sheath_completes)
    as (d & m & c2 & c3 & s & e & r & H & Hm & _ & _ & Hk & Hb & _ & _ & _ & _
        & _ & Hn & Hc & _).
  exists d. split; [assumption|].
  change (Some {| K := 41; beta := 230; sigmaC := 1.45e6; rho20 := 21.4e-8 |}
          = Some m) in Hm.
  inversion Hm; subst m. repeat split; assumption.
Defined.



(** ** The geometry update and what the sheath handler reads back *)






(** Every path of the sheath handler shows one notification; the one of
    the diameter check is shown only when all nine numbers were read and
    the diameters are out of order. *)
Lemma sheathForm_submit_notification (p : Page) :
  exists n : Notification,
    notifications (snd (sheathForm_submit p)) = (notifications p ++ [n])%list /\
    (message n = diameter_message ->
     isNaN (parseFloat (input p "sheathThickness")) = false /\
     num_gt (parseFloat (input p "sheathOuterD"))
            (parseFloat (input p "sheathInnerD"))
     && num_gt (parseFloat (input p "sheathOuterD")) 0
     && num_gt (parseFloat (input p "sheathInnerD")) 0 = false).
Proof.
  unfold sheathForm_submit, bind, selected, value, number, gets, ret.
  cbv beta iota zeta.
  destruct (_ || _) eqn:G.
  { eexists. split; [reflexivity|]. intros H; discriminate H. }
  assert (N : isNaN (parseFloat (input p "sheathThickness")) = false).
  { apply orb_false_iff in G. destruct G as [G _].
    apply orb_false_iff in G. destruct G as [G _].
    apply orb_false_iff in G. destruct G as [_ G].
    apply (existsb_isNaN_false _ _ G). cbn. tauto. }
  clear G.
  unfold validateVoltageTime, bind, showNotification, modify, ret.
  destruct (_ || _).
  { eexists. split; [reflexivity|]. intros H; discriminate H. }
  destruct (num_gt _ 400).
  { eexists. split; [reflexivity|]. intros H; discriminate H. }
  destruct (num_gt _ 10).
  { eexists. split; [reflexivity|]. intros H; discriminate H. }
  cbn [negb].
  destruct (num_le _ 0).
  { eexists. split; [reflexivity|]. intros H; discriminate H. }
  destruct (_ && _) eqn:D; cbn [negb].
  2:{ eexists. split; [reflexivity|]. intros _. split; [assumption|reflexivity]. }
  destruct (calculateSheathAdiabaticArea _ _ _ _ _).
  2:{ eexists. split; [reflexivity|]. intros H; discriminate H. }
  destruct (calculateM _ _ _ _ _ _).
  2:{ eexists. split; [reflexivity|]. intros H; discriminate H. }
  destruct (calculateEpsilon _ _).
  2:{ eexists. split; [reflexivity|]. intros H; discriminate H. }
  destruct (num_ge _ _);
    (eexists; split; [reflexivity|]; intros H; discriminate H).
Qed.

(** X18.  A sheath submission that follows a geometry update shows one
    notification, and it is never the one of the diameter check: with
    diameters out of order the update has emptied the derived fields, and
    the submission is turned away for missing inputs before it compares
    the diameters. *)
Theorem diameter_check_unreachable_after_update :
  forall p : Page,
    let q := snd (updateSheathGeometry p) in
    let Do := parseFloat (input p "sheathOuterD") in
    let Di := parseFloat (input p "sheathInnerD") in
    (exists n : Notification,
        notifications (snd (sheathForm_submit q)) = (notifications p ++ [n])%list /\
        message n <> diameter_message) /\
    (num_gt Do Di && num_gt Do 0 && num_gt Di 0 = false ->
     fst (sheathForm_submit q) = Returned /\
     snd (sheathForm_submit q)
     = notify {| message := "Please fill all sheath inputs."; type := "warning" |} q).
Proof.
  intros p q Do Di.
  pose proof (updateSheathGeometry_page p) as V. cbv zeta in V.
  fold Do Di q in V.
  assert (Io : input q "sheathOuterD" = input p "sheathOuterD").
  { rewrite V. destruct (_ && _); [destruct (num_gt Do Di)|]; reflexivity. }
  assert (Ii : input q "sheathInnerD" = input p "sheathInnerD").
  { rewrite V. destruct (_ && _); [destruct (num_gt Do Di)|]; reflexivity. }
  assert (Nq : notifications q = notifications p).
  { rewrite V. destruct (_ && _); [destruct (num_gt Do Di)|]; reflexivity. }
  assert (E : num_gt Do Di && num_gt Do 0 && num_gt Di 0 = false ->
              input q "sheathThickness" = Empty).
  { intros H. rewrite V.
    destruct (num_gt Do 0), (num_gt Di 0), (num_gt Do Di);
      try discriminate H; reflexivity. }
  split.
  - destruct (sheathForm_submit_notification q) as [n [Hn Hm]].
    exists n. rewrite Hn, Nq. split; [reflexivity|].
    intros M. destruct (Hm M) as [N D]. rewrite Io, Ii in D.
    fold Do Di in D. rewrite (E D) in N. discriminate N.
  - intros D. specialize (E D).
    unfold sheathForm_submit, bind, selected, value, number, gets, ret.
    cbv beta iota zeta. rewrite E. cbn [parseFloat existsb isNaN orb].
    rewrite !orb_true_r. cbn [orb]. split; reflexivity.
Qed.

(** The update reads the two diameters only. *)
Lemma updateSheathGeometry_diameters (p : Page) :
  input (snd (updateSheathGeometry p)) "sheathOuterD" = input p "sheathOuterD" /\
  input (snd (updateSheathGeometry p)) "sheathInnerD" = input p "sheathInnerD".
Proof.
  pose proof (updateSheathGeometry_page p) as V. cbv zeta in V. rewrite V.
  destruct (_ && _); [destruct (num_gt _ _)|]; split; reflexivity.
Qed.

(** X19.  The geometry update writes the two derived fields and the
    borders of the two diameter inputs and nothing else, and it is
    idempotent: a second update leaves every field of the page as the
    first one left it. *)
Theorem updateSheathGeometry_idempotent :
  forall p : Page,
    let q := snd (updateSheathGeometry p) in
    same_page (snd (updateSheathGeometry q)) q /\
    (forall id : string,
        id <> "sheathThickness" -> id <> "sheathAreaGiven" ->
        input q id = input p id) /\
    (forall id : string,
        id <> "sheathOuterD" -> id <> "sheathInnerD" ->
        borderColor q id = borderColor p id) /\
    select q = select p /\ display q = display p /\
    resultText q = resultText p /\ resultClass q = resultClass p /\
    untouched p q /\ notifications q = notifications p.
Proof.
  intros p q.
  pose proof (updateSheathGeometry_page p) as V.
  pose proof (updateSheathGeometry_page q) as W.
  destruct (updateSheathGeometry_diameters p) as [Io Ii].
  cbv zeta in V, W. fold q in V, W, Io, Ii. rewrite Io, Ii in W.
  set (Do := parseFloat (input p "sheathOuterD")) in *.
  set (Di := parseFloat (input p "sheathInnerD")) in *.
  assert (U : forall (A : Type) (a b id : string) (v w : A) (f : string -> A),
             upd a v (upd b w (upd a v (upd b w f))) id
             = upd a v (upd b w f) id).
  { intros A a b id v w f. unfold upd.
    destruct (id =? a)%string; [reflexivity|].
    destruct (id =? b)%string; reflexivity. }
  assert (U' : forall (A : Type) (a b id : string) (v w x y : A) (f : string -> A),
             upd a v (upd b w (upd a x (upd b y (upd a v (upd b w (upd a x (upd b y f))))))) id
             = upd a v (upd b w (upd a x (upd b y f))) id).
  { intros A a b id v w x y f. unfold upd.
    destruct (id =? a)%string; [reflexivity|].
    destruct (id =? b)%string; reflexivity. }
  assert (F : forall (A : Type) (a b id : string) (v w : A) (f : string -> A),
             id <> a -> id <> b -> upd a v (upd b w f) id = f id).
  { intros A a b id v w f Ha Hb. unfold upd.
    rewrite (proj2 (String.eqb_neq id a) Ha), (proj2 (String.eqb_neq id b) Hb).
    reflexivity. }
  split.
  - rewrite W. rewrite V.
    destruct (num_gt Do 0 && num_gt Di 0); [destruct (num_gt Do Di)|];
      unfold same_page, untouched;
      cbn [input select borderColor display resultText resultClass
           conductorData sheathData conductorCalculated sheathCalculated
           notifications set_input set_borderColor];
      repeat split; intros id; try apply U; apply U'.
  - rewrite V.
    destruct (num_gt Do 0 && num_gt Di 0); [destruct (num_gt Do Di)|];
      unfold untouched;
      cbn [input select borderColor display resultText resultClass
           conductorData sheathData conductorCalculated sheathCalculated
           notifications set_input set_borderColor];
      repeat split; intros id Ha Hb;
      repeat (rewrite F by assumption); reflexivity.
Qed.

(** ** Sequences of events and the download handlers *)

Lemma updateSheathGeometry_untouched (p : Page) :
  untouched p (snd (updateSheathGeometry p)) /\
  display (snd (updateSheathGeometry p)) = display p.
Proof.
  pose proof (updateSheathGeometry_page p) as V. cbv zeta in V. rewrite V.
  destruct (_ && _); [destruct (num_gt _ _)|]; repeat split.
Qed.

Lemma sheathForm_submit_stored (p : Page) :
  fst (sheathForm_submit p) = Completed ->
  sheathData (snd (sheathForm_submit p)) <> None /\
  sheathCalculated (snd (sheathForm_submit p)) = true /\
  display (snd (sheathForm_submit p)) "btnDownloadSheath" = "inline-block" /\
  display (snd (sheathForm_submit p)) "btnDownloadConductor"
  = display p "btnDownloadConductor".
Proof.
  unfold sheathForm_submit, bind, selected, value, number, gets, ret.
  cbv beta iota zeta.
  destruct (_ || _); [intros H; discriminate H|].
  destruct (validateVoltageTime_effect (parseFloat (input p "sheathVoltageKv"))
              (parseFloat (input p "sheathTimeSec")) p) as [[F [n E]]|[F E]];
    destruct (validateVoltageTime _ _ p) as [ok q]; cbn [fst snd] in F, E; subst q.
  { apply negb_true_iff in F; subst ok. intros H; discriminate H. }
  apply negb_false_iff in F; subst ok. cbn [negb].
  destruct (num_le _ 0); [intros H; discriminate H|].
  destruct (negb _); [intros H; discriminate H|].
  destruct (calculateSheathAdiabaticArea _ _ _ _ _); [|intros H; discriminate H].
  destruct (calculateM _ _ _ _ _ _); [|intros H; discriminate H].
  destruct (calculateEpsilon _ _); [|intros H; discriminate H].
  destruct (num_ge _ _); intros _; (split; [discriminate|repeat split]).
Qed.

Lemma conductorForm_submit_display (p : Page) :
  fst (conductorForm_submit p) = Completed ->
  display (snd (conductorForm_submit p)) "btnDownloadSheath"
  = display p "btnDownloadSheath".
Proof.
  unfold conductorForm_submit, bind, selected, value, number, gets.
  cbv beta iota zeta.
  destruct (select p "conductorMode" =? "area-from-current")%string.
  - destruct (calculateConductorAreaFromCurrent_effect p) as [[F [n E]]|[F E]];
      destruct (calculateConductorAreaFromCurrent p) as [r q];
      cbn [fst snd] in F, E; subst q; destruct r as [S|]; try discriminate F.
    + intros H; discriminate H.
    + destruct (negb (text_is_empty (input p "givenConductorArea"))).
      * destruct (isNaN _ || num_le _ 0); [intros H; discriminate H|].
        destruct (num_ge _ S); reflexivity.
      * reflexivity.
  - destruct (calculateConductorCurrentFromArea_effect p) as [[F [n E]]|[F E]];
      destruct (calculateConductorCurrentFromArea p) as [r q];
      cbn [fst snd] in F, E; subst q; destruct r as [S|]; try discriminate F.
    + intros H; discriminate H.
    + reflexivity.
Qed.

Lemma fire_consistent (e : event) (p : Page) :
  consistent p -> consistent (snd (fire e p)).
Proof.
  intros H. destruct e as [id v|id v| | | | |r| |r]; cbn [fire].
  - exact H.
  - exact H.
  - unfold bind. destruct (updateSheathGeometry_untouched p) as [[U1 [U2 [U3 U4]]] D].
    destruct (updateSheathGeometry p) as [[] q]. cbn [fst snd ret] in *.
    unfold consistent. rewrite U1, U2, U3, U4, D. exact H.
  - unfold bind. destruct (conductorForm_submit_cases p) as [C|C].
    + destruct (conductorForm_submit_returned p C) as [n E].
      destruct (conductorForm_submit p) as [c q]. cbn [fst snd ret] in *.
      subst q. exact H.
    + destruct (conductorForm_submit_stored p C) as [S1 [S2 S3]].
      destruct (conductorForm_submit_frame p) as [_ [_ [_ [F1 F2]]]].
      pose proof (conductorForm_submit_display p C) as D.
      destruct (conductorForm_submit p) as [c q]. cbn [fst snd ret] in *.
      destruct H as [_ [_ [H3 H4]]].
      unfold consistent. rewrite S1, S2, S3, F1, F2, D.
      split; [split; [intros _; reflexivity|intros _; discriminate]|].
      split; [split; [intros _; reflexivity|intros _; discriminate]|].
      split; assumption.
  - unfold bind. destruct (sheathForm_submit_cases p) as [C|C].
    + destruct (sheathForm_submit_returned p C) as [n E].
      destruct (sheathForm_submit p) as [c q]. cbn [fst snd ret] in *.
      subst q. exact H.
    + destruct (sheathForm_submit_stored p C) as [S1 [S2 [S3 D]]].
      destruct (sheathForm_submit_frame p) as [_ [_ [_ [F1 F2]]]].
      destruct (sheathForm_submit p) as [c q]. cbn [fst snd ret] in *.
      destruct H as [H1 [H2 _]].
      unfold consistent. rewrite S2, S3, F1, F2, D.
      split; [assumption|]. split; [assumption|].
      split; split; intros _; (reflexivity || assumption).
  - unfold btnDownloadConductor_click, bind, gets.
    destruct (conductorData p); exact H.
  - destruct r as [|[] []]; exact H.
  - unfold btnDownloadSheath_click, bind, gets.
    destruct (sheathData p); exact H.
  - destruct r as [|[] []]; exact H.
Qed.

Lemma run_cons (e : event) (rest : list event) (p : Page) :
  run (e :: rest) p
  = ((fst (fire e p) ++ fst (run rest (snd (fire e p))))%list,
     snd (run rest (snd (fire e p)))).
Proof.
  cbn [run]. unfold bind. destruct (fire e p) as [o1 q]. cbn [fst snd].
  destruct (run rest q) as [o2 s]. reflexivity.
Qed.

Lemma run_consistent (events : list event) (p : Page) :
  consistent p -> consistent (snd (run events p)).
Proof.
  revert p. induction events as [|e rest IH]; intros p H.
  - exact H.
  - rewrite run_cons. cbn [snd]. apply IH, fire_consistent, H.
Qed.

(** X20.  Whatever is typed, chosen, submitted or clicked on a page that
    starts with no calculation, the globals and the download buttons stay
    in step: a conductor bundle is stored exactly when
    [conductorCalculated] is set and exactly when the conductor download
    button is shown, and likewise for the sheath. *)
Theorem globals_and_buttons_in_step :
  forall events : list event,
    let q := snd (run events blank) in
    (conductorData q <> None <-> conductorCalculated q = true) /\
    (conductorData q <> None
     <-> display q "btnDownloadConductor" = "inline-block") /\
    (sheathData q <> None <-> sheathCalculated q = true) /\
    (sheathData q <> None <-> display q "btnDownloadSheath" = "inline-block").
Proof.
  intros events q. apply (run_consistent events blank).
  unfold consistent. cbn.
  repeat split; intros H; try discriminate H; exfalso; apply H; reflexivity.
Qed.

(** Where a stored conductor bundle comes from. *)
Lemma fire_conductorData (e : event) (p : Page) :
  conductorData (snd (fire e p)) = conductorData p \/
  (e = SubmitConductor /\ fst (conductorForm_submit p) = Completed /\
   conductorData (snd (fire e p)) = Some (conductor_bundle p)).
Proof.
  destruct e as [id v|id v| | | | |r| |r]; cbn [fire].
  - left; reflexivity.
  - left; reflexivity.
  - left. unfold bind. destruct (updateSheathGeometry_untouched p) as [[U1 _] _].
    destruct (updateSheathGeometry p) as [[] q]. exact U1.
  - unfold bind. destruct (conductorForm_submit_cases p) as [C|C].
    + left. destruct (conductorForm_submit_returned p C) as [n E].
      destruct (conductorForm_submit p) as [c q]. cbn [fst snd ret] in *.
      subst q. reflexivity.
    + right. destruct (conductorForm_submit_stored p C) as [S1 _].
      destruct (conductorForm_submit p) as [c q]. cbn [fst snd ret] in *.
      repeat split; assumption.
  - left. unfold bind. destruct (sheathForm_submit_frame p) as [_ [_ [_ [F1 _]]]].
    destruct (sheathForm_submit p) as [c q]. exact F1.
  - left. unfold btnDownloadConductor_click, bind, gets.
    destruct (conductorData p) eqn:E; (reflexivity || exact E).
  - left. destruct r as [|[] []]; reflexivity.
  - left. unfold btnDownloadSheath_click, bind, gets.
    destruct (sheathData p) eqn:E; (reflexivity || exact E).
  - left. destruct r as [|[] []]; reflexivity.
Qed.

(** Where a stored sheath bundle comes from. *)
Lemma fire_sheathData (e : event) (p : Page) :
  sheathData (snd (fire e p)) = sheathData p \/
  (e = SubmitSheath /\ fst (sheathForm_submit p) = Completed).
Proof.
  destruct e as [id v|id v| | | | |r| |r]; cbn [fire].
  - left; reflexivity.
  - left; reflexivity.
  - left. unfold bind. destruct (updateSheathGeometry_untouched p) as [[_ [U2 _]] _].
    destruct (updateSheathGeometry p) as [[] q]. exact U2.
  - left. unfold bind. destruct (conductorForm_submit_frame p) as [_ [_ [_ [F1 _]]]].
    destruct (conductorForm_submit p) as [c q]. exact F1.
  - unfold bind. destruct (sheathForm_submit_cases p) as [C|C].
    + left. destruct (sheathForm_submit_returned p C) as [n E].
      destruct (sheathForm_submit p) as [c q]. cbn [fst snd ret] in *.
      subst q. reflexivity.
    + right. split; [reflexivity|assumption].
  - left. unfold btnDownloadConductor_click, bind, gets.
    destruct (conductorData p) eqn:E; (reflexivity || exact E).
  - left. destruct r as [|[] []]; reflexivity.
  - left. unfold btnDownloadSheath_click, bind, gets.
    destruct (sheathData p) eqn:E; (reflexivity || exact E).
  - left. destruct r as [|[] []]; reflexivity.
Qed.

(** A request is sent by a click on a download button only, and carries
    the bundle stored at that moment. *)
Lemma fire_post (e : event) (p : Page) (url : string) (b : body) :
  In (Post url b) (fst (fire e p)) ->
  match b with
  | ConductorBody d =>
      url = "/api/generate_conductor_pdf" /\ conductorData p = Some d
  | SheathBody d =>
      url = "/api/generate_sheath_pdf" /\ sheathData p = Some d
  end.
Proof.
  destruct e as [id v|id v| | | | |r| |r]; cbn [fire].
  - intros [].
  - intros [].
  - unfold bind. destruct (updateSheathGeometry p). intros [].
  - unfold bind. destruct (conductorForm_submit p). intros [].
  - unfold bind. destruct (sheathForm_submit p). intros [].
  - unfold btnDownloadConductor_click, bind, gets.
    destruct (conductorData p) as [d|]; [|intros []].
    intros [H|[]]. inversion H. split; reflexivity.
  - destruct r as [|[] []]; cbn; intros H; try contradiction.
    destruct H as [H|[]]; discriminate H.
  - unfold btnDownloadSheath_click, bind, gets.
    destruct (sheathData p) as [d|]; [|intros []].
    intros [H|[]]. inversion H. split; reflexivity.
  - destruct r as [|[] []]; cbn; intros H; try contradiction.
    destruct H as [H|[]]; discriminate H.
Qed.

Lemma run_post (events : list event) (p : Page) (url : string) (b : body) :
  In (Post url b) (fst (run events p)) ->
  match b with
  | ConductorBody d =>
      url = "/api/generate_conductor_pdf" /\
      (conductorData p = Some d \/
       exists before after : list event,
         events = (before ++ SubmitConductor :: after)%list /\
         fst (conductorForm_submit (snd (run before p))) = Completed /\
         d = conductor_bundle (snd (run before p)))
  | SheathBody d =>
      url = "/api/generate_sheath_pdf" /\
      (sheathData p = Some d \/
       exists before after : list event,
         events = (before ++ SubmitSheath :: after)%list /\
         fst (sheathForm_submit (snd (run before p))) = Completed /\
         sheathData (snd (sheathForm_submit (snd (run before p)))) = Some d)
  end.
Proof.
  revert p. induction events as [|e rest IH]; intros p; [intros []|].
  rewrite run_cons. cbn [fst]. intros H. apply in_app_or in H.
  destruct H as [H|H].
  - apply fire_post in H. destruct b as [d|d]; destruct H as [U D];
      (split; [assumption|left; assumption]).
  - specialize (IH _ H). destruct b as [d|d]; destruct IH as [U [D|[bf [af [E [C B]]]]]];
      (split; [assumption|]).
    + destruct (fire_conductorData e p) as [F|[Ee [C F]]].
      * left. rewrite <- F. assumption.
      * right. exists [], rest. subst e. cbn [app run ret snd].
        repeat split; [assumption|]. rewrite F in D. inversion D. reflexivity.
    + right. exists (e :: bf), af. rewrite run_cons. cbn [snd].
      subst rest. repeat split; assumption.
    + destruct (fire_sheathData e p) as [F|[Ee C]].
      * left. rewrite <- F. assumption.
      * right. exists [], rest. subst e. cbn [app run ret snd].
        repeat split; [assumption|].
        cbn [fire] in D. unfold bind in D.
        destruct (sheathForm_submit p) as [c q]. exact D.
    + right. exists (e :: bf), af. rewrite run_cons. cbn [snd].
      subst rest. repeat split; assumption.
Qed.

(** X21.  On a page that starts without bundles, a request is only ever
    sent for a calculation that was made: every body posted to one of the
    two report addresses is the bundle that an earlier submission of the
    matching form stored when it ran to its end. *)
Theorem posted_bundle_was_calculated :
  forall (p : Page) (events : list event) (url : string) (b : body),
    conductorData p = None -> sheathData p = None ->
    In (Post url b) (fst (run events p)) ->
    exists before after : list event,
      match b with
      | ConductorBody d =>
          url = "/api/generate_conductor_pdf" /\
          events = (before ++ SubmitConductor :: after)%list /\
          fst (conductorForm_submit (snd (run before p))) = Completed /\
          d = conductor_bundle (snd (run before p))
      | SheathBody d =>
          url = "/api/generate_sheath_pdf" /\
          events = (before ++ SubmitSheath :: after)%list /\
          fst (sheathForm_submit (snd (run before p))) = Completed /\
          sheathData (snd (sheathForm_submit (snd (run before p)))) = Some d
      end.
Proof.
  intros p events url b Nc Ns H. apply run_post in H.
  destruct b as [d|d]; destruct H as [U [D|[bf [af [E [C B]]]]]].
  - rewrite Nc in D. discriminate D.
  - exists bf, af. repeat split; assumption.
  - rewrite Ns in D. discriminate D.
  - exists bf, af. repeat split; assumption.
Qed.

(** X21, for the copper conductor: a submission, then a click. *)
Lemma posted_bundle_was_calculated_witness :
  exists before after : list event,
    [SubmitConductor; ClickDownloadConductor]
    = (before ++ SubmitConductor :: after)%list /\
    fst (conductorForm_submit (snd (run before copper_candidate_page)))
    = Completed.
Proof.
  destruct (posted_bundle_was_calculated copper_candidate_page
              [SubmitConductor; ClickDownloadConductor]
              "/api/generate_conductor_pdf"
              (ConductorBody (conductor_bundle copper_candidate_page)))
    as [bf [af [_ [E [C _]]]]].
  - reflexivity.
  - reflexivity.
  - rewrite !run_cons. cbn [fst snd run ret fire app].
    unfold bind.
    destruct (conductorForm_submit_stored copper_candidate_page
                copper_candidate_completes) as [S _].
    destruct (conductorForm_submit copper_candidate_page) as [c q].
    cbn [fst snd ret] in *.
    unfold btnDownloadConductor_click, bind, gets. rewrite S.
    left. reflexivity.
  - exists bf, af. split; assumption.
Defined.

Lemma run_no_conductor_completion (events : list event) (p : Page) :
  no_conductor_completion events p ->
  conductorData (snd (run events p)) = conductorData p.
Proof.
  revert p. induction events as [|e rest IH]; intros p; [reflexivity|].
  intros [Q1 Q2]. rewrite run_cons. cbn [snd]. rewrite (IH _ Q2).
  destruct (fire_conductorData e p) as [F|[Ee [C _]]]; [assumption|].
  rewrite (Q1 Ee) in C. discriminate C.
Qed.

(** X22.  A stored conductor bundle outlives the inputs it was computed
    from: after a submission that ran to its end, whatever is typed or
    chosen and however many conductor submissions are turned away, a
    click on the download button posts the bundle of that submission. *)
Theorem download_posts_last_completed :
  forall (p : Page) (events : list event),
    fst (conductorForm_submit p) = Completed ->
    no_conductor_completion events (snd (conductorForm_submit p)) ->
    fst (btnDownloadConductor_click
           (snd (run events (snd (conductorForm_submit p)))))
    = [Post "/api/generate_conductor_pdf" (ConductorBody (conductor_bundle p))].
Proof.
  intros p events C Q.
  unfold btnDownloadConductor_click, bind, gets.
  rewrite (run_no_conductor_completion _ _ Q).
  destruct (conductorForm_submit_stored p C) as [-> _]. reflexivity.
Qed.

(** Without a short-circuit current the area calculation reports and
    the conductor submission is turned away. *)
Lemma conductorForm_submit_without_current (p : Page) :
  select p "conductorMode" = "area-from-current" ->
  fst (conductorForm_submit (set_input "sccKa" Empty p)) = Returned.
Proof.
  intros M. rewrite conductorForm_submit_outcome. cbv zeta.
  change (select (set_input "sccKa" Empty p)) with (select p). rewrite M.
  cbn [String.eqb Ascii.eqb Bool.eqb].
  rewrite calculateConductorAreaFromCurrent_value. cbv zeta.
  change (parseFloat (input (set_input "sccKa" Empty p) "sccKa")) with NaN.
  cbn [existsb isNaN orb]. rewrite orb_true_r. reflexivity.
Qed.

(** X22, for the copper conductor: the current is erased and the next
    submission turned away, yet the download posts the bundle of the
    first submission. *)
Lemma download_posts_last_completed_witness :
  fst (btnDownloadConductor_click
         (snd (run [Edit "sccKa" Empty; SubmitConductor]
                 (snd (conductorForm_submit copper_candidate_page)))))
  = [Post "/api/generate_conductor_pdf"
       (ConductorBody (conductor_bundle copper_candidate_page))].
Proof.
  apply (download_posts_last_completed copper_candidate_page
           [Edit "sccKa" Empty; SubmitConductor]).
  - exact copper_candidate_completes.
  - cbn [no_conductor_completion]. split; [discriminate|].
    split; [|exact I]. intros _.
    apply conductorForm_submit_without_current.
    destruct (conductorForm_submit_frame copper_candidate_page) as [_ [S _]].
    rewrite S. reflexivity.
Defined.

(** ** The object URL of the PDF preview *)

Lemma pdfInput_change_invariant (file : bool) (s : Preview) :
  preview_invariant s -> preview_invariant (pdfInput_change file s).
Proof.
  intros [R [C D]]. unfold pdfInput_change.
  destruct file; cbn [negb]; unfold preview_invariant, live;
    cbn [page uploadedPdfUrl objectURLs revokedURLs].
  - split; [|split].
    + intros u H. destruct (uploadedPdfUrl s) as [v|] eqn:E.
      * destruct H as [<-|H].
        -- destruct (C v eq_refl) as [Hv _]. apply Nat.lt_lt_succ_r. exact Hv.
        -- apply Nat.lt_lt_succ_r. apply R. exact H.
      * apply Nat.lt_lt_succ_r. apply R. exact H.
    + intros u H. injection H as <-. split; [apply Nat.lt_succ_diag_r|].
      intros H1. destruct (uploadedPdfUrl s) as [v|] eqn:E.
      * destruct H1 as [H1|H1].
        -- destruct (C _ eq_refl) as [Hv _]. rewrite H1 in Hv.
           exact (Nat.lt_irrefl _ Hv).
        -- exact (Nat.lt_irrefl _ (R _ H1)).
      * exact (Nat.lt_irrefl _ (R _ H1)).
    + intros _. reflexivity.
  - split; [exact R|]. split; [intros u H; discriminate H|].
    intros H. exfalso. apply H. reflexivity.
Qed.

Lemma selections_invariant (files : list bool) (s : Preview) :
  preview_invariant s -> preview_invariant (selections files s).
Proof.
  revert s. induction files as [|f rest IH]; intros s H; [exact H|].
  apply IH, pdfInput_change_invariant, H.
Qed.

Lemma loaded_invariant : preview_invariant loaded.
Proof.
  split; [intros u []|]. split; [intros u H; discriminate H|].
  intros H. exfalso. apply H. reflexivity.
Qed.

(** X23.  Whatever files are chosen and cleared, the URL that the view
    button opens was created and has not been revoked, and the button is
    shown while there is such a URL. *)
Theorem viewed_pdf_is_live :
  forall (files : list bool) (u : nat),
    let s := selections files loaded in
    btnViewPdf_click s = Some u ->
    live u s /\ display (page s) "btnViewPdf" = "inline-block".
Proof.
  intros files u s H.
  destruct (selections_invariant files loaded loaded_invariant) as [_ [C D]].
  fold s in C, D. unfold btnViewPdf_click in H.
  destruct (uploadedPdfUrl s) as [v|] eqn:E; [|discriminate H].
  injection H as ->. split; [apply C; reflexivity|].
  apply D. discriminate.
Qed.

(** X23, after a file, a second file, no file and a third file. *)
Lemma viewed_pdf_is_live_witness :
  let s := selections [true; true; false; true] loaded in
  live 2 s /\ display (page s) "btnViewPdf" = "inline-block".
Proof.
  apply (viewed_pdf_is_live [true; true; false; true] 2). reflexivity.
Defined.

(** A URL that is live and not the one of the global stays so. *)
Lemma selections_orphan (files : list bool) (s : Preview) (u : nat) :
  live u s -> uploadedPdfUrl s <> Some u ->
  live u (selections files s) /\ uploadedPdfUrl (selections files s) <> Some u.
Proof.
  revert s. induction files as [|f rest IH]; intros s L N; [split; assumption|].
  cbn [selections fold_left]. apply IH; destruct L as [L1 L2];
    unfold pdfInput_change, live; destruct f;
    cbn [negb page uploadedPdfUrl objectURLs revokedURLs].
  - split; [apply Nat.lt_lt_succ_r; exact L1|].
    destruct (uploadedPdfUrl s) as [v|]; [|exact L2].
    intros [H|H]; [apply N; rewrite H; reflexivity|exact (L2 H)].
  - split; assumption.
  - intros H. injection H as H. rewrite H in L1. exact (Nat.lt_irrefl _ L1).
  - discriminate.
Qed.

(** X24.  Clearing the file input leaks the object URL of the file that
    was shown: the handler forgets the URL without revoking it, so
    whatever is chosen afterwards it is never revoked and the view button
    never opens it again. *)
Theorem cleared_pdf_url_leaks :
  forall (before after : list bool) (u : nat),
    uploadedPdfUrl (selections before loaded) = Some u ->
    let s := selections (before ++ false :: after) loaded in
    live u s /\ btnViewPdf_click s <> Some u.
Proof.
  intros before after u H s. unfold s, selections.
  rewrite fold_left_app. cbn [fold_left].
  fold (selections before loaded). fold (selections after
    (pdfInput_change false (selections before loaded))).
  destruct (selections_invariant before loaded loaded_invariant) as [_ [C _]].
  destruct (C u H) as [L1 L2].
  destruct (selections_orphan after
              (pdfInput_change false (selections before loaded)) u) as [L N].
  - split; assumption.
  - discriminate.
  - split; [exact L|]. unfold btnViewPdf_click. intros V. apply N.
    destruct (uploadedPdfUrl
                (selections after
                   (pdfInput_change false (selections before loaded))));
      [exact V|discriminate V].
Qed.

(** X24, for a file that is cleared and followed by two more. *)
Lemma cleared_pdf_url_leaks_witness :
  let s := selections [true; false; true; true] loaded in
  live 0 s /\ btnViewPdf_click s <> Some 0%nat.
Proof.
  apply (cleared_pdf_url_leaks [true] [true; true] 0). reflexivity.
Defined.
